(** * Plate stability tracker: a shallow embedding of the detection loops

    The repository tracks licence-plate texts across video frames.  Each
    script keeps a dictionary [plates_seen] (text -> evidence), a set
    [confirmed_plates], and a lock shared by the camera loop and the
    [exit_watcher] thread.  This file embeds the locked region of
    [detection_loop] (one observation), one pass of [exit_watcher] (one
    sweep) and [publish_event], for three of the scripts:

    - [Livestream]: plate_capture_easyocr_livestream.py
    - [Upload]:     plate_capture_easyocr_upload.py (class LPProcessor)
    - [Trial]:      app_trial_livestream.py

    Modelling conventions.
    - Python floats ([time.time()], detector confidences, [EXIT_TIMEOUT])
      are exact rationals [Q]; the rounding of the one subtraction in the
      reaper is not modelled.
    - Python ints ([count], [STABILITY_COUNT]) are [Z].
    - [dict] is [gmap string _], [set] is [gset string].
    - External calls (recognizer, MQTT client, file writes, prints, lock
      acquire and release) are recorded in an output trace of [io_event]s;
      whether an external call raises is read from a [world] oracle.
    - OCR texts and file names are byte strings; [isalnum] and [upper] are
      those of ASCII texts.

    Beyond the tracker the file embeds [crop_with_padding], [run_ocr], the
    frame counter of [detection_loop], [process_image] of the livestream
    and upload scripts, and [get_debug_files] of the upload script. *)

From Stdlib Require Import QArith Lqa.
From stdpp Require Import gmap strings list fin_maps.

Local Open Scope Z_scope.
Local Set Warnings "-clear-no-such-hyp".

(** ** Python primitives *)

(** [a > b] on floats. *)
Definition py_gt (a b : Q) : bool := negb (Qle_bool a b).

(** Two-argument [max(a, b)]: the first argument is kept unless the second
    is strictly greater. *)
Definition py_max (a b : Q) : Q := if py_gt b a then b else a.

(** [texts.count(x)]. *)
Definition py_count (x : string) (texts : list string) : Z :=
  Z.of_nat (length (filter (λ y, y = x) texts)).

(** [max(iterable, key=f)]: the first element, in iteration order, whose
    key is maximal; [None] stands for the ValueError on an empty iterable. *)
Fixpoint py_max_key_from {A} (key : A → Z) (best : A) (l : list A) : A :=
  match l with
  | [] => best
  | x :: l' => py_max_key_from key (if key best <? key x then x else best) l'
  end.

Definition py_max_key {A} (key : A → Z) (l : list A) : option A :=
  match l with
  | [] => None
  | x :: l' => Some (py_max_key_from key x l')
  end.

(** Iterating over [set(texts)] visits every distinct element once, in an
    order the language leaves open.  A [set_order] is one such choice. *)
Record set_order := SetOrder {
  set_iter : list string → list string;
  set_iter_NoDup : ∀ l, NoDup (set_iter l);
  set_iter_elem : ∀ l x, x ∈ set_iter l ↔ x ∈ l
}.

(** Two concrete orders: first occurrences left to right, and the reverse. *)
Definition first_seen_order : set_order :=
  SetOrder remove_dups NoDup_remove_dups
    (λ (l : list string) x, elem_of_remove_dups l x).

Definition last_seen_order : set_order :=
  SetOrder (λ l, reverse (remove_dups l))
    ltac:(intros l; rewrite reverse_Permutation; apply NoDup_remove_dups)
    ltac:(intros l x; rewrite elem_of_reverse; apply elem_of_remove_dups).

(** [max(set(texts), key=texts.count)] *)
Definition majority (o : set_order) (texts : list string) : option string :=
  py_max_key (λ x, py_count x texts) (set_iter o texts).


(** ** Collaborators and the output trace *)

(** A cropped plate image (PIL image); only its identity matters here. *)
Inductive image := PIL_Image (id : nat).

(** The MQTT payload built by [publish_event] (the wall-clock
    "timestamp" entry is left out). *)
Record payload := Payload {
  pl_plate : string;
  pl_event : string;
  pl_confidence : Q;
  pl_image_base64 : option image
}.

Inductive log_line :=
| LogMqtt (event_type plate_text : string) (confidence : Q)
| LogMqttDisabled (event_type plate_text : string) (confidence : Q)
| LogPublishFailed
| LogSaveFailed
| LogDebugSaved (plate_text : string)
| LogExit (pid : string).

(** What a thread does to the outside.  [EvPublishEvent] marks the entry
    into [publish_event], the event emitter; [EvMqttPublish] is the network
    call inside it. *)
Inductive io_event :=
| EvLockAcquire
| EvLockRelease
| EvRunOcr (crop : image)
| EvSaveFile (plate_text : string) (crop : image)
| EvPublishEvent (event_type plate_text : string) (confidence : Q) (crop_img : option image)
| EvMqttPublish (p : payload)
| EvPrint (msg : log_line)
| EvSleep.

(** What the outside world does during one step: does the file write of the
    debug images succeed, does [client.publish] succeed. *)
Record world := World { save_ok : bool; publish_ok : bool }.

(** A statement either completes or lets an exception propagate. *)
Inductive outcome := Returned | Raised.

(** An effectful statement: the events it performed and how it ended. *)
Definition io : Type := list io_event * outcome.

Definition io_skip : io := ([], Returned).
Definition io_do (e : io_event) : io := ([e], Returned).
Definition io_fail (e : io_event) : io := ([e], Raised).

(** [a; b] *)
Definition io_seq (a b : io) : io :=
  match a with
  | (ta, Returned) => (ta ++ b.1, b.2)
  | (ta, Raised) => (ta, Raised)
  end.

(** [try: a  except Exception: h] *)
Definition io_try (a h : io) : io :=
  match a with
  | (ta, Returned) => (ta, Returned)
  | (ta, Raised) => (ta ++ h.1, h.2)
  end.

(** [with lock: body]; the lock is released on the way out of an
    exception too. *)
Definition with_lock (body : io) : io :=
  ([EvLockAcquire] ++ body.1 ++ [EvLockRelease], body.2).

(** [client.publish(topic, json.dumps(payload), qos=1)] *)
Definition client_publish (w : world) (p : payload) : io :=
  if publish_ok w then io_do (EvMqttPublish p) else io_fail (EvMqttPublish p).

(** [crop.save(path)] for the debug images. *)
Definition write_debug_files (w : world) (plate_text : string) (crop : image) : io :=
  if save_ok w then io_do (EvSaveFile plate_text crop)
  else io_fail (EvSaveFile plate_text crop).

(** Policy constants of a script. *)
Record config := Config {
  STABILITY_COUNT : Z;
  EXIT_TIMEOUT : Q;
  DEBUG_SAVE : bool;
  PUBLISH_IMAGE_BASE64 : bool;
  MQTT_ENABLED : bool
}.

Definition build_payload (cfg : config) (event_type plate_text : string)
    (confidence : Q) (crop_img : option image) : payload :=
  {| pl_plate := plate_text;
     pl_event := event_type;
     pl_confidence := confidence;
     pl_image_base64 := if PUBLISH_IMAGE_BASE64 cfg then crop_img else None |}.

(** [publish_event] of plate_capture_easyocr_livestream.py and
    [LPProcessor.publish_event] of plate_capture_easyocr_upload.py (the two
    bodies agree): the network call sits in a try/except. *)
Definition publish_event (cfg : config) (w : world) (event_type plate_text : string)
    (confidence : Q) (crop_img : option image) : io :=
  let p := build_payload cfg event_type plate_text confidence crop_img in
  io_seq (io_do (EvPublishEvent event_type plate_text confidence crop_img))
    (if MQTT_ENABLED cfg then
       io_try
         (io_seq (client_publish w p)
                 (io_do (EvPrint (LogMqtt event_type plate_text confidence))))
         (io_do (EvPrint LogPublishFailed))
     else io_do (EvPrint (LogMqttDisabled event_type plate_text confidence))).

(** One detected box as the camera loop sees it: the detector confidence,
    the result of [crop_with_padding], the text [run_ocr] returns for the
    crop, and the reading of [time.time()] inside the locked region. *)
Record box := Box {
  box_conf : Q;
  box_crop : option image;
  box_text : string;
  box_time : Q
}.

(** The confirmation events of a trace: the calls of the emitter with the
    "entry" tag, as (text, confidence) pairs. *)
Fixpoint entries (tr : list io_event) : list (string * Q) :=
  match tr with
  | [] => []
  | EvPublishEvent ty t c _ :: tr' =>
      if decide (ty = "entry") then (t, c) :: entries tr' else entries tr'
  | _ :: tr' => entries tr'
  end.







(** ** plate_capture_easyocr_livestream.py *)

Module Livestream.

Record candidate := Candidate {
  count : Z;
  last_seen : Q;
  conf : Q;
  texts : list string
}.

Record tracker := Tracker {
  plates_seen : gmap string candidate;
  confirmed_plates : gset string;
  recorded_plates : gset string
}.

Definition initial : tracker := Tracker ∅ ∅ ∅.

(** Module constants of the script. *)
Definition defaults : config :=
  {| STABILITY_COUNT := 5; EXIT_TIMEOUT := 15;
     DEBUG_SAVE := true; PUBLISH_IMAGE_BASE64 := true; MQTT_ENABLED := true |}.

(** The entry of [plates_seen] for [plate_text] after the if/else at the
    head of the locked region. *)
Definition seen_entry (ps : gmap string candidate) (plate_text : string)
    (cf now : Q) : candidate :=
  match ps !! plate_text with
  | None => Candidate 1 now cf [plate_text]
  | Some v => Candidate (count v + 1) now (py_max (conf v) cf) (texts v ++ [plate_text])
  end.

(** The body of [with lock:] in [detection_loop]. *)
Definition observe (cfg : config) (o : set_order) (w : world) (s : tracker)
    (plate_text : string) (cf now : Q) (crop : image) : tracker * io :=
  let v := seen_entry (plates_seen s) plate_text cf now in
  let ps := <[plate_text := v]> (plates_seen s) in
  if STABILITY_COUNT cfg <=? count v then
    match majority o (texts v) with
    | None => (Tracker ps (confirmed_plates s) (recorded_plates s), ([], Raised))
    | Some final_text =>
      if decide (final_text ∈ confirmed_plates s) then
        (Tracker ps (confirmed_plates s) (recorded_plates s), io_skip)
      else
        let cp := {[final_text]} ∪ confirmed_plates s in
        let emit := publish_event cfg w "entry" final_text (conf v) (Some crop) in
        if DEBUG_SAVE cfg && bool_decide (final_text ∉ recorded_plates s) then
          if save_ok w then
            (Tracker ps cp ({[final_text]} ∪ recorded_plates s),
             io_seq (write_debug_files w final_text crop) emit)
          else
            (Tracker ps cp (recorded_plates s),
             io_seq (io_try (write_debug_files w final_text crop)
                            (io_do (EvPrint LogSaveFailed))) emit)
        else (Tracker ps cp (recorded_plates s), emit)
    end
  else (Tracker ps (confirmed_plates s) (recorded_plates s), io_skip).

(** The body of the two [for box in r.boxes] loops for one box. *)
Definition detection_box (cfg : config) (o : set_order) (w : world) (s : tracker)
    (b : box) : tracker * io :=
  match box_crop b with
  | None => (s, io_skip)
  | Some crop =>
    if (String.length (box_text b) <? 4)%nat then (s, io_do (EvRunOcr crop))
    else
      let r := observe cfg o w s (box_text b) (box_conf b) (box_time b) crop in
      (r.1, io_seq (io_do (EvRunOcr crop)) (with_lock r.2))
  end.

(** [expired = [p for p, v in plates_seen.items() if now_ts - v["last_seen"] > EXIT_TIMEOUT]] *)
Definition expired (cfg : config) (now_ts : Q) (ps : gmap string candidate) : list string :=
  (filter (λ pv : string * candidate,
             py_gt (now_ts - last_seen pv.2)%Q (EXIT_TIMEOUT cfg) = true)
          (map_to_list ps)).*1.

(** The body of [with lock:] in [exit_watcher]: only [plates_seen] is
    touched. *)
Definition sweep (cfg : config) (now_ts : Q) (s : tracker) : tracker :=
  Tracker (foldl (λ ps pid, delete pid ps) (plates_seen s)
                 (expired cfg now_ts (plates_seen s)))
          (confirmed_plates s) (recorded_plates s).

(** One turn of the [while True] loop of [exit_watcher]. *)
Definition exit_watcher (cfg : config) (now_ts : Q) (s : tracker) : tracker * io :=
  (sweep cfg now_ts s, io_seq (with_lock io_skip) (io_do EvSleep)).

(** What the two threads do to the shared state, one locked region at a
    time: the body of [with lock:] of the camera loop or of the watcher. *)
Inductive action :=
| Observe (w : world) (plate_text : string) (cf now : Q) (crop : image)
| Sweep (now_ts : Q).

Definition step (cfg : config) (o : set_order) (s : tracker) (a : action) : tracker * io :=
  match a with
  | Observe w plate_text cf now crop => observe cfg o w s plate_text cf now crop
  | Sweep now_ts => (sweep cfg now_ts s, io_skip)
  end.

(** State and accumulated trace after a list of actions. *)
Fixpoint run (cfg : config) (o : set_order) (s : tracker) (acts : list action)
    : tracker * list io_event :=
  match acts with
  | [] => (s, [])
  | a :: acts' =>
      let r := step cfg o s a in
      let r' := run cfg o r.1 acts' in
      (r'.1, r.2.1 ++ r'.2)
  end.

(** [count] of the bucket of [t], 0 when [t] is not a key. *)
Definition count_of (s : tracker) (t : string) : Z :=
  match plates_seen s !! t with
  | Some v => count v
  | None => 0
  end.

(** A run of observations that all carry the text [t]; each comes with
    its world, detector confidence, clock reading and crop. *)
Definition same_text (t : string) (obs : list (world * Q * Q * image)) : list action :=
  map (λ ob, Observe ob.1.1.1 t ob.1.1.2 ob.1.2 ob.2) obs.

(** The state invariant: a bucket holds [count] repetitions of its key,
    at least one, and a bucket at or over the threshold is confirmed. *)
Definition bucket_ok (cfg : config) (cp : gset string) (k : string) (v : candidate) : Prop :=
  1 ≤ count v ∧ texts v = replicate (Z.to_nat (count v)) k ∧
  (STABILITY_COUNT cfg ≤ count v → k ∈ cp).

Definition inv (cfg : config) (s : tracker) : Prop :=
  ∀ k v, plates_seen s !! k = Some v → bucket_ok cfg (confirmed_plates s) k v.

(** While one text is observed over and over, it is confirmed exactly
    when its count has reached the threshold. *)
Definition in_step (cfg : config) (t : string) (s : tracker) : Prop :=
  inv cfg s ∧ (t ∈ confirmed_plates s ↔ STABILITY_COUNT cfg ≤ count_of s t).

(** [conf] of the bucket of [t], when [t] is a key. *)
Definition conf_of (s : tracker) (t : string) : option Q :=
  conf <$> plates_seen s !! t.

End Livestream.

(** ** plate_capture_easyocr_upload.py, class LPProcessor *)

Module Upload.

Record candidate := Candidate {
  count : Z;
  last_seen : Q;
  conf : Q;
  texts : list string;
  crop : image
}.

Record tracker := Tracker {
  plates_seen : gmap string candidate;
  confirmed_plates : gset string
}.

Definition initial : tracker := Tracker ∅ ∅.

(** The CONFIG dictionary when no environment variable is set. *)
Definition defaults : config :=
  {| STABILITY_COUNT := 5; EXIT_TIMEOUT := 15;
     DEBUG_SAVE := true; PUBLISH_IMAGE_BASE64 := true; MQTT_ENABLED := true |}.

(** [_save_debug_images]: returns at once when DEBUG_SAVE is off, and
    swallows every exception of the file writes. *)
Definition _save_debug_images (cfg : config) (w : world) (plate_text : string)
    (crop_pil : image) : io :=
  if DEBUG_SAVE cfg then
    io_try (io_seq (write_debug_files w plate_text crop_pil)
                   (io_do (EvPrint (LogDebugSaved plate_text))))
           (io_do (EvPrint LogSaveFailed))
  else io_skip.

Definition seen_entry (ps : gmap string candidate) (plate_text : string)
    (cf now : Q) (cr : image) : candidate :=
  match ps !! plate_text with
  | None => Candidate 1 now cf [plate_text] cr
  | Some v =>
      Candidate (count v + 1) now (py_max (conf v) cf) (texts v ++ [plate_text]) cr
  end.

(** The body of [with self.lock:] in [detection_loop]. *)
Definition observe (cfg : config) (o : set_order) (w : world) (s : tracker)
    (plate_text : string) (cf now : Q) (cr : image) : tracker * io :=
  let v := seen_entry (plates_seen s) plate_text cf now cr in
  let ps := <[plate_text := v]> (plates_seen s) in
  if STABILITY_COUNT cfg <=? count v then
    match majority o (texts v) with
    | None => (Tracker ps (confirmed_plates s), ([], Raised))
    | Some final_text =>
      if decide (final_text ∈ confirmed_plates s) then
        (Tracker ps (confirmed_plates s), io_skip)
      else
        let final_conf := conf v in
        let final_crop := crop v in
        (Tracker ps ({[final_text]} ∪ confirmed_plates s),
         io_seq (publish_event cfg w "entry" final_text final_conf (Some final_crop))
                (if DEBUG_SAVE cfg then _save_debug_images cfg w final_text final_crop
                 else io_skip))
    end
  else (Tracker ps (confirmed_plates s), io_skip).

Definition detection_box (cfg : config) (o : set_order) (w : world) (s : tracker)
    (b : box) : tracker * io :=
  match box_crop b with
  | None => (s, io_skip)
  | Some cr =>
    if (String.length (box_text b) <? 4)%nat then (s, io_do (EvRunOcr cr))
    else
      let r := observe cfg o w s (box_text b) (box_conf b) (box_time b) cr in
      (r.1, io_seq (io_do (EvRunOcr cr)) (with_lock r.2))
  end.

Definition expired (cfg : config) (now_ts : Q) (ps : gmap string candidate) : list string :=
  (filter (λ pv : string * candidate,
             py_gt (now_ts - last_seen pv.2)%Q (EXIT_TIMEOUT cfg) = true)
          (map_to_list ps)).*1.

(** The body of [for pid in expired:]. *)
Definition evict (r : tracker * list io_event) (pid : string) : tracker * list io_event :=
  let s := r.1 in
  if decide (pid ∈ confirmed_plates s) then
    (Tracker (delete pid (plates_seen s)) (confirmed_plates s ∖ {[pid]}),
     r.2 ++ [EvPrint (LogExit pid)])
  else (Tracker (delete pid (plates_seen s)) (confirmed_plates s), r.2).

(** The body of [with self.lock:] in [_exit_watcher]. *)
Definition sweep (cfg : config) (now_ts : Q) (s : tracker) : tracker * list io_event :=
  foldl evict (s, []) (expired cfg now_ts (plates_seen s)).

(** One turn of the [while True] loop of [_exit_watcher]. *)
Definition _exit_watcher (cfg : config) (now_ts : Q) (s : tracker) : tracker * io :=
  let r := sweep cfg now_ts s in
  (r.1, io_seq (with_lock (r.2, Returned)) (io_do EvSleep)).

Inductive action :=
| Observe (w : world) (plate_text : string) (cf now : Q) (cr : image)
| Sweep (now_ts : Q).

Definition step (cfg : config) (o : set_order) (s : tracker) (a : action) : tracker * io :=
  match a with
  | Observe w plate_text cf now cr => observe cfg o w s plate_text cf now cr
  | Sweep now_ts => ((sweep cfg now_ts s).1, ((sweep cfg now_ts s).2, Returned))
  end.

Fixpoint run (cfg : config) (o : set_order) (s : tracker) (acts : list action)
    : tracker * list io_event :=
  match acts with
  | [] => (s, [])
  | a :: acts' =>
      let r := step cfg o s a in
      let r' := run cfg o r.1 acts' in
      (r'.1, r.2.1 ++ r'.2)
  end.

Definition count_of (s : tracker) (t : string) : Z :=
  match plates_seen s !! t with
  | Some v => count v
  | None => 0
  end.

Definition same_text (t : string) (obs : list (world * Q * Q * image)) : list action :=
  map (λ ob, Observe ob.1.1.1 t ob.1.1.2 ob.1.2 ob.2) obs.

(** The state invariant: a bucket holds [count] repetitions of its key,
    at least one; a bucket at or over the threshold is confirmed; and a
    confirmed text is a key at or over the threshold. *)
Definition bucket_ok (cfg : config) (cp : gset string) (k : string) (v : candidate) : Prop :=
  1 ≤ count v ∧ texts v = replicate (Z.to_nat (count v)) k ∧
  (STABILITY_COUNT cfg ≤ count v → k ∈ cp).

Definition inv (cfg : config) (s : tracker) : Prop :=
  ∀ k v, plates_seen s !! k = Some v → bucket_ok cfg (confirmed_plates s) k v.

(** While one text is observed over and over, it is confirmed exactly
    when its count has reached the threshold. *)
Definition in_step (cfg : config) (t : string) (s : tracker) : Prop :=
  inv cfg s ∧ (t ∈ confirmed_plates s ↔ STABILITY_COUNT cfg ≤ count_of s t).

(** [conf] of the bucket of [t], when [t] is a key. *)
Definition conf_of (s : tracker) (t : string) : option Q :=
  conf <$> plates_seen s !! t.

End Upload.

(** ** app_trial_livestream.py *)

Module Trial.

Record candidate := Candidate {
  count : Z;
  last_seen : Q;
  conf : Q;
  texts : list string
}.

Record tracker := Tracker {
  plates_seen : gmap string candidate;
  confirmed_plates : gset string
}.

Definition initial : tracker := Tracker ∅ ∅.

Definition defaults : config :=
  {| STABILITY_COUNT := 3; EXIT_TIMEOUT := 15;
     DEBUG_SAVE := true; PUBLISH_IMAGE_BASE64 := true; MQTT_ENABLED := true |}.

(** [publish_event] of this script calls [client.publish] with no
    try/except around it. *)
Definition publish_event (cfg : config) (w : world) (event_type plate_text : string)
    (confidence : Q) (crop_img : option image) : io :=
  let p := build_payload cfg event_type plate_text confidence crop_img in
  io_seq (io_do (EvPublishEvent event_type plate_text confidence crop_img))
    (io_seq (client_publish w p)
            (io_do (EvPrint (LogMqtt event_type plate_text confidence)))).

Definition seen_entry (ps : gmap string candidate) (plate_text : string)
    (cf now : Q) : candidate :=
  match ps !! plate_text with
  | None => Candidate 1 now cf [plate_text]
  | Some v => Candidate (count v + 1) now (py_max (conf v) cf) (texts v ++ [plate_text])
  end.

(** The body of [with lock:] in [detection_loop]. *)
Definition observe (cfg : config) (o : set_order) (w : world) (s : tracker)
    (plate_text : string) (cf now : Q) (crop : image) : tracker * io :=
  let v := seen_entry (plates_seen s) plate_text cf now in
  let ps := <[plate_text := v]> (plates_seen s) in
  if (STABILITY_COUNT cfg <=? count v) && bool_decide (plate_text ∉ confirmed_plates s) then
    match majority o (texts v) with
    | None => (Tracker ps (confirmed_plates s), ([], Raised))
    | Some final_text =>
        (Tracker ps ({[final_text]} ∪ confirmed_plates s),
         publish_event cfg w "entry" final_text (conf v) (Some crop))
    end
  else (Tracker ps (confirmed_plates s), io_skip).

Definition detection_box (cfg : config) (o : set_order) (w : world) (s : tracker)
    (b : box) : tracker * io :=
  match box_crop b with
  | None => (s, io_skip)
  | Some crop =>
    if (String.length (box_text b) <? 4)%nat then (s, io_do (EvRunOcr crop))
    else
      let save := if DEBUG_SAVE cfg then write_debug_files w (box_text b) crop else io_skip in
      match io_seq (io_do (EvRunOcr crop)) save with
      | (tr, Raised) => (s, (tr, Raised))
      | (tr, Returned) =>
          let r := observe cfg o w s (box_text b) (box_conf b) (box_time b) crop in
          (r.1, io_seq (tr, Returned) (with_lock r.2))
      end
  end.

End Trial.

(** ** Scenarios for the examples *)

(** Every external call succeeds. *)
Definition calm : world := World true true.

(** The broker is gone: [client.publish] raises. *)
Definition broker_down : world := World true false.

Definition crop0 : image := PIL_Image 0.

(** [n] sightings of a plate, one per second from [start] on, each with
    detector confidence 0.9, in a calm world. *)
Definition sightings (n : nat) (start : Z) : list (world * Q * Q * image) :=
  map (λ i, (calm, 9 # 10, inject_Z (start + Z.of_nat i), crop0)) (seq 0 n).

(** ** The two threads, one loop body at a time *)

(** A turn of the camera loop on one box, or a turn of the watcher. *)
Inductive turn :=
| Camera (w : world) (b : box)
| Watcher (now_ts : Q).

Definition ls_turn (cfg : config) (o : set_order) (s : Livestream.tracker) (t : turn)
    : Livestream.tracker * io :=
  match t with
  | Camera w b => Livestream.detection_box cfg o w s b
  | Watcher now_ts => Livestream.exit_watcher cfg now_ts s
  end.

(** The turns are taken in order; a turn that raises ends its thread, which
    is recorded as [Raised] and stops the run. *)
Fixpoint ls_turns (cfg : config) (o : set_order) (s : Livestream.tracker)
    (ts : list turn) : Livestream.tracker * io :=
  match ts with
  | [] => (s, io_skip)
  | t :: ts' =>
      let r := ls_turn cfg o s t in
      match r.2.2 with
      | Raised => r
      | Returned =>
          let r' := ls_turns cfg o r.1 ts' in
          (r'.1, (r.2.1 ++ r'.2.1, r'.2.2))
      end
  end.

Definition up_turn (cfg : config) (o : set_order) (s : Upload.tracker) (t : turn)
    : Upload.tracker * io :=
  match t with
  | Camera w b => Upload.detection_box cfg o w s b
  | Watcher now_ts => Upload._exit_watcher cfg now_ts s
  end.

Fixpoint up_turns (cfg : config) (o : set_order) (s : Upload.tracker)
    (ts : list turn) : Upload.tracker * io :=
  match ts with
  | [] => (s, io_skip)
  | t :: ts' =>
      let r := up_turn cfg o s t in
      match r.2.2 with
      | Raised => r
      | Returned =>
          let r' := up_turns cfg o r.1 ts' in
          (r'.1, (r.2.1 ++ r'.2.1, r'.2.2))
      end
  end.

(** ** crop_with_padding (the same body in the three scripts) *)

(** [int(x)] on a float: truncation toward zero. *)
Definition py_int (q : Q) : Z := Z.quot (Qnum q) (Z.pos (Qden q)).

(** Where the bound [i] of a slice [a:b] falls on an axis of length [n]:
    a negative bound counts from the end, and every bound is clamped to
    the axis. *)
Definition slice_bound (n i : Z) : Z :=
  if i <? 0 then Z.max 0 (i + n) else Z.min i n.

(** The pixels of a crop: rows [top, bottom) and columns [left, right) of
    the frame. *)
Record rect := Rect { r_top : Z; r_bottom : Z; r_left : Z; r_right : Z }.

(** [crop_with_padding(image, box, pad_frac)] on a frame of [h] rows and
    [w] columns with three channels; [None] when [crop.size == 0]. *)
Definition crop_with_padding (h w : Z) (bx : Z * Z * Z * Z) (pad_frac : Q) : option rect :=
  let '(x1, y1, x2, y2) := bx in
  let pad_x := py_int (inject_Z (x2 - x1) * pad_frac) in
  let pad_y := py_int (inject_Z (y2 - y1) * pad_frac) in
  let x1 := Z.max 0 (x1 - pad_x) in
  let y1 := Z.max 0 (y1 - pad_y) in
  let x2 := Z.min (w - 1) (x2 + pad_x) in
  let y2 := Z.min (h - 1) (y2 + pad_y) in
  let r := Rect (slice_bound h y1) (slice_bound h y2) (slice_bound w x1) (slice_bound w x2) in
  let size := Z.max 0 (r_bottom r - r_top r) * Z.max 0 (r_right r - r_left r) * 3 in
  if size =? 0 then None else Some r.

(** CROP_PAD of the scripts. *)
Definition CROP_PAD : Q := 8 # 100.

(** ** run_ocr *)

(** Code point of a character; the texts modelled here are ASCII. *)
Definition code (c : Ascii.ascii) : N := Ascii.N_of_ascii c.

Definition is_digit (c : Ascii.ascii) : bool := (48 <=? code c)%N && (code c <=? 57)%N.
Definition is_upper (c : Ascii.ascii) : bool := (65 <=? code c)%N && (code c <=? 90)%N.
Definition is_lower (c : Ascii.ascii) : bool := (97 <=? code c)%N && (code c <=? 122)%N.

(** [c.isalnum()] on an ASCII character. *)
Definition py_isalnum (c : Ascii.ascii) : bool := is_digit c || is_upper c || is_lower c.

(** [c.upper()] on an ASCII character. *)
Definition py_upper_char (c : Ascii.ascii) : Ascii.ascii :=
  if is_lower c then Ascii.ascii_of_N (code c - 32) else c.

(** ["".join([c for c in s if c.isalnum()])] *)
Fixpoint keep_alnum (s : string) : string :=
  match s with
  | EmptyString => EmptyString
  | String c s' => if py_isalnum c then String c (keep_alnum s') else keep_alnum s'
  end.

(** [s.upper()] *)
Fixpoint py_upper (s : string) : string :=
  match s with
  | EmptyString => EmptyString
  | String c s' => String (py_upper_char c) (py_upper s')
  end.

(** One entry of [reader.readtext(..., detail=1)]: the text [r[1]] and the
    confidence [r[2]] (the box [r[0]] is not read by the scripts). *)
Record ocr_result := OcrResult { ocr_text : string; ocr_conf : Q }.

(** [max(results, key=lambda r: r[2])]: the first result of greatest
    confidence; [None] on an empty list. *)
Fixpoint best_from (best : ocr_result) (l : list ocr_result) : ocr_result :=
  match l with
  | [] => best
  | r :: l' => best_from (if py_gt (ocr_conf r) (ocr_conf best) then r else best) l'
  end.

Definition best_result (results : list ocr_result) : option ocr_result :=
  match results with
  | [] => None
  | r :: l => Some (best_from r l)
  end.

(** [run_ocr] of the livestream and trial scripts, on what [readtext]
    returned. *)
Definition run_ocr (results : list ocr_result) : string :=
  match best_result results with
  | None => ""
  | Some best => py_upper (keep_alnum (ocr_text best))
  end.

(** [LPProcessor.run_ocr]: the text and the confidence of the best result,
    [("", 0.0)] when there is none. *)
Definition up_run_ocr (results : list ocr_result) : string * Q :=
  match best_result results with
  | None => ("", 0%Q)
  | Some best => (py_upper (keep_alnum (ocr_text best)), ocr_conf best)
  end.

(** A text of ASCII characters only. *)
Fixpoint ascii_only (s : string) : bool :=
  match s with
  | EmptyString => true
  | String c s' => (code c <? 128)%N && ascii_only s'
  end.

(** A text of digits and capital letters only. *)
Fixpoint plate_chars (s : string) : bool :=
  match s with
  | EmptyString => true
  | String c s' => (is_digit c || is_upper c) && plate_chars s'
  end.

(** ** The frame counter of detection_loop *)

Inductive frame_fate := ReadFailed | Skipped | Processed | DivisionByZero.

(** One turn of the [while] loop, up to the FRAME_SKIP test: a failed
    read leaves [frame_idx] alone; a read frame is counted and then
    processed when [frame_idx % FRAME_SKIP == 0], which raises when
    FRAME_SKIP is 0. *)
Definition frame_gate (frame_skip frame_idx : Z) (ret : bool) : Z * frame_fate :=
  if ret then
    let frame_idx := frame_idx + 1 in
    if frame_skip =? 0 then (frame_idx, DivisionByZero)
    else if negb (frame_idx mod frame_skip =? 0) then (frame_idx, Skipped)
    else (frame_idx, Processed)
  else (frame_idx, ReadFailed).

(** The fates of the reads of a camera session; the exception of a zero
    FRAME_SKIP ends the loop. *)
Fixpoint camera_session (frame_skip frame_idx : Z) (reads : list bool) : list frame_fate :=
  match reads with
  | [] => []
  | ret :: reads' =>
      let r := frame_gate frame_skip frame_idx ret in
      match r.2 with
      | DivisionByZero => [DivisionByZero]
      | fate => fate :: camera_session frame_skip r.1 reads'
      end
  end.

(** How many frames of a session were handed to the detector. *)
Definition processed (f : frame_fate) : bool :=
  match f with
  | Processed => true
  | _ => false
  end.

Definition count_processed (fs : list frame_fate) : Z :=
  Z.of_nat (length (filter (λ f, processed f = true) fs)).

(** How many reads of the camera gave a frame. *)
Definition frames_read (reads : list bool) : Z :=
  Z.of_nat (length (filter (λ r, r = true) reads)).

(** ** process_image *)

(** One box of [yolo.predict] on an uploaded image, with what the
    collaborators do for it: the detector confidence, the corners
    [box.xyxy], the PIL image of the crop when there is one, what
    [readtext] returns on that crop, and the world during its file and
    network calls. *)
Record yolo_box := YoloBox {
  yb_conf : Q;
  yb_xyxy : Z * Z * Z * Z;
  yb_crop : image;
  yb_readtext : list ocr_result;
  yb_world : world
}.

(** The calls of the emitter in a trace, as (tag, text, confidence). *)
Fixpoint publications (tr : list io_event) : list (string * string * Q) :=
  match tr with
  | [] => []
  | EvPublishEvent ty t c _ :: tr' => (ty, t, c) :: publications tr'
  | _ :: tr' => publications tr'
  end.

(** An entry of the list [LPProcessor.process_image] returns. *)
Record up_detection := UpDetection {
  ud_plate : string;
  ud_conf : Q;
  ud_ocr_conf : Q;
  ud_bbox : Z * Z * Z * Z
}.

(** The body of the loops of [LPProcessor.process_image] for one box of a
    frame of [h] rows and [w] columns. *)
Definition up_process_box (cfg : config) (pad_frac : Q) (h w : Z) (yb : yolo_box)
    : option up_detection * io :=
  match crop_with_padding h w (yb_xyxy yb) pad_frac with
  | None => (None, io_skip)
  | Some _ =>
      let crop := yb_crop yb in
      let plate_text := (up_run_ocr (yb_readtext yb)).1 in
      let ocr_conf := (up_run_ocr (yb_readtext yb)).2 in
      if (String.length plate_text <? 4)%nat then (None, io_do (EvRunOcr crop))
      else
        (Some (UpDetection plate_text (yb_conf yb) ocr_conf (yb_xyxy yb)),
         io_seq (io_do (EvRunOcr crop))
           (io_seq (if DEBUG_SAVE cfg
                    then Upload._save_debug_images cfg (yb_world yb) plate_text crop
                    else io_skip)
                   (publish_event cfg (yb_world yb) "upload_test" plate_text ocr_conf
                      (Some crop))))
  end.

(** [LPProcessor.process_image]: the detections and the trace; an
    exception in a box would end the call with the detections lost. *)
Fixpoint up_process_image (cfg : config) (pad_frac : Q) (h w : Z) (boxes : list yolo_box)
    : list up_detection * io :=
  match boxes with
  | [] => ([], io_skip)
  | yb :: boxes' =>
      let r := up_process_box cfg pad_frac h w yb in
      match r.2.2 with
      | Raised => ([], r.2)
      | Returned =>
          let r' := up_process_image cfg pad_frac h w boxes' in
          (match r'.2.2 with
           | Raised => []
           | Returned => match r.1 with Some d => d :: r'.1 | None => r'.1 end
           end,
           (r.2.1 ++ r'.2.1, r'.2.2))
      end
  end.

(** What the disk does for one box of the livestream [process_image]:
    whether the detection crop is written, whether the processed OCR image
    is made and written, and whether the fallback write of the crop under
    the OCR name succeeds.  The trace records one write for the detection
    crop and one for the image that ends under the OCR name. *)
Record disk := Disk { det_ok : bool; ocr_ok : bool; fallback_ok : bool }.

(** An entry of the list the livestream [process_image] returns. *)
Record ls_detection := LsDetection {
  ld_plate : string;
  ld_conf : Q;
  ld_bbox : Z * Z * Z * Z;
  ld_det_path : option string;
  ld_ocr_path : option string
}.

(** [os.path.join('debug_capture', f"{ts}_{plate_text}_{tag}_{kind}.jpg")] *)
Definition debug_path (ts plate_text tag kind : string) : string :=
  "debug_capture/" +:+ ts +:+ "_" +:+ plate_text +:+ "_" +:+ tag +:+ "_" +:+ kind +:+ ".jpg".

(** The [if save_debug:] block: the two paths it leaves and the writes it
    tried. *)
Definition ls_save_block (d : disk) (ts plate_text tag : string) (crop : image)
    : option string * option string * list io_event :=
  let det_path := debug_path ts plate_text tag "det" in
  let ocr_path := debug_path ts plate_text tag "ocr" in
  if det_ok d then
    if ocr_ok d then
      (Some det_path, Some ocr_path,
       [EvSaveFile plate_text crop; EvSaveFile plate_text crop])
    else if fallback_ok d then
      (Some det_path, Some ocr_path,
       [EvSaveFile plate_text crop; EvSaveFile plate_text crop])
    else
      (None, None,
       [EvSaveFile plate_text crop; EvSaveFile plate_text crop])
  else (None, None, [EvSaveFile plate_text crop]).

(** The body of the loops of the livestream [process_image] for one box;
    [ts] is the reading of [now_iso()] with its colons replaced. *)
Definition ls_process_box (pad_frac : Q) (h w : Z) (save_debug upload_mode : bool)
    (yb : yolo_box) (d : disk) (ts : string) : option ls_detection * list io_event :=
  match crop_with_padding h w (yb_xyxy yb) pad_frac with
  | None => (None, [])
  | Some _ =>
      let crop := yb_crop yb in
      let plate_text := run_ocr (yb_readtext yb) in
      if (String.length plate_text <? 1)%nat then (None, [EvRunOcr crop])
      else
        let tag := if upload_mode then "upload" else "proc" in
        let saved := if save_debug then ls_save_block d ts plate_text tag crop
                     else (None, None, []) in
        (Some (LsDetection plate_text (yb_conf yb) (yb_xyxy yb) saved.1.1 saved.1.2),
         EvRunOcr crop :: saved.2)
  end.

(** The livestream [process_image] on the boxes of one image. *)
Fixpoint ls_process_image (pad_frac : Q) (h w : Z) (save_debug upload_mode : bool)
    (boxes : list (yolo_box * disk * string)) : list ls_detection * list io_event :=
  match boxes with
  | [] => ([], [])
  | (yb, d, ts) :: boxes' =>
      let r := ls_process_box pad_frac h w save_debug upload_mode yb d ts in
      let r' := ls_process_image pad_frac h w save_debug upload_mode boxes' in
      (match r.1 with Some x => x :: r'.1 | None => r'.1 end, r.2 ++ r'.2)
  end.

(** ** The tracker of app_trial_livestream.py as a whole *)

(** [exit_watcher] of app_trial_livestream.py: the body of its
    [with lock:]. *)
Definition trial_expired (cfg : config) (now_ts : Q) (ps : gmap string Trial.candidate)
    : list string :=
  (filter (λ pv : string * Trial.candidate,
             py_gt (now_ts - Trial.last_seen pv.2)%Q (EXIT_TIMEOUT cfg) = true)
          (map_to_list ps)).*1.

Definition trial_sweep (cfg : config) (now_ts : Q) (s : Trial.tracker) : Trial.tracker :=
  Trial.Tracker (foldl (λ ps pid, delete pid ps) (Trial.plates_seen s)
                       (trial_expired cfg now_ts (Trial.plates_seen s)))
                (Trial.confirmed_plates s).

Definition trial_step (cfg : config) (o : set_order) (s : Trial.tracker)
    (a : Livestream.action) : Trial.tracker * io :=
  match a with
  | Livestream.Observe w plate_text cf now crop => Trial.observe cfg o w s plate_text cf now crop
  | Livestream.Sweep now_ts => (trial_sweep cfg now_ts s, io_skip)
  end.

(** The locked regions in order; an exception ends the script. *)
Fixpoint trial_run (cfg : config) (o : set_order) (s : Trial.tracker)
    (acts : list Livestream.action) : Trial.tracker * io :=
  match acts with
  | [] => (s, io_skip)
  | a :: acts' =>
      let r := trial_step cfg o s a in
      match r.2.2 with
      | Raised => r
      | Returned =>
          let r' := trial_run cfg o r.1 acts' in
          (r'.1, (r.2.1 ++ r'.2.1, r'.2.2))
      end
  end.



(** The "[EXIT] Plate ... timed out." lines of a trace. *)
Fixpoint exit_lines (tr : list io_event) : list string :=
  match tr with
  | [] => []
  | EvPrint (LogExit pid) :: tr' => pid :: exit_lines tr'
  | _ :: tr' => exit_lines tr'
  end.

(** ** get_debug_files (plate_capture_easyocr_upload.py) *)

(** File names are the byte strings of their UTF-8 encoding: the
    operations below look for ASCII characters only, and the order of the
    bytes is the order of the code points. *)

(** [f"{ts}_{plate_text}_{tag}_{kind}.jpg"], the name [_save_debug_images]
    gives a file inside debug_capture. *)
Definition debug_name (ts plate_text tag kind : string) : string :=
  ts +:+ "_" +:+ plate_text +:+ "_" +:+ tag +:+ "_" +:+ kind +:+ ".jpg".

(** Character literals are written ["_"%char]. *)
String Notation Ascii.ascii Ascii.ascii_of_byte Ascii.byte_of_ascii : char_scope.
Delimit Scope char_scope with char.

(** [sep not in s] *)
Fixpoint no_char (sep : Ascii.ascii) (s : string) : bool :=
  match s with
  | EmptyString => true
  | String c s' => negb (Ascii.eqb c sep) && no_char sep s'
  end.

(** [s.split(sep)[0]]: what comes before the first [sep]. *)
Fixpoint before_first (sep : Ascii.ascii) (s : string) : string :=
  match s with
  | EmptyString => EmptyString
  | String c s' => if Ascii.eqb c sep then EmptyString else String c (before_first sep s')
  end.

(** [s.rsplit(sep, 1)] when [sep] occurs in [s]: what comes before and
    after the last [sep]. *)
Fixpoint split_last (sep : Ascii.ascii) (s : string) : option (string * string) :=
  match s with
  | EmptyString => None
  | String c s' =>
      match split_last sep s' with
      | Some (a, b) => Some (String c a, b)
      | None => if Ascii.eqb c sep then Some (EmptyString, s') else None
      end
  end.

(** [s.rsplit(sep, 2)] *)
Definition rsplit2 (sep : Ascii.ascii) (s : string) : list string :=
  match split_last sep s with
  | None => [s]
  | Some (a, p2) =>
      match split_last sep a with
      | None => [a; p2]
      | Some (p0, p1) => [p0; p1; p2]
      end
  end.

(** [s.replace(a, b)] for single characters. *)
Fixpoint replace_char (a b : Ascii.ascii) (s : string) : string :=
  match s with
  | EmptyString => EmptyString
  | String c s' => String (if Ascii.eqb c a then b else c) (replace_char a b s')
  end.

(** [s.endswith(suffix)] *)
Fixpoint ends_with (suffix s : string) : bool :=
  String.eqb s suffix ||
  match s with
  | EmptyString => false
  | String _ s' => ends_with suffix s'
  end.

(** [a < b] on strings. *)
Fixpoint str_lt (a b : string) : bool :=
  match a, b with
  | _, EmptyString => false
  | EmptyString, String _ _ => true
  | String c a', String d b' =>
      (code c <? code d)%N || ((code c =? code d)%N && str_lt a' b')
  end.

(** [files.sort(key=key, reverse=True)]: the sort is stable, so a file
    goes behind every file whose key is not smaller than its own. *)
Fixpoint insert_desc (key : string → string) (x : string) (l : list string) : list string :=
  match l with
  | [] => [x]
  | y :: l' => if str_lt (key y) (key x) then x :: l else y :: insert_desc key x l'
  end.

Definition sort_desc (key : string → string) (l : list string) : list string :=
  foldl (λ acc x, insert_desc key x acc) [] l.

(** A value of [temp_dict]. *)
Record gallery_entry := GalleryEntry {
  ge_det : option string;
  ge_ocr : option string;
  ge_plate : string;
  ge_timestamp : string
}.

(** [temp_dict] keeps its keys in the order they were inserted. *)
Definition has_key (k : string) (d : list (string * gallery_entry)) : bool :=
  existsb (λ kv, String.eqb kv.1 k) d.

Definition update_entry (k : string) (g : gallery_entry → gallery_entry)
    (d : list (string * gallery_entry)) : list (string * gallery_entry) :=
  map (λ kv, if String.eqb kv.1 k then (kv.1, g kv.2) else kv) d.

(** The body of [for f in files:]. *)
Definition group_file (d : list (string * gallery_entry)) (f : string)
    : list (string * gallery_entry) :=
  match rsplit2 "_"%char f with
  | [p0; p1; p2] =>
      let base_name := p0 +:+ "_" +:+ p1 in
      let file_type := before_first "."%char p2 in
      let d :=
        if has_key base_name d then d
        else d ++ [(base_name, GalleryEntry None None p1 (replace_char "T"%char " "%char p0))] in
      if String.eqb file_type "det" then
        update_entry base_name
          (λ e, GalleryEntry (Some f) (ge_ocr e) (ge_plate e) (ge_timestamp e)) d
      else if String.eqb file_type "ocr" then
        update_entry base_name
          (λ e, GalleryEntry (ge_det e) (Some f) (ge_plate e) (ge_timestamp e)) d
      else d
  | _ => d
  end.

(** The truth value of [data['det']]: a name that is not empty. *)
Definition truthy (o : option string) : bool :=
  match o with
  | Some s => negb (String.eqb s "")
  | None => false
  end.

Definition is_jpeg (f : string) : bool := ends_with ".jpg" f || ends_with ".jpeg" f.

(** What the endpoint answers: the 403 error or the gallery. *)
Inductive debug_response :=
| DebugDisabled
| Gallery (debug_data : list gallery_entry).

(** [get_debug_files] on what [os.listdir("debug_capture")] returns. *)
Definition get_debug_files (cfg : config) (listdir : list string) : debug_response :=
  if negb (DEBUG_SAVE cfg) then DebugDisabled
  else
    let files := filter (λ f, is_jpeg f = true) listdir in
    let files := sort_desc (before_first "_"%char) files in
    let temp_dict := foldl group_file [] files in
    let debug_data :=
      filter (λ data, truthy (ge_det data) && truthy (ge_ocr data) = true) temp_dict.*2 in
    Gallery (take 10 debug_data).

(** What the loop keeps true of every item of [temp_dict], for files
    taken from a set [P]: the key is [p0_p1] with no underscore in [p1],
    the fields 'plate' and 'timestamp' are made of [p1] and [p0], and a
    file under 'det' or 'ocr' is a file of [P] whose name splits into
    [p0], [p1] and a last part that begins with that kind. *)
Definition paired (P : string → Prop) (kv : string * gallery_entry) : Prop :=
  ∃ p0 p1, kv.1 = p0 +:+ "_" +:+ p1 ∧ no_char "_"%char p1 = true ∧
    ge_plate kv.2 = p1 ∧ ge_timestamp kv.2 = replace_char "T"%char " "%char p0 ∧
    (∀ f, ge_det kv.2 = Some f →
          P f ∧ ∃ p2, rsplit2 "_"%char f = [p0; p1; p2] ∧ before_first "."%char p2 = "det") ∧
    (∀ f, ge_ocr kv.2 = Some f →
          P f ∧ ∃ p2, rsplit2 "_"%char f = [p0; p1; p2] ∧ before_first "."%char p2 = "ocr").

(** ** Scenarios on concrete inputs *)

(** A box of the camera loop that reads "XYZ999" at second [now]. *)
Definition plate_box (now : Z) : box :=
  Box (9 # 10) (Some crop0) "XYZ999" (inject_Z now).

(** A plate at columns 100..300 and rows 200..260 of a 1280x720 frame, on
    which [readtext] finds two texts. *)
Definition plate_yolo_box : yolo_box :=
  YoloBox (9 # 10) (100, 200, 300, 260) crop0
    [OcrResult "b 1234-xy" (95 # 100); OcrResult "ID" (1 # 2)] calm.

(** The same box with a text of three letters and digits. *)
Definition short_yolo_box : yolo_box :=
  YoloBox (9 # 10) (100, 200, 300, 260) crop0 [OcrResult "ab-1" (95 # 100)] calm.

(** A reading of [now_iso()] as [_save_debug_images] shortens it. *)
Definition saved_ts : string := "2025-11-11T10-00-00".

(** What the livestream [process_image] returns for [short_yolo_box] when
    the processed OCR image cannot be written and the fallback can. *)
Definition short_detection : ls_detection :=
  LsDetection "AB1" (9 # 10) (100, 200, 300, 260)
    (Some (debug_path saved_ts "AB1" "proc" "det"))
    (Some (debug_path saved_ts "AB1" "proc" "ocr")).

(** * Facts about the Python primitives *)

Lemma py_gt_spec (a b : Q) : py_gt a b = true ↔ (b < a)%Q.
Proof.
  unfold py_gt. rewrite negb_true_iff.
  destruct (Qle_bool a b) eqn:E.
  - apply Qle_bool_iff in E. split; [discriminate | intros H; lra].
  - split; [intros _ | done].
    destruct (Qlt_le_dec b a) as [H|H]; [done |].
    apply Qle_bool_iff in H. congruence.
Qed.

Lemma py_gt_false (a b : Q) : py_gt a b = false ↔ (a <= b)%Q.
Proof.
  destruct (py_gt a b) eqn:E.
  - apply py_gt_spec in E. split; [discriminate | intros H; lra].
  - split; [intros _ | done].
    destruct (Qlt_le_dec b a) as [H|H]; [| done].
    apply py_gt_spec in H. congruence.
Qed.


Lemma py_max_ge_l (a b : Q) : (a <= py_max a b)%Q.
Proof.
  unfold py_max. destruct (py_gt b a) eqn:E.
  - apply py_gt_spec in E. lra.
  - lra.
Qed.


Section max_key.
Context {A : Type} (key : A → Z).

Lemma py_max_key_from_elem best l :
  py_max_key_from key best l ∈ best :: l.
Proof.
  revert best. induction l as [|x l IH]; intros best; simpl.
  - apply elem_of_cons; by left.
  - pose proof (IH (if key best <? key x then x else best)) as H.
    apply elem_of_cons in H as [H|H]; rewrite !elem_of_cons; [|tauto].
    rewrite H. destruct (key best <? key x); tauto.
Qed.

Lemma py_max_key_from_ge best l :
  key best ≤ key (py_max_key_from key best l).
Proof.
  revert best. induction l as [|x l IH]; intros best; simpl; [lia|].
  pose proof (IH (if key best <? key x then x else best)) as H.
  destruct (Z.ltb_spec (key best) (key x)); lia.
Qed.

Lemma py_max_key_from_max best l x :
  x ∈ best :: l → key x ≤ key (py_max_key_from key best l).
Proof.
  revert best. induction l as [|y l IH]; intros best Hx; simpl.
  - apply list_elem_of_singleton in Hx as ->. lia.
  - pose proof (py_max_key_from_ge (if key best <? key y then y else best) l) as Hge.
    apply elem_of_cons in Hx as [->|Hx].
    + destruct (Z.ltb_spec (key best) (key y)); lia.
    + apply elem_of_cons in Hx as [->|Hx].
      * destruct (Z.ltb_spec (key best) (key y)); lia.
      * apply IH. apply elem_of_cons; by right.
Qed.
End max_key.

Lemma py_count_nonneg x texts : 0 ≤ py_count x texts.
Proof. unfold py_count. lia. Qed.

Lemma py_count_not_elem x texts : x ∉ texts → py_count x texts = 0.
Proof.
  intros Hx. unfold py_count.
  assert (filter (λ y, y = x) texts = []) as ->; [|done].
  induction texts as [|y l IH]; [done|].
  rewrite filter_cons. destruct (decide (y = x)) as [->|]; [set_solver|].
  apply IH. set_solver.
Qed.

(** The vote returns an element of [texts] that no other string beats. *)
Lemma majority_Some o texts r :
  majority o texts = Some r →
  r ∈ texts ∧ ∀ x, py_count x texts ≤ py_count r texts.
Proof.
  unfold majority, py_max_key.
  destruct (set_iter o texts) as [|y l] eqn:E; [done|].
  intros [= <-]. split.
  - apply (set_iter_elem o). rewrite E. apply py_max_key_from_elem.
  - intros x. destruct (decide (x ∈ texts)) as [Hx|Hx].
    + apply (py_max_key_from_max (λ x, py_count x texts)).
      rewrite <- E. by apply set_iter_elem.
    + rewrite (py_count_not_elem x) by done. apply py_count_nonneg.
Qed.

Lemma majority_None o texts : majority o texts = None → texts = [].
Proof.
  unfold majority, py_max_key.
  destruct (set_iter o texts) as [|y l] eqn:E; [|done].
  intros _. destruct texts as [|t texts]; [done|].
  assert (t ∈ set_iter o (t :: texts)) as H by (apply set_iter_elem; set_solver).
  rewrite E in H. set_solver.
Qed.

(** On a bucket that holds only repetitions of one text the vote is that
    text, whatever the iteration order. *)
Lemma majority_bucket o k texts :
  texts ≠ [] → (∀ x, x ∈ texts → x = k) → majority o texts = Some k.
Proof.
  intros Hne Hall. destruct (majority o texts) as [r|] eqn:E.
  - apply majority_Some in E as [Hr _]. f_equal. by apply Hall.
  - by apply majority_None in E.
Qed.

Lemma majority_replicate o k n : (0 < n)%nat → majority o (replicate n k) = Some k.
Proof.
  intros Hn. apply majority_bucket.
  - destruct n; [lia|done].
  - intros x Hx. by apply elem_of_replicate_inv in Hx.
Qed.





(** A duplicate-free list whose elements are all [k] and which contains [k]
    is the one-element list. *)
Lemma NoDup_all_eq (k : string) (l : list string) :
  NoDup l → (∀ x, x ∈ l ↔ x = k) → l = [k].
Proof.
  intros Hnd Hall. destruct l as [|a l].
  - exfalso. eapply not_elem_of_nil. by apply Hall.
  - assert (a = k) as -> by (apply Hall, list_elem_of_here).
    destruct l as [|b l]; [done|]. exfalso.
    assert (b = k) as -> by (apply Hall, list_elem_of_further, list_elem_of_here).
    apply NoDup_cons in Hnd as [Hnot _]. apply Hnot, list_elem_of_here.
Qed.

Lemma set_iter_replicate o k n : (0 < n)%nat → set_iter o (replicate n k) = [k].
Proof.
  intros Hn. apply NoDup_all_eq; [apply set_iter_NoDup|].
  intros x. rewrite set_iter_elem, elem_of_replicate. split; [tauto|].
  intros ->. split; [done | lia].
Qed.

(** * Facts shared by the scripts *)

Lemma foldl_delete_lookup {A} (l : list string) (m : gmap string A) (k : string) :
  foldl (λ ps pid, delete pid ps) m l !! k = if decide (k ∈ l) then None else m !! k.
Proof.
  revert m. induction l as [|x l IH]; intros m; cbn [foldl].
  - rewrite decide_False; [done | apply not_elem_of_nil].
  - rewrite IH. destruct (decide (k = x)) as [->|Hne].
    + rewrite lookup_delete_eq. rewrite (decide_True _ _ (list_elem_of_here x l)).
      by case_decide.
    + rewrite lookup_delete_ne by done.
      destruct (decide (k ∈ l)) as [Hl|Hl].
      * rewrite decide_True; [done | by apply list_elem_of_further].
      * rewrite decide_False; [done|].
        intros [?|?]%elem_of_cons; done.
Qed.

Lemma entries_app tr1 tr2 : entries (tr1 ++ tr2) = entries tr1 ++ entries tr2.
Proof.
  induction tr1 as [|e tr1 IH]; [done|].
  destruct e; simpl; try done. case_decide; simpl; by rewrite IH.
Qed.

(** The emitter is entered exactly once by [publish_event], whatever the
    network does, and [publish_event] itself never raises. *)
Lemma publish_event_entries cfg w t c cr :
  entries (publish_event cfg w "entry" t c cr).1 = [(t, c)].
Proof.
  unfold publish_event, client_publish.
  destruct (MQTT_ENABLED cfg), (publish_ok w); reflexivity.
Qed.

Lemma publish_event_returns cfg w ty t c cr :
  (publish_event cfg w ty t c cr).2 = Returned.
Proof.
  unfold publish_event, client_publish.
  destruct (MQTT_ENABLED cfg), (publish_ok w); reflexivity.
Qed.

(** * plate_capture_easyocr_livestream.py: the tracker *)

Section livestream_facts.
Import Livestream.
Context (cfg : config) (o : set_order).

Lemma ls_expired_elem now_ts (ps : gmap string candidate) k :
  k ∈ expired cfg now_ts ps ↔
  ∃ v, ps !! k = Some v ∧ (EXIT_TIMEOUT cfg < now_ts - last_seen v)%Q.
Proof.
  unfold expired. rewrite list_elem_of_fmap. split.
  - intros [[k' v] [-> [H1 H2]%list_elem_of_filter]]. simpl in *.
    exists v. split; [by apply elem_of_map_to_list | by apply py_gt_spec].
  - intros [v [H1 H2]]. exists (k, v). split; [done|].
    apply list_elem_of_filter. split; [by apply py_gt_spec | by apply elem_of_map_to_list].
Qed.

Lemma ls_sweep_expired now_ts s k v :
  plates_seen s !! k = Some v →
  (EXIT_TIMEOUT cfg < now_ts - last_seen v)%Q →
  plates_seen (sweep cfg now_ts s) !! k = None.
Proof.
  intros Hk Hlt. unfold sweep; cbn [plates_seen]. rewrite foldl_delete_lookup.
  rewrite decide_True; [done|]. apply ls_expired_elem. eauto.
Qed.

Lemma ls_sweep_kept now_ts s k v :
  plates_seen s !! k = Some v →
  (now_ts - last_seen v <= EXIT_TIMEOUT cfg)%Q →
  plates_seen (sweep cfg now_ts s) !! k = Some v.
Proof.
  intros Hk Hle. unfold sweep; cbn [plates_seen]. rewrite foldl_delete_lookup.
  rewrite decide_False; [done|].
  intros [v' [Hv' Hlt]]%ls_expired_elem. simplify_eq. lra.
Qed.

Lemma ls_sweep_subset now_ts s k v :
  plates_seen (sweep cfg now_ts s) !! k = Some v → plates_seen s !! k = Some v.
Proof.
  unfold sweep; cbn [plates_seen]. rewrite foldl_delete_lookup.
  by case_decide.
Qed.

Lemma ls_observe_plates_seen w s t cf now crop :
  plates_seen (observe cfg o w s t cf now crop).1
  = <[t := seen_entry (plates_seen s) t cf now]> (plates_seen s).
Proof. unfold observe. repeat case_match; reflexivity. Qed.

Lemma ls_seen_entry_count s t cf now :
  count (seen_entry (plates_seen s) t cf now) = count_of s t + 1.
Proof. unfold seen_entry, count_of. by destruct (plates_seen s !! t). Qed.

Lemma ls_count_of_observe w s t cf now crop :
  count_of (observe cfg o w s t cf now crop).1 t = count_of s t + 1.
Proof.
  unfold count_of at 1. rewrite ls_observe_plates_seen, lookup_insert_eq.
  apply ls_seen_entry_count.
Qed.

Lemma ls_seen_entry_texts s t cf now :
  inv cfg s →
  1 ≤ count (seen_entry (plates_seen s) t cf now) ∧
  texts (seen_entry (plates_seen s) t cf now)
  = replicate (Z.to_nat (count (seen_entry (plates_seen s) t cf now))) t.
Proof.
  intros Hinv. unfold seen_entry.
  destruct (plates_seen s !! t) as [v|] eqn:E; simpl; [|done].
  destruct (Hinv _ _ E) as (H1 & H2 & _). split; [lia|].
  rewrite H2 at 1. replace (Z.to_nat (count v + 1)) with (S (Z.to_nat (count v))) by lia.
  by rewrite replicate_S_end.
Qed.

Lemma ls_majority_seen_entry s t cf now :
  inv cfg s → majority o (texts (seen_entry (plates_seen s) t cf now)) = Some t.
Proof.
  intros Hinv. destruct (ls_seen_entry_texts s t cf now Hinv) as [H1 H2].
  rewrite H2. apply majority_replicate. lia.
Qed.

(** What one observation does to a state that satisfies the invariant. *)
Lemma ls_observe_spec w s t cf now crop :
  inv cfg s →
  let v := seen_entry (plates_seen s) t cf now in
  let r := observe cfg o w s t cf now crop in
  r.2.2 = Returned ∧
  confirmed_plates r.1
  = (if STABILITY_COUNT cfg <=? count v then {[t]} ∪ confirmed_plates s
     else confirmed_plates s) ∧
  entries r.2.1
  = (if (STABILITY_COUNT cfg <=? count v) && bool_decide (t ∉ confirmed_plates s)
     then [(t, conf v)] else []).
Proof.
  intros Hinv v r. subst v r. unfold observe.
  rewrite (ls_majority_seen_entry s t cf now Hinv).
  destruct (STABILITY_COUNT cfg <=? _); cbn [andb]; [|done].
  destruct (decide (t ∈ confirmed_plates s)) as [Hin|Hin].
  - rewrite (bool_decide_eq_false_2 (t ∉ confirmed_plates s)) by (intros H'; by apply H').
    split_and!; [reflexivity | simpl; set_solver | reflexivity].
  - rewrite (bool_decide_eq_true_2 (t ∉ confirmed_plates s)) by done.
    pose proof (publish_event_entries cfg w t
      (conf (seen_entry (plates_seen s) t cf now)) (Some crop)) as He.
    pose proof (publish_event_returns cfg w "entry" t
      (conf (seen_entry (plates_seen s) t cf now)) (Some crop)) as Hr.
    destruct (publish_event cfg w "entry" t _ (Some crop)) as [tr out].
    simpl in He, Hr. subst out.
    unfold write_debug_files.
    destruct (DEBUG_SAVE cfg), (bool_decide (t ∉ recorded_plates s)), (save_ok w);
      simpl; rewrite ?He; done.
Qed.

Lemma ls_inv_initial : inv cfg initial.
Proof. intros k v H. cbn in H. by rewrite lookup_empty in H. Qed.

Lemma ls_inv_observe w s t cf now crop :
  inv cfg s → inv cfg (observe cfg o w s t cf now crop).1.
Proof.
  intros Hinv k v.
  destruct (ls_observe_spec w s t cf now crop Hinv) as (_ & Hcp & _).
  rewrite ls_observe_plates_seen, Hcp.
  destruct (decide (k = t)) as [->|Hne].
  - rewrite lookup_insert_eq. intros [= <-].
    destruct (ls_seen_entry_texts s t cf now Hinv) as [H1 H2].
    split_and!; [done..|].
    intros Hge. apply Z.leb_le in Hge. rewrite Hge. set_solver.
  - rewrite lookup_insert_ne by done. intros Hk.
    destruct (Hinv _ _ Hk) as (H1 & H2 & H3). split_and!; [done..|].
    intros Hge. specialize (H3 Hge). case_match; set_solver.
Qed.

Lemma ls_inv_sweep now_ts s : inv cfg s → inv cfg (sweep cfg now_ts s).
Proof. intros Hinv k v Hk%ls_sweep_subset. by apply Hinv. Qed.

Lemma ls_inv_step s a : inv cfg s → inv cfg (step cfg o s a).1.
Proof.
  destruct a; simpl; [apply ls_inv_observe | apply ls_inv_sweep].
Qed.

Lemma ls_inv_run acts s : inv cfg s → inv cfg (run cfg o s acts).1.
Proof.
  revert s. induction acts as [|a acts IH]; intros s Hinv; simpl; [done|].
  by apply IH, ls_inv_step.
Qed.

Lemma ls_inv_reachable acts : inv cfg (run cfg o initial acts).1.
Proof. apply ls_inv_run, ls_inv_initial. Qed.

Lemma ls_count_of_same_text t obs s :
  count_of (run cfg o s (same_text t obs)).1 t = count_of s t + Z.of_nat (length obs).
Proof.
  revert s. induction obs as [|ob obs IH]; intros s; simpl; [lia|].
  rewrite IH, ls_count_of_observe. lia.
Qed.

Lemma ls_in_step_observe t w s cf now crop :
  in_step cfg t s → in_step cfg t (observe cfg o w s t cf now crop).1.
Proof.
  intros [Hinv Hiff]. split; [by apply ls_inv_observe|].
  destruct (ls_observe_spec w s t cf now crop Hinv) as (_ & Hcp & _).
  rewrite Hcp, ls_count_of_observe, ls_seen_entry_count.
  destruct (Z.leb_spec (STABILITY_COUNT cfg) (count_of s t + 1)).
  - split; [done | set_solver].
  - rewrite Hiff. lia.
Qed.

Lemma ls_in_step_same_text t obs s :
  in_step cfg t s → in_step cfg t (run cfg o s (same_text t obs)).1.
Proof.
  revert s. induction obs as [|ob obs IH]; intros s H; simpl; [done|].
  by apply IH, ls_in_step_observe.
Qed.

Lemma ls_in_step_start acts t :
  0 < STABILITY_COUNT cfg →
  t ∉ confirmed_plates (run cfg o initial acts).1 →
  in_step cfg t (run cfg o initial acts).1.
Proof.
  intros Hpos Hnot. pose proof (ls_inv_reachable acts) as Hinv.
  split; [done|]. split; [done|]. intros Hge. exfalso.
  unfold count_of in Hge.
  destruct (plates_seen (run cfg o initial acts).1 !! t) as [v|] eqn:E; [|lia].
  destruct (Hinv _ _ E) as (_ & _ & H). auto.
Qed.

(** What one step does to a bucket that exists: an observation keeps it
    and never lowers its count (nor its confidence); a sweep keeps it as it
    is or deletes it. *)
Lemma ls_step_bucket s a k v :
  plates_seen s !! k = Some v →
  (∃ v', plates_seen (step cfg o s a).1 !! k = Some v' ∧
         count v ≤ count v' ∧ (conf v <= conf v')%Q) ∨
  (plates_seen (step cfg o s a).1 !! k = None ∧
   ∃ now_ts, a = Sweep now_ts ∧ (EXIT_TIMEOUT cfg < now_ts - last_seen v)%Q).
Proof.
  intros Hk. destruct a as [w t cf now crop|now_ts]; cbn [step fst].
  - left. rewrite ls_observe_plates_seen.
    destruct (decide (k = t)) as [->|Hne].
    + rewrite lookup_insert_eq. eexists; split; [done|].
      unfold seen_entry. rewrite Hk. simpl. split; [lia | apply py_max_ge_l].
    + rewrite lookup_insert_ne by done. exists v. split_and!; [done | lia | lra].
  - destruct (Qlt_le_dec (EXIT_TIMEOUT cfg) (now_ts - last_seen v)) as [Hlt|Hle].
    + right. split; [by eapply ls_sweep_expired | eauto].
    + left. exists v. split_and!; [by apply ls_sweep_kept | lia | lra].
Qed.

(** C4: with EXIT_TIMEOUT = T, a sweep at a time strictly after
    last_seen + T removes the candidate from [plates_seen], and a sweep at
    a time up to and including last_seen + T leaves it there, unchanged:
    the comparison [now - last_seen > T] is strict. *)
Theorem C4_expiry_is_strict now_ts s k v :
  plates_seen s !! k = Some v →
  ((last_seen v + EXIT_TIMEOUT cfg < now_ts)%Q →
   plates_seen (sweep cfg now_ts s) !! k = None) ∧
  ((now_ts <= last_seen v + EXIT_TIMEOUT cfg)%Q →
   plates_seen (sweep cfg now_ts s) !! k = Some v).
Proof.
  intros Hk. split; intros H.
  - eapply ls_sweep_expired; [done | lra].
  - apply ls_sweep_kept; [done | lra].
Qed.

(** C7: after N observations of one text, with no sweep in between, the
    count of its bucket has grown by N, so it is N when the text was not a
    key before; and no step lowers the count of a bucket: an observation
    keeps or raises it, a sweep keeps the bucket as it is or deletes it
    whole. *)
Theorem C7_count_is_number_of_observations s t obs :
  count_of (run cfg o s (same_text t obs)).1 t = count_of s t + Z.of_nat (length obs) ∧
  (plates_seen s !! t = None →
   count_of (run cfg o s (same_text t obs)).1 t = Z.of_nat (length obs)) ∧
  (∀ a k v, plates_seen s !! k = Some v →
     (∃ v', plates_seen (step cfg o s a).1 !! k = Some v' ∧ count v ≤ count v') ∨
     (plates_seen (step cfg o s a).1 !! k = None ∧ ∃ now_ts, a = Sweep now_ts)).
Proof.
  split_and!.
  - apply ls_count_of_same_text.
  - intros Hnone. rewrite ls_count_of_same_text. unfold count_of. rewrite Hnone. lia.
  - intros a k v Hk.
    destruct (ls_step_bucket s a k v Hk) as [(v' & H1 & H2 & _)|(H1 & now_ts & H2 & _)];
      [left | right]; eauto.
Qed.

(** C2: a text that is not confirmed is observed again and again with no
    sweep in between.  The call number i+1 leaves the count at
    count-before + i + 1, and it emits the confirmation, once, exactly when
    that count equals STABILITY_COUNT; every other call emits nothing. *)
Theorem C2_confirms_when_count_reaches_threshold acts t obs i ob :
  0 < STABILITY_COUNT cfg →
  t ∉ confirmed_plates (run cfg o initial acts).1 →
  obs !! i = Some ob →
  let s := (run cfg o initial acts).1 in
  let s_i := (run cfg o s (same_text t (take i obs))).1 in
  let r := observe cfg o ob.1.1.1 s_i t ob.1.1.2 ob.1.2 ob.2 in
  count_of r.1 t = count_of s t + Z.of_nat i + 1 ∧
  (count_of r.1 t = STABILITY_COUNT cfg → ∃ c, entries r.2.1 = [(t, c)]) ∧
  (count_of r.1 t ≠ STABILITY_COUNT cfg → entries r.2.1 = []).
Proof.
  intros Hpos Hnot Hob s s_i r.
  assert (in_step cfg t s_i) as [Hinv Hiff]
    by (apply ls_in_step_same_text, ls_in_step_start; done).
  assert (count_of s_i t = count_of s t + Z.of_nat i) as Hci.
  { subst s_i. rewrite ls_count_of_same_text, length_take.
    apply lookup_lt_Some in Hob. lia. }
  assert (count_of r.1 t = count_of s_i t + 1) as Hcr
    by (subst r; apply ls_count_of_observe).
  destruct (ls_observe_spec ob.1.1.1 s_i t ob.1.1.2 ob.1.2 ob.2 Hinv) as (_ & _ & He).
  fold r in He. rewrite ls_seen_entry_count in He.
  split_and!; [lia | intros Heq | intros Hne]; rewrite He.
  - rewrite (proj2 (Z.leb_le _ _)) by lia.
    rewrite bool_decide_eq_true_2; [eauto|]. rewrite Hiff. lia.
  - destruct (Z.leb_spec (STABILITY_COUNT cfg) (count_of s_i t + 1)); [|done].
    rewrite bool_decide_eq_false_2; [done|]. rewrite Hiff. lia.
Qed.

(** An observation emits at most the observed text, only when that text
    is not confirmed yet, and with the confidence its bucket then holds. *)
Lemma ls_observe_entries w s t cf now crop tc :
  inv cfg s →
  tc ∈ entries (observe cfg o w s t cf now crop).2.1 →
  tc.1 = t ∧ (t ∉ confirmed_plates s) ∧
  conf_of (observe cfg o w s t cf now crop).1 t = Some tc.2.
Proof.
  intros Hinv. destruct (ls_observe_spec w s t cf now crop Hinv) as (_ & _ & He).
  rewrite He. unfold conf_of. rewrite ls_observe_plates_seen, lookup_insert_eq.
  destruct (STABILITY_COUNT cfg <=? _); cbn [andb]; [|by intros ?%elem_of_nil].
  case_bool_decide as Hc; [|by intros ?%elem_of_nil].
  by intros ->%list_elem_of_singleton.
Qed.

Lemma ls_confirmed_step s a t :
  inv cfg s → t ∈ confirmed_plates s →
  t ∈ confirmed_plates (step cfg o s a).1 ∧
  ∀ c, (t, c) ∉ entries (step cfg o s a).2.1.
Proof.
  intros Hinv Ht. destruct a as [w t' cf now crop|now_ts]; cbn [step fst snd].
  - split.
    + destruct (ls_observe_spec w s t' cf now crop Hinv) as (_ & -> & _).
      case_match; set_solver.
    + intros c Hc. apply (ls_observe_entries _ _ _ _ _ _ _ Hinv) in Hc as (Heq & Hnot & _).
      simpl in Heq. by subst.
  - split; [done | intros c ?%elem_of_nil; done].
Qed.

(** Over a whole run no text is announced twice: every announced text was
    not confirmed at the start and is confirmed at the end. *)
Lemma ls_entries_run acts s :
  inv cfg s →
  confirmed_plates s ⊆ confirmed_plates (run cfg o s acts).1 ∧
  NoDup (entries (run cfg o s acts).2).*1 ∧
  ∀ t, t ∈ (entries (run cfg o s acts).2).*1 →
       (t ∉ confirmed_plates s) ∧ t ∈ confirmed_plates (run cfg o s acts).1.
Proof.
  revert s. induction acts as [|a acts IH]; intros s Hinv; cbn [run fst snd].
  - split_and!; [done | constructor | by intros t ?%elem_of_nil].
  - destruct (IH _ (ls_inv_step s a Hinv)) as (Hsub & Hnd & Hin).
    assert (confirmed_plates s ⊆ confirmed_plates (step cfg o s a).1) as Hmono
      by (intros t Ht; by apply ls_confirmed_step).
    assert (∀ t, t ∈ (entries (step cfg o s a).2.1).*1 →
                 (entries (step cfg o s a).2.1).*1 = [t] ∧
                 (t ∉ confirmed_plates s) ∧ t ∈ confirmed_plates (step cfg o s a).1) as Hnow.
    { destruct a as [w t' cf now crop|now_ts]; cbn [step fst snd];
        [|by intros t ?%elem_of_nil].
      destruct (ls_observe_spec w s t' cf now crop Hinv) as (_ & -> & ->).
      destruct (STABILITY_COUNT cfg <=? _); cbn [andb]; [|by intros t ?%elem_of_nil].
      case_bool_decide; [|by intros t ?%elem_of_nil].
      intros t ->%list_elem_of_singleton. split_and!; [done..|set_solver]. }
    rewrite entries_app, fmap_app. split_and!.
    + set_solver.
    + apply NoDup_app. split_and!; [|intros t Ht Ht'|done].
      * destruct ((entries (step cfg o s a).2.1).*1) as [|t l] eqn:E; [constructor|].
        destruct (Hnow t) as (-> & _); [apply list_elem_of_here|]. apply NoDup_singleton.
      * destruct (Hnow t Ht) as (_ & _ & H1). destruct (Hin t Ht') as [H2 _]. done.
    + intros t [Ht|Ht]%elem_of_app.
      * destruct (Hnow t Ht) as (_ & H1 & H2). split; [done | by apply Hsub].
      * destruct (Hin t Ht) as [H1 H2]. split; [|done]. intros H. by apply H1, Hmono.
Qed.

(** Every bucket of a reachable state holds only its key, so the set built
    from its texts has one element and the vote is the key, in any
    iteration order. *)
Lemma ls_bucket_is_key acts k v o' :
  plates_seen (run cfg o initial acts).1 !! k = Some v →
  (∀ x, x ∈ texts v → x = k) ∧ set_iter o' (texts v) = [k] ∧
  majority o' (texts v) = Some k.
Proof.
  intros Hk. destruct (ls_inv_reachable acts _ _ Hk) as (H1 & H2 & _).
  rewrite H2. split_and!.
  - intros x. apply elem_of_replicate_inv.
  - apply set_iter_replicate. lia.
  - apply majority_replicate. lia.
Qed.





End livestream_facts.


(** * plate_capture_easyocr_upload.py: the tracker *)

Section upload_facts.
Import Upload.
Context (cfg : config) (o : set_order).

Lemma up_expired_elem now_ts (ps : gmap string candidate) k :
  k ∈ expired cfg now_ts ps ↔
  ∃ v, ps !! k = Some v ∧ (EXIT_TIMEOUT cfg < now_ts - last_seen v)%Q.
Proof.
  unfold expired. rewrite list_elem_of_fmap. split.
  - intros [[k' v] [-> [H1 H2]%list_elem_of_filter]]. simpl in *.
    exists v. split; [by apply elem_of_map_to_list | by apply py_gt_spec].
  - intros [v [H1 H2]]. exists (k, v). split; [done|].
    apply list_elem_of_filter. split; [by apply py_gt_spec | by apply elem_of_map_to_list].
Qed.

(** The loop over [expired] deletes the listed keys and takes them out of
    the confirmed set; it only prints. *)
Lemma up_foldl_evict l r :
  plates_seen (foldl evict r l).1 = foldl (λ ps pid, delete pid ps) (plates_seen r.1) l ∧
  confirmed_plates (foldl evict r l).1 = confirmed_plates r.1 ∖ list_to_set l ∧
  entries (foldl evict r l).2 = entries r.2.
Proof.
  revert r. induction l as [|pid l IH]; intros r; cbn [foldl].
  - split_and!; [done | set_solver | done].
  - destruct (IH (evict r pid)) as (H1 & H2 & H3). rewrite H1, H2, H3.
    unfold evict. case_decide; cbn [fst snd plates_seen confirmed_plates].
    + split_and!; [done | set_solver |]. rewrite entries_app. simpl. by rewrite app_nil_r.
    + split_and!; [done | set_solver | done].
Qed.

Lemma up_sweep_plates_seen now_ts s k :
  plates_seen (sweep cfg now_ts s).1 !! k
  = if decide (k ∈ expired cfg now_ts (plates_seen s)) then None else plates_seen s !! k.
Proof.
  unfold sweep. destruct (up_foldl_evict (expired cfg now_ts (plates_seen s)) (s, []))
    as (-> & _ & _). apply foldl_delete_lookup.
Qed.

Lemma up_sweep_confirmed now_ts s :
  confirmed_plates (sweep cfg now_ts s).1
  = confirmed_plates s ∖ list_to_set (expired cfg now_ts (plates_seen s)).
Proof.
  unfold sweep. by destruct (up_foldl_evict (expired cfg now_ts (plates_seen s)) (s, []))
    as (_ & -> & _).
Qed.

Lemma up_sweep_entries now_ts s : entries (sweep cfg now_ts s).2 = [].
Proof.
  unfold sweep. by destruct (up_foldl_evict (expired cfg now_ts (plates_seen s)) (s, []))
    as (_ & _ & ->).
Qed.

Lemma up_sweep_expired now_ts s k v :
  plates_seen s !! k = Some v →
  (EXIT_TIMEOUT cfg < now_ts - last_seen v)%Q →
  plates_seen (sweep cfg now_ts s).1 !! k = None ∧ (k ∉ confirmed_plates (sweep cfg now_ts s).1).
Proof.
  intros Hk Hlt.
  assert (k ∈ expired cfg now_ts (plates_seen s)) as He by (apply up_expired_elem; eauto).
  rewrite up_sweep_plates_seen, up_sweep_confirmed, decide_True by done.
  split; [done | set_solver].
Qed.


Lemma up_observe_plates_seen w s t cf now cr :
  plates_seen (observe cfg o w s t cf now cr).1
  = <[t := seen_entry (plates_seen s) t cf now cr]> (plates_seen s).
Proof. unfold observe. repeat case_match; reflexivity. Qed.

Lemma up_seen_entry_count s t cf now cr :
  count (seen_entry (plates_seen s) t cf now cr) = count_of s t + 1.
Proof. unfold seen_entry, count_of. by destruct (plates_seen s !! t). Qed.

Lemma up_count_of_observe w s t cf now cr :
  count_of (observe cfg o w s t cf now cr).1 t = count_of s t + 1.
Proof.
  unfold count_of at 1. rewrite up_observe_plates_seen, lookup_insert_eq.
  apply up_seen_entry_count.
Qed.

Lemma up_seen_entry_texts s t cf now cr :
  inv cfg s →
  1 ≤ count (seen_entry (plates_seen s) t cf now cr) ∧
  texts (seen_entry (plates_seen s) t cf now cr)
  = replicate (Z.to_nat (count (seen_entry (plates_seen s) t cf now cr))) t.
Proof.
  intros Hinv. unfold seen_entry.
  destruct (plates_seen s !! t) as [v|] eqn:E; simpl; [|done].
  destruct (Hinv _ _ E) as (H1 & H2 & _). split; [lia|].
  rewrite H2 at 1. replace (Z.to_nat (count v + 1)) with (S (Z.to_nat (count v))) by lia.
  by rewrite replicate_S_end.
Qed.

Lemma up_majority_seen_entry s t cf now cr :
  inv cfg s → majority o (texts (seen_entry (plates_seen s) t cf now cr)) = Some t.
Proof.
  intros Hinv. destruct (up_seen_entry_texts s t cf now cr Hinv) as [H1 H2].
  rewrite H2. apply majority_replicate. lia.
Qed.

Lemma up_observe_spec w s t cf now cr :
  inv cfg s →
  let v := seen_entry (plates_seen s) t cf now cr in
  let r := observe cfg o w s t cf now cr in
  r.2.2 = Returned ∧
  confirmed_plates r.1
  = (if STABILITY_COUNT cfg <=? count v then {[t]} ∪ confirmed_plates s
     else confirmed_plates s) ∧
  entries r.2.1
  = (if (STABILITY_COUNT cfg <=? count v) && bool_decide (t ∉ confirmed_plates s)
     then [(t, conf v)] else []).
Proof.
  intros Hinv v r. subst v r. unfold observe.
  rewrite (up_majority_seen_entry s t cf now cr Hinv).
  destruct (STABILITY_COUNT cfg <=? _); cbn [andb]; [|done].
  destruct (decide (t ∈ confirmed_plates s)) as [Hin|Hin].
  - rewrite (bool_decide_eq_false_2 (t ∉ confirmed_plates s)) by (intros H'; by apply H').
    split_and!; [reflexivity | simpl; set_solver | reflexivity].
  - rewrite (bool_decide_eq_true_2 (t ∉ confirmed_plates s)) by done.
    set (v := seen_entry (plates_seen s) t cf now cr).
    pose proof (publish_event_entries cfg w t (conf v) (Some (crop v))) as He.
    pose proof (publish_event_returns cfg w "entry" t (conf v) (Some (crop v))) as Hr.
    destruct (publish_event cfg w "entry" t (conf v) (Some (crop v))) as [tr out].
    simpl in He, Hr. subst out.
    unfold _save_debug_images, write_debug_files.
    destruct (DEBUG_SAVE cfg), (save_ok w);
      simpl; rewrite ?entries_app, ?He; done.
Qed.

Lemma up_inv_initial : inv cfg initial.
Proof. intros k v H. cbn in H. by rewrite lookup_empty in H. Qed.

Lemma up_inv_observe w s t cf now cr :
  inv cfg s → inv cfg (observe cfg o w s t cf now cr).1.
Proof.
  intros Hinv k v.
  destruct (up_observe_spec w s t cf now cr Hinv) as (_ & Hcp & _).
  rewrite up_observe_plates_seen, Hcp.
  destruct (decide (k = t)) as [->|Hne].
  - rewrite lookup_insert_eq. intros [= <-].
    destruct (up_seen_entry_texts s t cf now cr Hinv) as [H1 H2].
    split_and!; [done..|].
    intros Hge. apply Z.leb_le in Hge. rewrite Hge. set_solver.
  - rewrite lookup_insert_ne by done. intros Hk.
    destruct (Hinv _ _ Hk) as (H1 & H2 & H3). split_and!; [done..|].
    intros Hge. specialize (H3 Hge). case_match; set_solver.
Qed.

Lemma up_inv_sweep now_ts s : inv cfg s → inv cfg (sweep cfg now_ts s).1.
Proof.
  intros Hinv k v. rewrite up_sweep_plates_seen, up_sweep_confirmed.
  case_decide as He; [done|]. intros Hk.
  destruct (Hinv _ _ Hk) as (H1 & H2 & H3). split_and!; [done..|].
  intros Hge. specialize (H3 Hge). set_solver.
Qed.

Lemma up_inv_step s a : inv cfg s → inv cfg (step cfg o s a).1.
Proof.
  destruct a; simpl; [apply up_inv_observe | apply up_inv_sweep].
Qed.

Lemma up_inv_run acts s : inv cfg s → inv cfg (run cfg o s acts).1.
Proof.
  revert s. induction acts as [|a acts IH]; intros s Hinv; simpl; [done|].
  by apply IH, up_inv_step.
Qed.

Lemma up_inv_reachable acts : inv cfg (run cfg o initial acts).1.
Proof. apply up_inv_run, up_inv_initial. Qed.


Lemma up_observe_entries w s t cf now cr tc :
  inv cfg s →
  tc ∈ entries (observe cfg o w s t cf now cr).2.1 →
  tc.1 = t ∧ (t ∉ confirmed_plates s) ∧
  conf_of (observe cfg o w s t cf now cr).1 t = Some tc.2.
Proof.
  intros Hinv. destruct (up_observe_spec w s t cf now cr Hinv) as (_ & _ & He).
  rewrite He. unfold conf_of. rewrite up_observe_plates_seen, lookup_insert_eq.
  destruct (STABILITY_COUNT cfg <=? _); cbn [andb]; [|by intros ?%elem_of_nil].
  case_bool_decide as Hc; [|by intros ?%elem_of_nil].
  by intros ->%list_elem_of_singleton.
Qed.

(** A confirmed text is not announced again by the next step; it stays
    confirmed unless that step is a sweep that finds its bucket expired,
    and then the bucket is deleted with it. *)
Lemma up_confirmed_step s a t :
  inv cfg s → t ∈ confirmed_plates s →
  (∀ c, (t, c) ∉ entries (step cfg o s a).2.1) ∧
  (t ∈ confirmed_plates (step cfg o s a).1 ∨
   (∃ now_ts, a = Sweep now_ts) ∧
   (t ∉ confirmed_plates (step cfg o s a).1) ∧
   plates_seen (step cfg o s a).1 !! t = None).
Proof.
  intros Hinv Ht. destruct a as [w t' cf now cr|now_ts]; cbn [step fst snd].
  - split.
    + intros c Hc. apply (up_observe_entries _ _ _ _ _ _ _ Hinv) in Hc as (Heq & Hnot & _).
      simpl in Heq. by subst.
    + left. destruct (up_observe_spec w s t' cf now cr Hinv) as (_ & -> & _).
      case_match; set_solver.
  - split; [intros c; rewrite up_sweep_entries; apply not_elem_of_nil|].
    rewrite up_sweep_confirmed, up_sweep_plates_seen.
    destruct (decide (t ∈ expired cfg now_ts (plates_seen s))) as [He|He].
    + right. split_and!; [eauto | set_solver | done].
    + left. set_solver.
Qed.

Lemma up_bucket_is_key acts k v o' :
  plates_seen (run cfg o initial acts).1 !! k = Some v →
  (∀ x, x ∈ texts v → x = k) ∧ set_iter o' (texts v) = [k] ∧
  majority o' (texts v) = Some k.
Proof.
  intros Hk. destruct (up_inv_reachable acts _ _ Hk) as (H1 & H2 & _).
  rewrite H2. split_and!.
  - intros x. apply elem_of_replicate_inv.
  - apply set_iter_replicate. lia.
  - apply majority_replicate. lia.
Qed.






End upload_facts.


(** * The iteration order of [set(texts)] does not matter *)

Lemma ls_observe_any_order cfg o1 o2 w s t cf now crop :
  Livestream.inv cfg s →
  Livestream.observe cfg o1 w s t cf now crop = Livestream.observe cfg o2 w s t cf now crop.
Proof.
  intros Hinv. unfold Livestream.observe.
  by rewrite (ls_majority_seen_entry cfg o1 s t cf now Hinv),
             (ls_majority_seen_entry cfg o2 s t cf now Hinv).
Qed.

Lemma ls_run_any_order cfg o1 o2 acts s :
  Livestream.inv cfg s → Livestream.run cfg o1 s acts = Livestream.run cfg o2 s acts.
Proof.
  revert s. induction acts as [|a acts IH]; intros s Hinv; [done|].
  cbn [Livestream.run].
  assert (Livestream.step cfg o1 s a = Livestream.step cfg o2 s a) as Heq
    by (destruct a; [by apply ls_observe_any_order | done]).
  rewrite <- Heq, <- IH; [done|]. by apply ls_inv_step.
Qed.

Lemma up_observe_any_order cfg o1 o2 w s t cf now cr :
  Upload.inv cfg s →
  Upload.observe cfg o1 w s t cf now cr = Upload.observe cfg o2 w s t cf now cr.
Proof.
  intros Hinv. unfold Upload.observe.
  by rewrite (up_majority_seen_entry cfg o1 s t cf now cr Hinv),
             (up_majority_seen_entry cfg o2 s t cf now cr Hinv).
Qed.

Lemma up_run_any_order cfg o1 o2 acts s :
  Upload.inv cfg s → Upload.run cfg o1 s acts = Upload.run cfg o2 s acts.
Proof.
  revert s. induction acts as [|a acts IH]; intros s Hinv; [done|].
  cbn [Upload.run].
  assert (Upload.step cfg o1 s a = Upload.step cfg o2 s a) as Heq
    by (destruct a; [by apply up_observe_any_order | done]).
  rewrite <- Heq, <- IH; [done|]. by apply up_inv_step.
Qed.

(** * The claims that span several scripts *)

(** C5: in every state reachable in the livestream script and in the
    upload script, the texts of a bucket are repetitions of its key, so
    [set(texts)] has the key as its only element and the vote returns the
    key in any iteration order; and two runs over the same actions that
    differ only in the iteration order of sets end in the same state
    (same confirmed set) with the same trace (same confirmation events). *)
Theorem C5_buckets_hold_only_their_key cfg o1 o2 :
  (∀ acts k v,
     Livestream.plates_seen (Livestream.run cfg o1 Livestream.initial acts).1 !! k = Some v →
     (∀ x, x ∈ Livestream.texts v → x = k) ∧
     set_iter o2 (Livestream.texts v) = [k] ∧
     majority o2 (Livestream.texts v) = Some k) ∧
  (∀ acts, Livestream.run cfg o1 Livestream.initial acts
           = Livestream.run cfg o2 Livestream.initial acts) ∧
  (∀ acts k v,
     Upload.plates_seen (Upload.run cfg o1 Upload.initial acts).1 !! k = Some v →
     (∀ x, x ∈ Upload.texts v → x = k) ∧
     set_iter o2 (Upload.texts v) = [k] ∧
     majority o2 (Upload.texts v) = Some k) ∧
  (∀ acts, Upload.run cfg o1 Upload.initial acts = Upload.run cfg o2 Upload.initial acts).
Proof.
  split_and!.
  - intros acts k v. apply ls_bucket_is_key.
  - intros acts. apply ls_run_any_order, ls_inv_initial.
  - intros acts k v. apply up_bucket_is_key.
  - intros acts. apply up_run_any_order, up_inv_initial.
Qed.


(** C3: once a text is in the confirmed set of a reachable state, the next
    step, whatever it is, emits no confirmation for that text.  In the
    livestream script the text then stays confirmed for good, so a whole
    run announces no text twice.  In the upload script the text stays
    confirmed unless the step is a sweep, and that sweep also deletes the
    bucket, so that the count starts again from nothing. *)
Theorem C3_no_second_confirmation_while_confirmed cfg o :
  (∀ acts t a,
     t ∈ Livestream.confirmed_plates (Livestream.run cfg o Livestream.initial acts).1 →
     (∀ c, (t, c) ∉ entries
             (Livestream.step cfg o (Livestream.run cfg o Livestream.initial acts).1 a).2.1) ∧
     t ∈ Livestream.confirmed_plates
           (Livestream.step cfg o (Livestream.run cfg o Livestream.initial acts).1 a).1) ∧
  (∀ acts, NoDup (entries (Livestream.run cfg o Livestream.initial acts).2).*1) ∧
  (∀ acts t a,
     t ∈ Upload.confirmed_plates (Upload.run cfg o Upload.initial acts).1 →
     (∀ c, (t, c) ∉ entries
             (Upload.step cfg o (Upload.run cfg o Upload.initial acts).1 a).2.1) ∧
     (t ∈ Upload.confirmed_plates
            (Upload.step cfg o (Upload.run cfg o Upload.initial acts).1 a).1 ∨
      (∃ now_ts, a = Upload.Sweep now_ts) ∧
      (t ∉ Upload.confirmed_plates
             (Upload.step cfg o (Upload.run cfg o Upload.initial acts).1 a).1) ∧
      Upload.plates_seen
        (Upload.step cfg o (Upload.run cfg o Upload.initial acts).1 a).1 !! t = None)).
Proof.
  split_and!.
  - intros acts t a Ht.
    destruct (ls_confirmed_step cfg o _ a t (ls_inv_reachable cfg o acts) Ht). done.
  - intros acts. by destruct (ls_entries_run cfg o acts _ (ls_inv_initial cfg)) as (_ & H & _).
  - intros acts t a Ht. by apply up_confirmed_step; [apply up_inv_reachable|].
Qed.



(** * Examples on the scripts' own constants *)

(** In the upload script a plate that was confirmed, then swept after the
    timeout, is announced again when it comes back. *)
Example up_reentry_confirms_again :
  let t := "XYZ999" in
  let r1 := Upload.run Upload.defaults first_seen_order Upload.initial
              (Upload.same_text t (sightings 5 0)) in
  let s2 := (Upload.sweep Upload.defaults 100 r1.1).1 in
  let r3 := Upload.run Upload.defaults first_seen_order s2
              (Upload.same_text t (sightings 5 101)) in
  entries r1.2 = [(t, 9 # 10)] ∧
  Upload.plates_seen s2 !! t = None ∧
  (t ∉ Upload.confirmed_plates s2) ∧
  entries r3.2 = [(t, 9 # 10)].
Proof.
  split_and!; [by vm_compute | by vm_compute | | by vm_compute].
  apply (bool_decide_unpack _). by vm_compute.
Qed.

(** C1: in the livestream script the sweep deletes the expired bucket but
    leaves its text in the confirmed set.  "XYZ999" is seen five times and
    confirmed; the sweep at time 100 removes its bucket and keeps it
    confirmed; five new sightings bring the count back to 5 and emit no
    second confirmation. *)
Theorem C1_livestream_sweep_keeps_text_confirmed :
  let t := "XYZ999" in
  let r1 := Livestream.run Livestream.defaults first_seen_order Livestream.initial
              (Livestream.same_text t (sightings 5 0)) in
  let s2 := Livestream.sweep Livestream.defaults 100 r1.1 in
  let r3 := Livestream.run Livestream.defaults first_seen_order s2
              (Livestream.same_text t (sightings 5 101)) in
  entries r1.2 = [(t, 9 # 10)] ∧
  Livestream.plates_seen s2 !! t = None ∧
  t ∈ Livestream.confirmed_plates s2 ∧
  Livestream.count_of r3.1 t = 5 ∧
  entries r3.2 = [].
Proof.
  split_and!; [by vm_compute | by vm_compute | | by vm_compute | by vm_compute].
  apply (bool_decide_unpack _). by vm_compute.
Qed.

(** In the livestream and upload scripts the state left by an observation
    does not depend on whether [client.publish] raised. *)
Lemma ls_emitter_failure_tolerated cfg o w s t cf now crop :
  (Livestream.observe cfg o w s t cf now crop).1
  = (Livestream.observe cfg o (World (save_ok w) true) s t cf now crop).1.
Proof. unfold Livestream.observe. cbn [save_ok]. repeat case_match; reflexivity. Qed.

Lemma up_emitter_failure_tolerated cfg o w s t cf now cr :
  (Upload.observe cfg o w s t cf now cr).1
  = (Upload.observe cfg o (World (save_ok w) true) s t cf now cr).1.
Proof. unfold Upload.observe. repeat case_match; reflexivity. Qed.

(** C9: in app_trial_livestream.py [publish_event] has no try/except.
    With STABILITY_COUNT = 3, the third sighting of "B1234XY" confirms the
    plate; when [client.publish] raises at that moment, the text is
    already in the confirmed set, the emitter has been entered once, and
    the exception leaves the loop body.  The same failure at the
    confirming sighting of the livestream script is caught: the body
    returns. *)
Theorem C9_trial_publish_failure_escapes :
  let b := λ i, Box (9 # 10) (Some crop0) "B1234XY" (inject_Z i) in
  let s1 := (Trial.detection_box Trial.defaults first_seen_order calm Trial.initial (b 0)).1 in
  let s2 := (Trial.detection_box Trial.defaults first_seen_order calm s1 (b 1)).1 in
  let r := Trial.detection_box Trial.defaults first_seen_order broker_down s2 (b 2) in
  let ls4 := (Livestream.run Livestream.defaults first_seen_order Livestream.initial
                (Livestream.same_text "B1234XY" (sightings 4 0))).1 in
  let r' := Livestream.detection_box Livestream.defaults first_seen_order broker_down ls4 (b 4) in
  r.2.2 = Raised ∧
  entries r.2.1 = [("B1234XY", 9 # 10)] ∧
  "B1234XY" ∈ Trial.confirmed_plates r.1 ∧
  r'.2.2 = Returned ∧
  entries r'.2.1 = [("B1234XY", 9 # 10)] ∧
  "B1234XY" ∈ Livestream.confirmed_plates r'.1.
Proof.
  split_and!; try (by vm_compute); apply (bool_decide_unpack _); by vm_compute.
Qed.






(** * The theorems at work on concrete inputs *)

(** C2 at the livestream constants: the fifth sighting of a new plate
    confirms it. *)
Lemma C2_confirms_when_count_reaches_threshold_witness :
  ∃ c, entries (Livestream.observe Livestream.defaults first_seen_order calm
                  (Livestream.run Livestream.defaults first_seen_order
                     (Livestream.run Livestream.defaults first_seen_order
                        Livestream.initial []).1
                     (Livestream.same_text "XYZ999" (take 4 (sightings 5 0)))).1
                  "XYZ999" (9 # 10) (inject_Z 4) crop0).2.1
       = [("XYZ999", c)].
Proof.
  destruct (C2_confirms_when_count_reaches_threshold Livestream.defaults first_seen_order
              [] "XYZ999" (sightings 5 0) 4%nat (calm, 9 # 10, inject_Z 4, crop0))
    as (H1 & H2 & H3).
  - reflexivity.
  - apply not_elem_of_empty.
  - reflexivity.
  - apply H2. vm_compute. reflexivity.
Defined.

(** C3: after five sightings "XYZ999" is confirmed; a sixth sighting
    announces nothing for it in either script. *)
Lemma C3_no_second_confirmation_while_confirmed_witness :
  (("XYZ999", 9 # 10) ∉ entries
     (Livestream.step Livestream.defaults first_seen_order
        (Livestream.run Livestream.defaults first_seen_order Livestream.initial
           (Livestream.same_text "XYZ999" (sightings 5 0))).1
        (Livestream.Observe calm "XYZ999" (9 # 10) 5 crop0)).2.1) ∧
  (("XYZ999", 9 # 10) ∉ entries
     (Upload.step Upload.defaults first_seen_order
        (Upload.run Upload.defaults first_seen_order Upload.initial
           (Upload.same_text "XYZ999" (sightings 5 0))).1
        (Upload.Observe calm "XYZ999" (9 # 10) 5 crop0)).2.1).
Proof.
  destruct (C3_no_second_confirmation_while_confirmed Livestream.defaults first_seen_order)
    as (Hls & _ & Hup).
  split.
  - apply (Hls (Livestream.same_text "XYZ999" (sightings 5 0)) "XYZ999"
               (Livestream.Observe calm "XYZ999" (9 # 10) 5 crop0)).
    apply (bool_decide_unpack _). vm_compute. exact I.
  - apply (Hup (Upload.same_text "XYZ999" (sightings 5 0)) "XYZ999"
               (Upload.Observe calm "XYZ999" (9 # 10) 5 crop0)).
    apply (bool_decide_unpack _). vm_compute. exact I.
Defined.

(** C4 with T = 15 and a bucket last seen at 0.4: the sweep at 16 removes
    it, the sweep at 15.4 keeps it. *)
Lemma C4_expiry_is_strict_witness :
  let v := Livestream.Candidate 3 (4 # 10) (95 # 100) ["B1234XY"; "B1234XY"; "B1234XY"] in
  let s := Livestream.Tracker {[ "B1234XY" := v ]} {[ "B1234XY" ]} ∅ in
  Livestream.plates_seen (Livestream.sweep Livestream.defaults 16 s) !! "B1234XY" = None ∧
  Livestream.plates_seen (Livestream.sweep Livestream.defaults (154 # 10) s) !! "B1234XY"
  = Some v.
Proof.
  intros v s. split.
  - apply (C4_expiry_is_strict Livestream.defaults 16 s "B1234XY" v); [reflexivity|].
    unfold Qlt. simpl. lia.
  - apply (C4_expiry_is_strict Livestream.defaults (154 # 10) s "B1234XY" v); [reflexivity|].
    unfold Qle. simpl. lia.
Defined.

(** C5: after two sightings the bucket of "XYZ999" votes for "XYZ999" in
    the reverse iteration order as well, in both scripts. *)
Lemma C5_buckets_hold_only_their_key_witness :
  majority last_seen_order ["XYZ999"; "XYZ999"] = Some "XYZ999" ∧
  set_iter last_seen_order ["XYZ999"; "XYZ999"] = ["XYZ999"].
Proof.
  destruct (C5_buckets_hold_only_their_key Livestream.defaults first_seen_order last_seen_order)
    as (Hls & _ & Hup & _).
  split.
  - apply (Hls (Livestream.same_text "XYZ999" (sightings 2 0)) "XYZ999"
               (Livestream.Candidate 2 1 (9 # 10) ["XYZ999"; "XYZ999"])).
    vm_compute. reflexivity.
  - apply (Hup (Upload.same_text "XYZ999" (sightings 2 0)) "XYZ999"
               (Upload.Candidate 2 1 (9 # 10) ["XYZ999"; "XYZ999"] crop0)).
    vm_compute. reflexivity.
Defined.

(** C7: three sightings of a new plate leave its count at 3, and a sweep
    of a fresh bucket keeps its count. *)
Lemma C7_count_is_number_of_observations_witness :
  Livestream.count_of
    (Livestream.run Livestream.defaults first_seen_order Livestream.initial
       (Livestream.same_text "B1234XY" (sightings 3 0))).1 "B1234XY" = 3 ∧
  ((∃ v', Livestream.plates_seen
            (Livestream.step Livestream.defaults first_seen_order
               (Livestream.Tracker
                  {[ "B1234XY" := Livestream.Candidate 1 0 (9 # 10) ["B1234XY"] ]} ∅ ∅)
               (Livestream.Sweep 1)).1 !! "B1234XY" = Some v' ∧
          1 ≤ Livestream.count v') ∨
   (Livestream.plates_seen
      (Livestream.step Livestream.defaults first_seen_order
         (Livestream.Tracker
            {[ "B1234XY" := Livestream.Candidate 1 0 (9 # 10) ["B1234XY"] ]} ∅ ∅)
         (Livestream.Sweep 1)).1 !! "B1234XY" = None ∧
    ∃ now_ts, Livestream.Sweep 1 = Livestream.Sweep now_ts)).
Proof.
  split.
  - destruct (C7_count_is_number_of_observations Livestream.defaults first_seen_order
                Livestream.initial "B1234XY" (sightings 3 0)) as (_ & H & _).
    apply H. reflexivity.
  - destruct (C7_count_is_number_of_observations Livestream.defaults first_seen_order
                (Livestream.Tracker
                   {[ "B1234XY" := Livestream.Candidate 1 0 (9 # 10) ["B1234XY"] ]} ∅ ∅)
                "B1234XY" []) as (_ & _ & H).
    apply (H (Livestream.Sweep 1) "B1234XY"
             (Livestream.Candidate 1 0 (9 # 10) ["B1234XY"])).
    reflexivity.
Defined.




(** * Further properties of the tracker *)

Lemma ls_detection_box_cases cfg o w s b :
  (Livestream.detection_box cfg o w s b).1 = s ∧
  entries (Livestream.detection_box cfg o w s b).2.1 = [] ∧
  (Livestream.detection_box cfg o w s b).2.2 = Returned ∨
  ∃ crop, box_crop b = Some crop ∧ (4 ≤ String.length (box_text b))%nat ∧
    (Livestream.detection_box cfg o w s b).1
    = (Livestream.observe cfg o w s (box_text b) (box_conf b) (box_time b) crop).1 ∧
    entries (Livestream.detection_box cfg o w s b).2.1
    = entries (Livestream.observe cfg o w s (box_text b) (box_conf b) (box_time b) crop).2.1 ∧
    (Livestream.detection_box cfg o w s b).2.2
    = (Livestream.observe cfg o w s (box_text b) (box_conf b) (box_time b) crop).2.2.
Proof.
  unfold Livestream.detection_box. destruct (box_crop b) as [crop|]; [|by left].
  destruct (Nat.ltb_spec (String.length (box_text b)) 4); [by left|].
  right. exists crop. split_and!; [done | done | done | | done].
  unfold io_seq, io_do, with_lock. cbn [fst snd].
  change (entries ([EvRunOcr crop] ++ ?x)) with (entries x).
  change (entries ([EvLockAcquire] ++ ?x)) with (entries x).
  rewrite entries_app. cbn. by rewrite app_nil_r.
Qed.

Lemma up_detection_box_cases cfg o w s b :
  (Upload.detection_box cfg o w s b).1 = s ∧
  entries (Upload.detection_box cfg o w s b).2.1 = [] ∧
  (Upload.detection_box cfg o w s b).2.2 = Returned ∨
  ∃ cr, box_crop b = Some cr ∧ (4 ≤ String.length (box_text b))%nat ∧
    (Upload.detection_box cfg o w s b).1
    = (Upload.observe cfg o w s (box_text b) (box_conf b) (box_time b) cr).1 ∧
    entries (Upload.detection_box cfg o w s b).2.1
    = entries (Upload.observe cfg o w s (box_text b) (box_conf b) (box_time b) cr).2.1 ∧
    (Upload.detection_box cfg o w s b).2.2
    = (Upload.observe cfg o w s (box_text b) (box_conf b) (box_time b) cr).2.2.
Proof.
  unfold Upload.detection_box. destruct (box_crop b) as [cr|]; [|by left].
  destruct (Nat.ltb_spec (String.length (box_text b)) 4); [by left|].
  right. exists cr. split_and!; [done | done | done | | done].
  unfold io_seq, io_do, with_lock. cbn [fst snd].
  change (entries ([EvRunOcr cr] ++ ?x)) with (entries x).
  change (entries ([EvLockAcquire] ++ ?x)) with (entries x).
  rewrite entries_app. cbn. by rewrite app_nil_r.
Qed.

Lemma ls_turn_keeps cfg o (P : string → Prop) s t :
  (∀ w b, t = Camera w b → is_Some (box_crop b) →
          (4 ≤ String.length (box_text b))%nat → P (box_text b)) →
  Livestream.inv cfg s →
  (∀ k, is_Some (Livestream.plates_seen s !! k) → P k) →
  (∀ x, x ∈ Livestream.confirmed_plates s → P x) →
  (ls_turn cfg o s t).2.2 = Returned ∧
  Livestream.inv cfg (ls_turn cfg o s t).1 ∧
  (∀ k, is_Some (Livestream.plates_seen (ls_turn cfg o s t).1 !! k) → P k) ∧
  (∀ x, x ∈ Livestream.confirmed_plates (ls_turn cfg o s t).1 → P x) ∧
  (∀ tc, tc ∈ entries (ls_turn cfg o s t).2.1 → P tc.1).
Proof.
  intros HP Hinv Hk Hc. destruct t as [w b|now_ts]; cbn [ls_turn].
  - destruct (ls_detection_box_cases cfg o w s b)
      as [(-> & -> & ->)|(crop & Hcrop & Hlen & -> & -> & ->)].
    + split_and!; [done..|]. by intros tc ?%elem_of_nil.
    + assert (P (box_text b)) as Hb by (apply (HP w b); [done | by rewrite Hcrop | done]).
      destruct (ls_observe_spec cfg o w s (box_text b) (box_conf b) (box_time b) crop Hinv)
        as (Hret & Hcp & He).
      split_and!.
      * done.
      * by apply ls_inv_observe.
      * intros k. rewrite ls_observe_plates_seen.
        destruct (decide (k = box_text b)) as [->|Hne]; [done|].
        rewrite lookup_insert_ne by done. apply Hk.
      * intros x. rewrite Hcp. destruct (_ <=? _); [|apply Hc].
        intros [->%elem_of_singleton|Hx]%elem_of_union; [done | by apply Hc].
      * intros tc. rewrite He. destruct (_ && _); [|by intros ?%elem_of_nil].
        by intros ->%list_elem_of_singleton.
  - unfold Livestream.exit_watcher. cbn [fst snd].
    split_and!; [done | by apply ls_inv_sweep | | done | by intros tc ?%elem_of_nil].
    intros k [v Hv]. apply Hk. exists v. by eapply ls_sweep_subset.
Qed.

Lemma ls_turns_keep cfg o (P : string → Prop) ts s :
  (∀ w b, Camera w b ∈ ts → is_Some (box_crop b) →
          (4 ≤ String.length (box_text b))%nat → P (box_text b)) →
  Livestream.inv cfg s →
  (∀ k, is_Some (Livestream.plates_seen s !! k) → P k) →
  (∀ x, x ∈ Livestream.confirmed_plates s → P x) →
  (ls_turns cfg o s ts).2.2 = Returned ∧
  (∀ k, is_Some (Livestream.plates_seen (ls_turns cfg o s ts).1 !! k) → P k) ∧
  (∀ x, x ∈ Livestream.confirmed_plates (ls_turns cfg o s ts).1 → P x) ∧
  (∀ tc, tc ∈ entries (ls_turns cfg o s ts).2.1 → P tc.1).
Proof.
  revert s. induction ts as [|t ts IH]; intros s HP Hinv Hk Hc; cbn [ls_turns].
  - split_and!; [done..|]. by intros tc ?%elem_of_nil.
  - destruct (ls_turn_keeps cfg o P s t) as (Hret & Hinv' & Hk' & Hc' & He);
      [intros w b -> ? ?; apply (HP w b); [apply list_elem_of_here | done..] | done.. |].
    rewrite Hret. destruct (IH (ls_turn cfg o s t).1) as (H1 & H2 & H3 & H4);
      [intros w b Hin ? ?; apply (HP w b); [by apply list_elem_of_further | done..] | done.. |].
    cbn [fst snd]. split_and!; [done..|].
    intros tc. rewrite entries_app. intros [?|?]%elem_of_app; auto.
Qed.

(** X1. Livestream: however the camera turns and the watcher turns
    interleave, no turn raises, and every key of [plates_seen], every
    confirmed text and every announced text is the OCR text of a box of
    the run that had a crop and at least four characters: the tracker
    invents no text and never sees a shorter one. *)
Theorem ls_tracked_texts_come_from_boxes cfg o ts :
  (ls_turns cfg o Livestream.initial ts).2.2 = Returned ∧
  ∀ x, is_Some (Livestream.plates_seen (ls_turns cfg o Livestream.initial ts).1 !! x) ∨
       x ∈ Livestream.confirmed_plates (ls_turns cfg o Livestream.initial ts).1 ∨
       x ∈ (entries (ls_turns cfg o Livestream.initial ts).2.1).*1 →
       (4 ≤ String.length x)%nat ∧
       ∃ w b, Camera w b ∈ ts ∧ box_text b = x ∧ is_Some (box_crop b).
Proof.
  destruct (ls_turns_keep cfg o
              (λ x, (4 ≤ String.length x)%nat ∧
                    ∃ w b, Camera w b ∈ ts ∧ box_text b = x ∧ is_Some (box_crop b))
              ts Livestream.initial) as (Hret & Hk & Hc & He).
  - intros w b Hin Hcrop Hlen. split; [done|]. by exists w, b.
  - apply ls_inv_initial.
  - intros k [v Hv]. cbn in Hv. by rewrite lookup_empty in Hv.
  - intros x Hx. cbn in Hx. by apply not_elem_of_empty in Hx.
  - split; [done|]. intros x [Hx|[Hx|Hx]]; [by apply Hk | by apply Hc |].
    apply list_elem_of_fmap in Hx as (tc & -> & Htc). by apply He.
Qed.

Lemma up_turn_keeps cfg o (P : string → Prop) s t :
  (∀ w b, t = Camera w b → is_Some (box_crop b) →
          (4 ≤ String.length (box_text b))%nat → P (box_text b)) →
  Upload.inv cfg s →
  (∀ k, is_Some (Upload.plates_seen s !! k) → P k) →
  (∀ x, x ∈ Upload.confirmed_plates s → P x) →
  (up_turn cfg o s t).2.2 = Returned ∧
  Upload.inv cfg (up_turn cfg o s t).1 ∧
  (∀ k, is_Some (Upload.plates_seen (up_turn cfg o s t).1 !! k) → P k) ∧
  (∀ x, x ∈ Upload.confirmed_plates (up_turn cfg o s t).1 → P x) ∧
  (∀ tc, tc ∈ entries (up_turn cfg o s t).2.1 → P tc.1).
Proof.
  intros HP Hinv Hk Hc. destruct t as [w b|now_ts]; cbn [up_turn].
  - destruct (up_detection_box_cases cfg o w s b)
      as [(-> & -> & ->)|(cr & Hcrop & Hlen & -> & -> & ->)].
    + split_and!; [done..|]. by intros tc ?%elem_of_nil.
    + assert (P (box_text b)) as Hb by (apply (HP w b); [done | by rewrite Hcrop | done]).
      destruct (up_observe_spec cfg o w s (box_text b) (box_conf b) (box_time b) cr Hinv)
        as (Hret & Hcp & He).
      split_and!.
      * done.
      * by apply up_inv_observe.
      * intros k. rewrite up_observe_plates_seen.
        destruct (decide (k = box_text b)) as [->|Hne]; [done|].
        rewrite lookup_insert_ne by done. apply Hk.
      * intros x. rewrite Hcp. destruct (_ <=? _); [|apply Hc].
        intros [->%elem_of_singleton|Hx]%elem_of_union; [done | by apply Hc].
      * intros tc. rewrite He. destruct (_ && _); [|by intros ?%elem_of_nil].
        by intros ->%list_elem_of_singleton.
  - unfold Upload._exit_watcher. cbn [fst snd].
    split_and!.
    + reflexivity.
    + by apply up_inv_sweep.
    + intros k [v Hv]. apply Hk. rewrite up_sweep_plates_seen in Hv.
      case_decide; [done | by exists v].
    + intros x. rewrite up_sweep_confirmed. intros [Hx _]%elem_of_difference. by apply Hc.
    + intros tc. unfold io_seq, with_lock, io_do. cbn [fst snd].
      change (entries ([EvLockAcquire] ++ ?x)) with (entries x).
      rewrite !entries_app, up_sweep_entries. by intros ?%elem_of_nil.
Qed.

Lemma up_turns_keep cfg o (P : string → Prop) ts s :
  (∀ w b, Camera w b ∈ ts → is_Some (box_crop b) →
          (4 ≤ String.length (box_text b))%nat → P (box_text b)) →
  Upload.inv cfg s →
  (∀ k, is_Some (Upload.plates_seen s !! k) → P k) →
  (∀ x, x ∈ Upload.confirmed_plates s → P x) →
  (up_turns cfg o s ts).2.2 = Returned ∧
  (∀ k, is_Some (Upload.plates_seen (up_turns cfg o s ts).1 !! k) → P k) ∧
  (∀ x, x ∈ Upload.confirmed_plates (up_turns cfg o s ts).1 → P x) ∧
  (∀ tc, tc ∈ entries (up_turns cfg o s ts).2.1 → P tc.1).
Proof.
  revert s. induction ts as [|t ts IH]; intros s HP Hinv Hk Hc; cbn [up_turns].
  - split_and!; [done..|]. by intros tc ?%elem_of_nil.
  - destruct (up_turn_keeps cfg o P s t) as (Hret & Hinv' & Hk' & Hc' & He);
      [intros w b -> ? ?; apply (HP w b); [apply list_elem_of_here | done..] | done.. |].
    rewrite Hret. destruct (IH (up_turn cfg o s t).1) as (H1 & H2 & H3 & H4);
      [intros w b Hin ? ?; apply (HP w b); [by apply list_elem_of_further | done..] | done.. |].
    cbn [fst snd]. split_and!; [done..|].
    intros tc. rewrite entries_app. intros [?|?]%elem_of_app; auto.
Qed.

(** X2. Upload: the same for LPProcessor. *)
Theorem up_tracked_texts_come_from_boxes cfg o ts :
  (up_turns cfg o Upload.initial ts).2.2 = Returned ∧
  ∀ x, is_Some (Upload.plates_seen (up_turns cfg o Upload.initial ts).1 !! x) ∨
       x ∈ Upload.confirmed_plates (up_turns cfg o Upload.initial ts).1 ∨
       x ∈ (entries (up_turns cfg o Upload.initial ts).2.1).*1 →
       (4 ≤ String.length x)%nat ∧
       ∃ w b, Camera w b ∈ ts ∧ box_text b = x ∧ is_Some (box_crop b).
Proof.
  destruct (up_turns_keep cfg o
              (λ x, (4 ≤ String.length x)%nat ∧
                    ∃ w b, Camera w b ∈ ts ∧ box_text b = x ∧ is_Some (box_crop b))
              ts Upload.initial) as (Hret & Hk & Hc & He).
  - intros w b Hin Hcrop Hlen. split; [done|]. by exists w, b.
  - apply up_inv_initial.
  - intros k [v Hv]. cbn in Hv. by rewrite lookup_empty in Hv.
  - intros x Hx. cbn in Hx. by apply not_elem_of_empty in Hx.
  - split; [done|]. intros x [Hx|[Hx|Hx]]; [by apply Hk | by apply Hc |].
    apply list_elem_of_fmap in Hx as (tc & -> & Htc). by apply He.
Qed.

Lemma ls_confirmed_announced_from cfg o acts s :
  Livestream.inv cfg s →
  Livestream.confirmed_plates (Livestream.run cfg o s acts).1
  = Livestream.confirmed_plates s ∪ list_to_set (entries (Livestream.run cfg o s acts).2).*1.
Proof.
  revert s. induction acts as [|a acts IH]; intros s Hinv; cbn [Livestream.run fst snd].
  - cbn. set_solver.
  - rewrite IH by (by apply ls_inv_step). rewrite entries_app, fmap_app, list_to_set_app_L.
    assert (Livestream.confirmed_plates (Livestream.step cfg o s a).1
            = Livestream.confirmed_plates s
              ∪ list_to_set (entries (Livestream.step cfg o s a).2.1).*1) as ->;
      [|set_solver].
    destruct a as [w t cf now crop|now_ts]; cbn [Livestream.step fst snd].
    + destruct (ls_observe_spec cfg o w s t cf now crop Hinv) as (_ & -> & ->).
      destruct (_ <=? _); cbn [andb]; [|cbn; set_solver].
      case_bool_decide; cbn; set_solver.
    + cbn. set_solver.
Qed.

(** X3. In the livestream script the confirmed set is exactly the set of texts
    announced so far by an "entry" event. *)
Theorem ls_confirmed_set_is_what_was_announced cfg o acts :
  Livestream.confirmed_plates (Livestream.run cfg o Livestream.initial acts).1
  = list_to_set (entries (Livestream.run cfg o Livestream.initial acts).2).*1.
Proof.
  rewrite ls_confirmed_announced_from by apply ls_inv_initial. cbn. set_solver.
Qed.

Lemma up_confirmed_has_bucket_step cfg o s a :
  Upload.inv cfg s →
  (∀ t, t ∈ Upload.confirmed_plates s →
        ∃ v, Upload.plates_seen s !! t = Some v ∧ STABILITY_COUNT cfg ≤ Upload.count v) →
  ∀ t, t ∈ Upload.confirmed_plates (Upload.step cfg o s a).1 →
       ∃ v, Upload.plates_seen (Upload.step cfg o s a).1 !! t = Some v ∧
            STABILITY_COUNT cfg ≤ Upload.count v.
Proof.
  intros Hinv Hb t. destruct a as [w t' cf now cr|now_ts]; cbn [Upload.step fst snd].
  - destruct (up_observe_spec cfg o w s t' cf now cr Hinv) as (_ & -> & _).
    rewrite up_observe_plates_seen. intros Ht.
    destruct (decide (t = t')) as [->|Hne].
    + rewrite lookup_insert_eq. eexists; split; [done|].
      destruct (Z.leb_spec (STABILITY_COUNT cfg)
                  (Upload.count (Upload.seen_entry (Upload.plates_seen s) t' cf now cr)));
        [done|].
      destruct (Hb _ Ht) as (v & Hv & Hge). unfold Upload.seen_entry in *.
      rewrite Hv in *. cbn in *. lia.
    + rewrite lookup_insert_ne by done. apply Hb.
      destruct (_ <=? _); set_solver.
  - rewrite up_sweep_confirmed, up_sweep_plates_seen.
    intros [Ht Hne]%elem_of_difference. rewrite decide_False; [by apply Hb|].
    intros H. apply Hne. by apply elem_of_list_to_set.
Qed.

(** X4. In the upload script, in every reachable state, a text is confirmed
    exactly when it is a key of [plates_seen] whose count has reached
    STABILITY_COUNT. *)
Theorem up_confirmed_iff_bucket_at_threshold cfg o acts t :
  t ∈ Upload.confirmed_plates (Upload.run cfg o Upload.initial acts).1 ↔
  ∃ v, Upload.plates_seen (Upload.run cfg o Upload.initial acts).1 !! t = Some v ∧
       STABILITY_COUNT cfg ≤ Upload.count v.
Proof.
  split.
  - assert (∀ s, Upload.inv cfg s →
      (∀ t, t ∈ Upload.confirmed_plates s →
            ∃ v, Upload.plates_seen s !! t = Some v ∧ STABILITY_COUNT cfg ≤ Upload.count v) →
      ∀ t, t ∈ Upload.confirmed_plates (Upload.run cfg o s acts).1 →
           ∃ v, Upload.plates_seen (Upload.run cfg o s acts).1 !! t = Some v ∧
                STABILITY_COUNT cfg ≤ Upload.count v) as H.
    { induction acts as [|a acts IH]; intros s Hinv Hb; cbn [Upload.run fst]; [done|].
      apply IH; [by apply up_inv_step | by apply up_confirmed_has_bucket_step]. }
    apply H; [apply up_inv_initial|].
    intros x Hx. cbn in Hx. by apply not_elem_of_empty in Hx.
  - intros (v & Hv & Hge).
    by destruct (up_inv_reachable cfg o acts _ _ Hv) as (_ & _ & H); apply H.
Qed.

Lemma ls_recorded_step cfg o s a :
  Livestream.recorded_plates s ⊆ Livestream.confirmed_plates s →
  Livestream.recorded_plates (Livestream.step cfg o s a).1
  ⊆ Livestream.confirmed_plates (Livestream.step cfg o s a).1.
Proof.
  intros Hsub. destruct a as [w t cf now crop|now_ts]; cbn [Livestream.step fst]; [|done].
  unfold Livestream.observe.
  destruct (_ <=? _); [|done]. destruct (majority o _); [|done].
  case_decide; [done|].
  destruct (DEBUG_SAVE cfg && _); [destruct (save_ok w)|]; cbn; set_solver.
Qed.

(** X5. In the livestream script the confirmed set never loses a text, and
    every text whose debug images were recorded is confirmed. *)
Theorem ls_confirmed_only_grows cfg o acts more :
  Livestream.confirmed_plates (Livestream.run cfg o Livestream.initial acts).1
  ⊆ Livestream.confirmed_plates
      (Livestream.run cfg o (Livestream.run cfg o Livestream.initial acts).1 more).1 ∧
  Livestream.recorded_plates (Livestream.run cfg o Livestream.initial acts).1
  ⊆ Livestream.confirmed_plates (Livestream.run cfg o Livestream.initial acts).1.
Proof.
  split.
  - by destruct (ls_entries_run cfg o more _ (ls_inv_reachable cfg o acts)) as (H & _).
  - assert (∀ s, Livestream.recorded_plates s ⊆ Livestream.confirmed_plates s →
                 Livestream.recorded_plates (Livestream.run cfg o s acts).1
                 ⊆ Livestream.confirmed_plates (Livestream.run cfg o s acts).1) as H.
    { induction acts as [|a acts IH]; intros s Hs; cbn [Livestream.run fst]; [done|].
      by apply IH, ls_recorded_step. }
    by apply H.
Qed.

Lemma ls_sweep_lookup cfg now_ts s k :
  Livestream.plates_seen (Livestream.sweep cfg now_ts s) !! k
  = match Livestream.plates_seen s !! k with
    | Some v => if py_gt (now_ts - Livestream.last_seen v)%Q (EXIT_TIMEOUT cfg)
                then None else Some v
    | None => None
    end.
Proof.
  destruct (Livestream.plates_seen s !! k) as [v|] eqn:E.
  - destruct (py_gt _ _) eqn:G.
    + apply py_gt_spec in G. by eapply ls_sweep_expired.
    + apply py_gt_false in G. by apply ls_sweep_kept.
  - destruct (Livestream.plates_seen (Livestream.sweep cfg now_ts s) !! k) eqn:E'; [|done].
    apply ls_sweep_subset in E'. congruence.
Qed.

Lemma up_sweep_lookup cfg now_ts s k :
  Upload.plates_seen (Upload.sweep cfg now_ts s).1 !! k
  = match Upload.plates_seen s !! k with
    | Some v => if py_gt (now_ts - Upload.last_seen v)%Q (EXIT_TIMEOUT cfg)
                then None else Some v
    | None => None
    end.
Proof.
  rewrite up_sweep_plates_seen.
  destruct (Upload.plates_seen s !! k) as [v|] eqn:E.
  - destruct (py_gt _ _) eqn:G.
    + apply py_gt_spec in G. rewrite decide_True; [done|]. apply up_expired_elem. eauto.
    + apply py_gt_false in G. rewrite decide_False; [done|].
      intros (v' & Hv' & Hlt)%up_expired_elem. simplify_eq. lra.
  - by case_decide.
Qed.

Lemma py_gt_mono (a b c : Q) : (a <= b)%Q → py_gt a c = true → py_gt b c = true.
Proof. rewrite !py_gt_spec. lra. Qed.

(** X6. Sweeps compose: a sweep followed by a later sweep leaves what the
    later sweep alone leaves (so a repeated sweep changes nothing), in the
    livestream script and in the upload script; and after a sweep every
    bucket that is left was seen within the timeout. *)
Theorem sweeps_compose cfg t1 t2 :
  (t1 <= t2)%Q →
  (∀ s, Livestream.sweep cfg t2 (Livestream.sweep cfg t1 s) = Livestream.sweep cfg t2 s) ∧
  (∀ s k v, Livestream.plates_seen (Livestream.sweep cfg t1 s) !! k = Some v →
            (t1 - Livestream.last_seen v <= EXIT_TIMEOUT cfg)%Q) ∧
  (∀ s, Upload.plates_seen (Upload.sweep cfg t2 (Upload.sweep cfg t1 s).1).1
        = Upload.plates_seen (Upload.sweep cfg t2 s).1 ∧
        Upload.confirmed_plates (Upload.sweep cfg t2 (Upload.sweep cfg t1 s).1).1
        = Upload.confirmed_plates (Upload.sweep cfg t2 s).1) ∧
  (∀ s k v, Upload.plates_seen (Upload.sweep cfg t1 s).1 !! k = Some v →
            (t1 - Upload.last_seen v <= EXIT_TIMEOUT cfg)%Q).
Proof.
  intros Hle. split_and!.
  - intros s.
    assert (Livestream.plates_seen (Livestream.sweep cfg t2 (Livestream.sweep cfg t1 s))
            = Livestream.plates_seen (Livestream.sweep cfg t2 s)) as H.
    { apply map_eq. intros k. rewrite !ls_sweep_lookup.
      destruct (Livestream.plates_seen s !! k) as [v|]; [|done].
      destruct (py_gt (t1 - _)%Q _) eqn:G1.
      - rewrite (py_gt_mono (t1 - Livestream.last_seen v)%Q (t2 - Livestream.last_seen v)%Q);
          [done | lra | done].
      - done. }
    unfold Livestream.sweep in *. cbn [Livestream.plates_seen Livestream.confirmed_plates
      Livestream.recorded_plates] in *. by rewrite H.
  - intros s k v. rewrite ls_sweep_lookup.
    destruct (Livestream.plates_seen s !! k) as [v'|]; [|done].
    destruct (py_gt _ _) eqn:G; [done|]. intros [= <-]. by apply py_gt_false.
  - intros s.
    assert (∀ k, k ∈ Upload.expired cfg t2 (Upload.plates_seen s) ↔
                 k ∈ Upload.expired cfg t1 (Upload.plates_seen s) ∨
                 k ∈ Upload.expired cfg t2 (Upload.plates_seen (Upload.sweep cfg t1 s).1))
      as Hex.
    { intros k. rewrite !up_expired_elem. setoid_rewrite up_sweep_lookup. split.
      - intros (v & Hv & Hlt). rewrite Hv.
        destruct (py_gt (t1 - Upload.last_seen v)%Q (EXIT_TIMEOUT cfg)) eqn:G.
        + left. exists v. split; [done | by apply py_gt_spec].
        + right. exists v. split; [done | lra].
      - intros [(v & Hv & Hlt)|(v & Hv & Hlt)].
        + exists v. split; [done | lra].
        + destruct (Upload.plates_seen s !! k) as [v'|]; [|done].
          destruct (py_gt _ _); [done|]. simplify_eq. eauto. }
    split.
    + apply map_eq. intros k. rewrite !up_sweep_lookup.
      destruct (Upload.plates_seen s !! k) as [v|]; [|done].
      destruct (py_gt (t1 - _)%Q _) eqn:G1.
      * rewrite (py_gt_mono (t1 - Upload.last_seen v)%Q (t2 - Upload.last_seen v)%Q);
          [done | lra | done].
      * done.
    + rewrite !up_sweep_confirmed. apply set_eq. intros k.
      rewrite !elem_of_difference, !elem_of_list_to_set, Hex. tauto.
  - intros s k v. rewrite up_sweep_lookup.
    destruct (Upload.plates_seen s !! k) as [v'|]; [|done].
    destruct (py_gt _ _) eqn:G; [done|]. intros [= <-]. by apply py_gt_false.
Qed.

(** X7. An observation resets the clock of its bucket: however old the bucket
    was, after the text is seen at time [now] every sweep up to
    [now + EXIT_TIMEOUT] keeps the bucket, with its count raised by one. *)
Theorem observation_refreshes_expiry cfg o w t cf now now_ts :
  (now_ts - now <= EXIT_TIMEOUT cfg)%Q →
  (∀ s crop,
     Livestream.count_of
       (Livestream.sweep cfg now_ts (Livestream.observe cfg o w s t cf now crop).1) t
     = Livestream.count_of s t + 1) ∧
  (∀ s cr,
     Upload.count_of
       (Upload.sweep cfg now_ts (Upload.observe cfg o w s t cf now cr).1).1 t
     = Upload.count_of s t + 1).
Proof.
  intros Hle. split.
  - intros s crop. unfold Livestream.count_of at 1.
    rewrite ls_sweep_lookup, ls_observe_plates_seen, lookup_insert_eq.
    assert (Livestream.last_seen (Livestream.seen_entry (Livestream.plates_seen s) t cf now)
            = now) as ->
      by (unfold Livestream.seen_entry; by destruct (Livestream.plates_seen s !! t)).
    rewrite (proj2 (py_gt_false _ _)) by done. apply ls_seen_entry_count.
  - intros s cr. unfold Upload.count_of at 1.
    rewrite up_sweep_lookup, up_observe_plates_seen, lookup_insert_eq.
    assert (Upload.last_seen (Upload.seen_entry (Upload.plates_seen s) t cf now cr)
            = now) as ->
      by (unfold Upload.seen_entry; by destruct (Upload.plates_seen s !! t)).
    rewrite (proj2 (py_gt_false _ _)) by done. apply up_seen_entry_count.
Qed.

(** X8. Expiry forgets the evidence: when a sweep finds the bucket of a text
    expired, the next observation of the text starts a new bucket, with
    count 1, the new confidence (the old maximum is gone) and one text. *)
Theorem expiry_restarts_the_bucket cfg o w t cf now now_ts :
  (∀ s v crop,
     Livestream.plates_seen s !! t = Some v →
     (EXIT_TIMEOUT cfg < now_ts - Livestream.last_seen v)%Q →
     Livestream.plates_seen
       (Livestream.observe cfg o w (Livestream.sweep cfg now_ts s) t cf now crop).1 !! t
     = Some (Livestream.Candidate 1 now cf [t])) ∧
  (∀ s v cr,
     Upload.plates_seen s !! t = Some v →
     (EXIT_TIMEOUT cfg < now_ts - Upload.last_seen v)%Q →
     Upload.plates_seen
       (Upload.observe cfg o w (Upload.sweep cfg now_ts s).1 t cf now cr).1 !! t
     = Some (Upload.Candidate 1 now cf [t] cr)).
Proof.
  split.
  - intros s v crop Hv Hlt. rewrite ls_observe_plates_seen, lookup_insert_eq.
    unfold Livestream.seen_entry. by rewrite (ls_sweep_expired cfg now_ts s t v Hv Hlt).
  - intros s v cr Hv Hlt. rewrite up_observe_plates_seen, lookup_insert_eq.
    unfold Upload.seen_entry.
    by rewrite (proj1 (up_sweep_expired cfg now_ts s t v Hv Hlt)).
Qed.


(** * crop_with_padding *)

Lemma py_int_nonneg (q : Q) : (0 <= q)%Q → 0 ≤ py_int q.
Proof.
  unfold Qle, py_int. destruct q as [n d]. cbn. intros H.
  apply Z.quot_pos; lia.
Qed.

Lemma py_int_small (q : Q) : (0 <= q)%Q → (q < 1)%Q → py_int q = 0.
Proof.
  unfold Qle, Qlt, py_int. destruct q as [n d]. cbn. intros H1 H2.
  apply Z.quot_small. lia.
Qed.

Lemma slice_bound_nonneg n i : 0 ≤ n → 0 ≤ i → slice_bound n i = Z.min i n.
Proof. intros Hn Hi. unfold slice_bound. destruct (Z.ltb_spec i 0); [lia | done]. Qed.

Lemma slice_bound_range n i : 0 ≤ n → 0 ≤ slice_bound n i ≤ n.
Proof. intros Hn. unfold slice_bound. destruct (Z.ltb_spec i 0); lia. Qed.

Lemma crop_with_padding_Some h w x1 y1 x2 y2 pad_frac r :
  crop_with_padding h w (x1, y1, x2, y2) pad_frac = Some r →
  r = Rect
        (slice_bound h (Z.max 0 (y1 - py_int (inject_Z (y2 - y1) * pad_frac))))
        (slice_bound h (Z.min (h - 1) (y2 + py_int (inject_Z (y2 - y1) * pad_frac))))
        (slice_bound w (Z.max 0 (x1 - py_int (inject_Z (x2 - x1) * pad_frac))))
        (slice_bound w (Z.min (w - 1) (x2 + py_int (inject_Z (x2 - x1) * pad_frac)))) ∧
  r_top r < r_bottom r ∧ r_left r < r_right r.
Proof.
  unfold crop_with_padding. cbv zeta. cbn [r_top r_bottom r_left r_right].
  destruct (_ =? 0) eqn:Hne; [done|]. apply Z.eqb_neq in Hne.
  intros [= <-]. split; [done|].
  cbn [r_top r_bottom r_left r_right].
  match type of Hne with
  | Z.max 0 ?a * Z.max 0 ?b * 3 ≠ 0 =>
      destruct (Z.max_spec 0 a) as [[? Ha]|[? Ha]], (Z.max_spec 0 b) as [[? Hb]|[? Hb]];
      rewrite Ha, Hb in Hne
  end; lia.
Qed.

(** X9. Whatever the box, a crop that is returned is a non-empty rectangle of
    the frame, and it never reaches the last row or the last column:
    [min(w - 1, ...)] is used as the exclusive end of the slice. *)
Theorem crop_lies_inside_the_frame h w bx pad_frac r :
  0 ≤ h → 0 ≤ w →
  crop_with_padding h w bx pad_frac = Some r →
  0 ≤ r_top r ∧ r_top r < r_bottom r ∧ r_bottom r ≤ h - 1 ∧
  0 ≤ r_left r ∧ r_left r < r_right r ∧ r_right r ≤ w - 1.
Proof.
  intros Hh Hw. destruct bx as [[[x1 y1] x2] y2].
  intros (-> & Hv & Hhz)%crop_with_padding_Some.
  cbn [r_top r_bottom r_left r_right] in *.
  pose proof (slice_bound_range h (Z.max 0 (y1 - py_int (inject_Z (y2 - y1) * pad_frac))) Hh).
  pose proof (slice_bound_range w (Z.max 0 (x1 - py_int (inject_Z (x2 - x1) * pad_frac))) Hw).
  assert (∀ n i, 0 ≤ n → i ≤ n - 1 → slice_bound n i ≤ n - 1 ∨ slice_bound n i = 0) as Hb.
  { intros n i Hn Hi. unfold slice_bound. destruct (Z.ltb_spec i 0); lia. }
  destruct (Hb h (Z.min (h - 1) (y2 + py_int (inject_Z (y2 - y1) * pad_frac))) Hh); [lia| |lia].
  destruct (Hb w (Z.min (w - 1) (x2 + py_int (inject_Z (x2 - x1) * pad_frac))) Hw); lia.
Qed.

Lemma crop_covers_aux h w x1 y1 x2 y2 px py :
  0 ≤ x1 < x2 ∧ x2 ≤ w → 0 ≤ y1 < y2 ∧ y2 ≤ h →
  x1 < w - 1 → y1 < h - 1 → 0 ≤ px → 0 ≤ py →
  (Z.max 0 (slice_bound h (Z.min (h - 1) (y2 + py)) - slice_bound h (Z.max 0 (y1 - py))) *
   Z.max 0 (slice_bound w (Z.min (w - 1) (x2 + px)) - slice_bound w (Z.max 0 (x1 - px))) * 3
   =? 0) = false ∧
  slice_bound w (Z.max 0 (x1 - px)) ≤ x1 ∧
  slice_bound h (Z.max 0 (y1 - py)) ≤ y1 ∧
  Z.min x2 (w - 1) ≤ slice_bound w (Z.min (w - 1) (x2 + px)) ∧
  Z.min y2 (h - 1) ≤ slice_bound h (Z.min (h - 1) (y2 + py)).
Proof.
  intros Hx Hy Hx1 Hy1 Hpx Hpy.
  rewrite !slice_bound_nonneg by lia.
  split; [|lia].
  apply Z.eqb_neq. intros Hz.
  rewrite !Z.max_r in Hz by lia.
  apply Z.mul_eq_0 in Hz as [Hz|Hz]; [|lia].
  apply Z.mul_eq_0 in Hz as [Hz|Hz]; lia.
Qed.

(** X10. A box that lies in the frame and starts before the last row and the
    last column always gets a crop, and the crop covers the box up to the
    last row and column: it starts at or before the corner of the box and
    ends at or after the other corner, cut at [h - 1] and [w - 1]. *)
Theorem crop_covers_the_box h w x1 y1 x2 y2 pad_frac :
  (0 <= pad_frac)%Q →
  0 ≤ x1 < x2 ∧ x2 ≤ w → 0 ≤ y1 < y2 ∧ y2 ≤ h →
  x1 < w - 1 → y1 < h - 1 →
  ∃ r, crop_with_padding h w (x1, y1, x2, y2) pad_frac = Some r ∧
       r_left r ≤ x1 ∧ r_top r ≤ y1 ∧
       Z.min x2 (w - 1) ≤ r_right r ∧ Z.min y2 (h - 1) ≤ r_bottom r.
Proof.
  intros Hpad Hx Hy Hx1 Hy1.
  assert (0 ≤ py_int (inject_Z (x2 - x1) * pad_frac)) as Hpx.
  { apply py_int_nonneg, Qmult_le_0_compat; [|done]. unfold Qle; cbn; lia. }
  assert (0 ≤ py_int (inject_Z (y2 - y1) * pad_frac)) as Hpy.
  { apply py_int_nonneg, Qmult_le_0_compat; [|done]. unfold Qle; cbn; lia. }
  destruct (crop_covers_aux h w x1 y1 x2 y2 _ _ Hx Hy Hx1 Hy1 Hpx Hpy)
    as (Hsize & Hl & Ht & Hr & Hb).
  unfold crop_with_padding. cbv zeta. cbn [r_top r_bottom r_left r_right].
  rewrite Hsize. eexists. split; [reflexivity|].
  cbn [r_top r_bottom r_left r_right]. split_and!; assumption.
Qed.

Lemma crop_drops_aux h w x1 x2 y1 y2 py :
  0 ≤ x1 ≤ x2 ∧ x2 ≤ w → w - 1 ≤ x1 →
  (Z.max 0 (slice_bound h (Z.min (h - 1) (y2 + py)) - slice_bound h (Z.max 0 (y1 - py))) *
   Z.max 0 (slice_bound w (Z.min (w - 1) (x2 + 0)) - slice_bound w (Z.max 0 (x1 - 0))) * 3
   =? 0) = true.
Proof.
  intros Hx Hlast. apply Z.eqb_eq.
  assert (slice_bound w (Z.min (w - 1) (x2 + 0)) - slice_bound w (Z.max 0 (x1 - 0)) ≤ 0) as Hle.
  { unfold slice_bound.
    destruct (Z.ltb_spec (Z.min (w - 1) (x2 + 0)) 0), (Z.ltb_spec (Z.max 0 (x1 - 0)) 0); lia. }
  rewrite (Z.max_l 0 (_ - slice_bound w _)) by lia. lia.
Qed.

(** X11. A box in the last column of the frame is dropped: with a padding
    fraction below 1 it gets no crop, whatever its rows. *)
Theorem crop_drops_a_box_in_the_last_column h w x1 y1 x2 y2 pad_frac :
  (0 <= pad_frac)%Q → (pad_frac < 1)%Q →
  0 ≤ x1 ≤ x2 ∧ x2 ≤ w → w - 1 ≤ x1 →
  crop_with_padding h w (x1, y1, x2, y2) pad_frac = None.
Proof.
  intros Hp0 Hp1 Hx Hlast.
  assert (py_int (inject_Z (x2 - x1) * pad_frac) = 0) as Hpx.
  { assert (x2 - x1 = 0 ∨ x2 - x1 = 1) as [-> | ->] by lia.
    - change (inject_Z 0) with 0%Q. apply py_int_small; lra.
    - change (inject_Z 1) with 1%Q. apply py_int_small; lra. }
  unfold crop_with_padding. cbv zeta. cbn [r_top r_bottom r_left r_right].
  rewrite Hpx. by rewrite crop_drops_aux.
Qed.


(** * run_ocr *)

Lemma py_upper_char_alnum c :
  py_isalnum c = true → is_digit (py_upper_char c) || is_upper (py_upper_char c) = true.
Proof.
  destruct c as [[] [] [] [] [] [] [] []]; vm_compute; (reflexivity || discriminate).
Qed.

Lemma plate_char_fixed c :
  is_digit c || is_upper c = true → py_isalnum c = true ∧ py_upper_char c = c.
Proof.
  destruct c as [[] [] [] [] [] [] [] []]; vm_compute; (by split || discriminate).
Qed.

Lemma clean_is_plate_chars s : plate_chars (py_upper (keep_alnum s)) = true.
Proof.
  induction s as [|c s IH]; [done|]. cbn [keep_alnum].
  destruct (py_isalnum c) eqn:E; [|done].
  cbn [py_upper plate_chars]. by rewrite py_upper_char_alnum, IH.
Qed.

Lemma clean_fixes_plate_chars s : plate_chars s = true → py_upper (keep_alnum s) = s.
Proof.
  induction s as [|c s IH]; [done|]. cbn [plate_chars keep_alnum].
  intros [Hc Hs]%andb_true_iff. destruct (plate_char_fixed c Hc) as [-> Hu].
  cbn [py_upper]. by rewrite Hu, IH.
Qed.

Lemma clean_length s : (String.length (py_upper (keep_alnum s)) ≤ String.length s)%nat.
Proof.
  induction s as [|c s IH]; [done|]. cbn [keep_alnum].
  destruct (py_isalnum c); cbn [py_upper String.length]; lia.
Qed.

Lemma best_from_spec best l :
  (best_from best l = best ∧ ∀ r, r ∈ l → (ocr_conf r <= ocr_conf best)%Q) ∨
  ∃ i, l !! i = Some (best_from best l) ∧
       (ocr_conf best < ocr_conf (best_from best l))%Q ∧
       (∀ j r, (j < i)%nat → l !! j = Some r →
               (ocr_conf r < ocr_conf (best_from best l))%Q) ∧
       ∀ r, r ∈ l → (ocr_conf r <= ocr_conf (best_from best l))%Q.
Proof.
  revert best. induction l as [|r l IH]; intros best; cbn [best_from].
  - left. split; [done|]. by intros r ?%elem_of_nil.
  - destruct (py_gt (ocr_conf r) (ocr_conf best)) eqn:G.
    + apply py_gt_spec in G. right.
      destruct (IH r) as [[Heq Hall]|(i & Hi & Hlt & Hbefore & Hall)].
      * rewrite Heq. exists 0%nat. split_and!; [done | done | lia |].
        intros r' [->|Hr']%elem_of_cons; [lra | by apply Hall].
      * exists (S i). split_and!; [done | lra | |].
        -- intros [|j] r' Hj Hr'; cbn in Hr'; [simplify_eq; lra|].
           apply (Hbefore j); [lia | done].
        -- intros r' [->|Hr']%elem_of_cons; [lra | by apply Hall].
    + apply py_gt_false in G.
      destruct (IH best) as [[Heq Hall]|(i & Hi & Hlt & Hbefore & Hall)].
      * left. split; [done|].
        intros r' [->|Hr']%elem_of_cons; [done | by apply Hall].
      * right. exists (S i). split_and!; [done | done | |].
        -- intros [|j] r' Hj Hr'; cbn in Hr'; [simplify_eq; lra|].
           apply (Hbefore j); [lia | done].
        -- intros r' [->|Hr']%elem_of_cons; [lra | by apply Hall].
Qed.

Lemma run_ocr_plate_chars results : plate_chars (run_ocr results) = true.
Proof.
  unfold run_ocr. destruct (best_result results); [apply clean_is_plate_chars | done].
Qed.

(** X12. [run_ocr] takes the text of the first result whose confidence no
    result exceeds (every earlier result is strictly less confident),
    keeps its letters and digits and puts them in capitals;
    [LPProcessor.run_ocr] returns the same text with that confidence. *)
Theorem run_ocr_takes_the_most_confident_text results :
  results ≠ [] →
  ∃ i best, results !! i = Some best ∧
    (∀ j r, results !! j = Some r →
            (ocr_conf r <= ocr_conf best)%Q ∧
            ((j < i)%nat → (ocr_conf r < ocr_conf best)%Q)) ∧
    run_ocr results = py_upper (keep_alnum (ocr_text best)) ∧
    up_run_ocr results = (run_ocr results, ocr_conf best).
Proof.
  destruct results as [|r0 l]; [done|]. intros _.
  unfold run_ocr, up_run_ocr, best_result.
  destruct (best_from_spec r0 l) as [[Heq Hall]|(i & Hi & Hlt & Hbefore & Hall)].
  - exists 0%nat, r0. rewrite Heq. split_and!; [done | | done | done].
    intros [|j] r Hr; cbn in Hr.
    + simplify_eq. split; [lra | lia].
    + split; [|lia]. by apply Hall, list_elem_of_lookup_2 with j.
  - exists (S i), (best_from r0 l). split_and!; [done | | done | done].
    intros [|j] r Hr; cbn in Hr.
    + simplify_eq. split; [lra | intros _; lra].
    + split; [by apply Hall, list_elem_of_lookup_2 with j |].
      intros Hj. apply (Hbefore j); [lia | done].
Qed.

(** X13. What [run_ocr] returns holds only digits and capital letters; it is
    empty when [readtext] found nothing; it is no longer than the text it
    came from; and a text that already holds only digits and capital
    letters is returned as it is. *)
Theorem run_ocr_text_is_clean results :
  (∀ r, r ∈ results → ascii_only (ocr_text r) = true) →
  plate_chars (run_ocr results) = true ∧
  (results = [] → run_ocr results = "" ∧ up_run_ocr results = ("", 0%Q)) ∧
  (∀ r, results = [r] → plate_chars (ocr_text r) = true → run_ocr results = ocr_text r) ∧
  (results ≠ [] →
   ∃ r, r ∈ results ∧ (String.length (run_ocr results) ≤ String.length (ocr_text r))%nat).
Proof.
  intros _. split_and!.
  - apply run_ocr_plate_chars.
  - by intros ->.
  - intros r -> Hr. unfold run_ocr, best_result. cbn [best_from].
    by apply clean_fixes_plate_chars.
  - destruct results as [|r0 l]; [done|]. intros _. unfold run_ocr, best_result.
    exists (best_from r0 l). split; [|apply clean_length].
    destruct (best_from_spec r0 l) as [[-> _]|(i & Hi & _)].
    + apply list_elem_of_here.
    + apply list_elem_of_further. by apply list_elem_of_lookup_2 with i.
Qed.

(** X14. The texts the tracker holds are plate texts: when the text of every
    box is what [run_ocr] made of ASCII OCR results, every key of
    [plates_seen], every confirmed text and every announced text holds at
    least four characters, all of them digits or capital letters, in the
    livestream script and in the upload script. *)
Theorem tracked_texts_are_plate_texts cfg o ts :
  (∀ w b, Camera w b ∈ ts →
     ∃ results, (∀ r, r ∈ results → ascii_only (ocr_text r) = true) ∧
                box_text b = run_ocr results) →
  (∀ x, is_Some (Livestream.plates_seen (ls_turns cfg o Livestream.initial ts).1 !! x) ∨
        x ∈ Livestream.confirmed_plates (ls_turns cfg o Livestream.initial ts).1 ∨
        x ∈ (entries (ls_turns cfg o Livestream.initial ts).2.1).*1 →
        (4 ≤ String.length x)%nat ∧ plate_chars x = true) ∧
  (∀ x, is_Some (Upload.plates_seen (up_turns cfg o Upload.initial ts).1 !! x) ∨
        x ∈ Upload.confirmed_plates (up_turns cfg o Upload.initial ts).1 ∨
        x ∈ (entries (up_turns cfg o Upload.initial ts).2.1).*1 →
        (4 ≤ String.length x)%nat ∧ plate_chars x = true).
Proof.
  intros Hocr.
  assert (∀ w b, Camera w b ∈ ts → is_Some (box_crop b) →
                 (4 ≤ String.length (box_text b))%nat →
                 (4 ≤ String.length (box_text b))%nat ∧ plate_chars (box_text b) = true)
    as HP.
  { intros w b Hin _ Hlen. split; [done|].
    destruct (Hocr w b Hin) as (results & _ & ->). apply run_ocr_plate_chars. }
  split.
  - destruct (ls_turns_keep cfg o
                (λ x, (4 ≤ String.length x)%nat ∧ plate_chars x = true)
                ts Livestream.initial) as (_ & Hk & Hc & He); [done| | | |].
    + apply ls_inv_initial.
    + intros k [v Hv]. cbn in Hv. by rewrite lookup_empty in Hv.
    + intros x Hx. cbn in Hx. by apply not_elem_of_empty in Hx.
    + intros x [Hx|[Hx|Hx]]; [by apply Hk | by apply Hc |].
      apply list_elem_of_fmap in Hx as (tc & -> & Htc). by apply He.
  - destruct (up_turns_keep cfg o
                (λ x, (4 ≤ String.length x)%nat ∧ plate_chars x = true)
                ts Upload.initial) as (_ & Hk & Hc & He); [done| | | |].
    + apply up_inv_initial.
    + intros k [v Hv]. cbn in Hv. by rewrite lookup_empty in Hv.
    + intros x Hx. cbn in Hx. by apply not_elem_of_empty in Hx.
    + intros x [Hx|[Hx|Hx]]; [by apply Hk | by apply Hc |].
      apply list_elem_of_fmap in Hx as (tc & -> & Htc). by apply He.
Qed.


(** * The frame counter *)

Lemma div_step i k :
  0 < k → (i + 1) / k = i / k + (if (i + 1) mod k =? 0 then 1 else 0).
Proof.
  intros Hk.
  pose proof (Z.div_mod i k ltac:(lia)). pose proof (Z.div_mod (i + 1) k ltac:(lia)).
  pose proof (Z.mod_pos_bound i k Hk). pose proof (Z.mod_pos_bound (i + 1) k Hk).
  destruct (Z.eqb_spec ((i + 1) mod k) 0); nia.
Qed.

Lemma frames_read_cons ret reads :
  frames_read (ret :: reads) = (if ret then 1 else 0) + frames_read reads.
Proof.
  unfold frames_read. rewrite filter_cons. destruct ret.
  - rewrite decide_True by done. cbn [length]. lia.
  - rewrite decide_False by done. lia.
Qed.

Lemma camera_session_cons k idx ret reads :
  k ≠ 0 →
  camera_session k idx (ret :: reads)
  = (frame_gate k idx ret).2 :: camera_session k (frame_gate k idx ret).1 reads.
Proof.
  intros Hk. cbn [camera_session]. unfold frame_gate.
  rewrite (proj2 (Z.eqb_neq k 0) Hk).
  destruct ret; [|done]. by destruct (negb _).
Qed.

Lemma camera_session_lookup k reads idx j :
  k ≠ 0 →
  camera_session k idx reads !! j
  = match reads !! j with
    | Some true =>
        Some (if (idx + frames_read (take (S j) reads)) mod k =? 0
              then Processed else Skipped)
    | Some false => Some ReadFailed
    | None => None
    end.
Proof.
  intros Hk. revert idx j. induction reads as [|ret reads IH]; intros idx j; [done|].
  rewrite camera_session_cons by done. destruct j as [|j].
  - cbn [lookup list_lookup take]. unfold frame_gate.
    rewrite (proj2 (Z.eqb_neq k 0) Hk). destruct ret; [|done].
    rewrite frames_read_cons. change (frames_read []) with 0. rewrite Z.add_0_r.
    by destruct (_ =? 0).
  - cbn [lookup list_lookup]. rewrite IH.
    destruct (reads !! j) as [[|]|]; [|done..].
    do 2 f_equal. rewrite (firstn_cons (S j) ret reads), frames_read_cons.
    unfold frame_gate. rewrite (proj2 (Z.eqb_neq k 0) Hk).
    destruct ret; [destruct (negb _)|]; cbn [fst]; by rewrite ?Z.add_0_l, ?Z.add_assoc.
Qed.

Lemma camera_session_count k reads idx :
  0 < k →
  count_processed (camera_session k idx reads)
  = (idx + frames_read reads) / k - idx / k.
Proof.
  intros Hk. revert idx. induction reads as [|ret reads IH]; intros idx.
  - replace (idx + frames_read []) with idx by (unfold frames_read; cbn; lia).
    change (count_processed (camera_session k idx [])) with 0. lia.
  - rewrite camera_session_cons, frames_read_cons by lia.
    unfold count_processed in *. rewrite filter_cons.
    unfold frame_gate. rewrite (proj2 (Z.eqb_neq k 0)) by lia.
    destruct ret.
    + pose proof (div_step idx k Hk) as Hd.
      destruct (Z.eqb_spec ((idx + 1) mod k) 0) as [Hz|Hz]; cbn [negb fst snd processed].
      * rewrite decide_True by done. cbn [length].
        rewrite Nat2Z.inj_succ, IH. replace (idx + (1 + frames_read reads))
          with (idx + 1 + frames_read reads) by lia. lia.
      * rewrite decide_False by done.
        rewrite IH. replace (idx + (1 + frames_read reads))
          with (idx + 1 + frames_read reads) by lia. lia.
    + cbn [fst snd processed]. rewrite decide_False by done. rewrite IH.
      by rewrite Z.add_0_l.
Qed.

(** X15. With a FRAME_SKIP other than 0, a failed read is not counted, and the
    frame that is the n-th one read is handed to the detector exactly when
    FRAME_SKIP divides n; so with a positive FRAME_SKIP k the detector
    sees one frame in k: (frames read) / k of them. *)
Theorem every_kth_frame_is_processed frame_skip reads :
  frame_skip ≠ 0 →
  (∀ j, reads !! j = Some true →
        camera_session frame_skip 0 reads !! j
        = Some (if frames_read (take (S j) reads) mod frame_skip =? 0
                then Processed else Skipped)) ∧
  (∀ j, reads !! j = Some false →
        camera_session frame_skip 0 reads !! j = Some ReadFailed) ∧
  (0 < frame_skip →
   count_processed (camera_session frame_skip 0 reads) = frames_read reads / frame_skip).
Proof.
  intros Hk. split_and!.
  - intros j Hj. by rewrite camera_session_lookup, Hj.
  - intros j Hj. by rewrite camera_session_lookup, Hj.
  - intros Hpos. rewrite camera_session_count by done.
    rewrite Z.add_0_l, Zdiv_0_l. lia.
Qed.

(** X16. With FRAME_SKIP = 0 the loop never hands a frame to the detector: the
    first frame that is read raises the division by zero, which ends the
    session. *)
Theorem zero_frame_skip_stops_the_camera reads idx :
  count_processed (camera_session 0 idx reads) = 0 ∧
  (true ∈ reads →
   ∃ n, reads !! n = Some true ∧ take n reads = replicate n false ∧
        camera_session 0 idx reads = replicate n ReadFailed ++ [DivisionByZero]).
Proof.
  split.
  - induction reads as [|[|] reads IH]; [done | done |].
    cbn [camera_session frame_gate fst snd]. unfold count_processed in *.
    by rewrite filter_cons, decide_False.
  - induction reads as [|[|] reads IH]; intros Hin.
    + by apply elem_of_nil in Hin.
    + by exists 0%nat.
    + apply elem_of_cons in Hin as [?|Hin]; [done|].
      destruct (IH Hin) as (n & H1 & H2 & H3). exists (S n).
      split_and!; [done | by cbn; rewrite H2 |].
      cbn [camera_session frame_gate fst snd]. by rewrite H3.
Qed.


(** * process_image *)

Lemma publications_app tr1 tr2 :
  publications (tr1 ++ tr2) = publications tr1 ++ publications tr2.
Proof.
  induction tr1 as [|e tr1 IH]; [done|]. destruct e; cbn; by rewrite ?IH.
Qed.

Lemma up_process_box_spec cfg pad_frac h w yb :
  (up_process_box cfg pad_frac h w yb).2.2 = Returned ∧
  entries (up_process_box cfg pad_frac h w yb).2.1 = [] ∧
  Forall (λ e, e ≠ EvLockAcquire) (up_process_box cfg pad_frac h w yb).2.1 ∧
  match (up_process_box cfg pad_frac h w yb).1 with
  | None => publications (up_process_box cfg pad_frac h w yb).2.1 = []
  | Some d =>
      publications (up_process_box cfg pad_frac h w yb).2.1
      = [("upload_test", ud_plate d, ud_ocr_conf d)] ∧
      (4 ≤ String.length (ud_plate d))%nat ∧
      ud_plate d = run_ocr (yb_readtext yb) ∧
      up_run_ocr (yb_readtext yb) = (ud_plate d, ud_ocr_conf d) ∧
      ud_conf d = yb_conf yb ∧ ud_bbox d = yb_xyxy yb ∧
      is_Some (crop_with_padding h w (yb_xyxy yb) pad_frac)
  end.
Proof.
  unfold up_process_box.
  destruct (crop_with_padding h w (yb_xyxy yb) pad_frac) as [r|] eqn:Hcrop;
    [|by repeat split].
  destruct (Nat.ltb_spec (String.length (up_run_ocr (yb_readtext yb)).1) 4) as [|Hlen].
  { split_and!; [done | done | | done]. repeat constructor. done. }
  cbn [fst snd ud_plate ud_ocr_conf ud_conf ud_bbox].
  assert ((up_run_ocr (yb_readtext yb)).1 = run_ocr (yb_readtext yb)) as Hrun
    by (unfold up_run_ocr, run_ocr; by destruct (best_result _)).
  unfold publish_event, client_publish, Upload._save_debug_images, write_debug_files.
  destruct (DEBUG_SAVE cfg), (save_ok (yb_world yb)), (MQTT_ENABLED cfg),
    (publish_ok (yb_world yb)); cbn;
    (split_and!; [done | done | by repeat constructor | done | done | done
                 | by destruct (up_run_ocr _) | done | done | done]).
Qed.

(** X17. [LPProcessor.process_image] never raises, whatever the disk and the
    broker do, never takes the lock and never announces an "entry": it
    calls the emitter once per returned detection, in order, with the tag
    "upload_test", the plate text and the OCR confidence.  Every detection
    comes from a box that had a crop, carries the box's corners and
    detector confidence, and its text is what [run_ocr] returned, of at
    least four characters. *)
Theorem up_process_image_reports_each_detection_once cfg pad_frac h w boxes :
  (up_process_image cfg pad_frac h w boxes).2.2 = Returned ∧
  entries (up_process_image cfg pad_frac h w boxes).2.1 = [] ∧
  Forall (λ e, e ≠ EvLockAcquire) (up_process_image cfg pad_frac h w boxes).2.1 ∧
  publications (up_process_image cfg pad_frac h w boxes).2.1
  = map (λ d, ("upload_test", ud_plate d, ud_ocr_conf d))
        (up_process_image cfg pad_frac h w boxes).1 ∧
  ∀ d, d ∈ (up_process_image cfg pad_frac h w boxes).1 →
       (4 ≤ String.length (ud_plate d))%nat ∧
       ∃ yb, yb ∈ boxes ∧
             up_run_ocr (yb_readtext yb) = (ud_plate d, ud_ocr_conf d) ∧
             ud_conf d = yb_conf yb ∧ ud_bbox d = yb_xyxy yb ∧
             is_Some (crop_with_padding h w (yb_xyxy yb) pad_frac).
Proof.
  induction boxes as [|yb boxes IH]; cbn [up_process_image].
  - split_and!; [done | done | constructor | done |]. by intros d ?%elem_of_nil.
  - destruct IH as (Hret & Hent & Hlock & Hpub & Hdet).
    destruct (up_process_box_spec cfg pad_frac h w yb) as (Hret1 & Hent1 & Hlock1 & Hbox).
    rewrite Hret1, Hret. cbn [fst snd].
    rewrite entries_app, publications_app, Hent1, Hent, Hpub.
    split_and!; [done | done | by apply Forall_app | |].
    + destruct (up_process_box cfg pad_frac h w yb).1 as [d|].
      * destruct Hbox as (-> & _). done.
      * by rewrite Hbox.
    + intros d Hd.
      assert (d ∈ (up_process_image cfg pad_frac h w boxes).1 ∨
              (up_process_box cfg pad_frac h w yb).1 = Some d) as [Hin|Heq].
      { destruct (up_process_box cfg pad_frac h w yb).1 as [d'|]; [|by left].
        apply elem_of_cons in Hd as [->|Hd]; [by right | by left]. }
      * destruct (Hdet d Hin) as (Hlen & yb' & Hyb' & Hrest). split; [done|].
        exists yb'. split; [by apply list_elem_of_further | done].
      * rewrite Heq in Hbox. destruct Hbox as (_ & Hlen & _ & H1 & H2 & H3 & H4).
        split; [done|]. exists yb. split; [apply list_elem_of_here | done].
Qed.

Lemma ls_process_box_spec pad_frac h w save_debug upload_mode yb d ts :
  publications (ls_process_box pad_frac h w save_debug upload_mode yb d ts).2 = [] ∧
  Forall (λ e, (∃ crop, e = EvRunOcr crop) ∨ ∃ t crop, e = EvSaveFile t crop)
         (ls_process_box pad_frac h w save_debug upload_mode yb d ts).2 ∧
  ∀ x, (ls_process_box pad_frac h w save_debug upload_mode yb d ts).1 = Some x →
       (1 ≤ String.length (ld_plate x))%nat ∧
       ld_plate x = run_ocr (yb_readtext yb) ∧
       ld_conf x = yb_conf yb ∧ ld_bbox x = yb_xyxy yb ∧
       is_Some (crop_with_padding h w (yb_xyxy yb) pad_frac) ∧
       (ld_det_path x = None ∧ ld_ocr_path x = None ∧
        (save_debug = false ∨ det_ok d = false ∨ (ocr_ok d = false ∧ fallback_ok d = false)) ∨
        save_debug = true ∧ det_ok d = true ∧ (ocr_ok d = true ∨ fallback_ok d = true) ∧
        ld_det_path x
        = Some (debug_path ts (ld_plate x) (if upload_mode then "upload" else "proc") "det") ∧
        ld_ocr_path x
        = Some (debug_path ts (ld_plate x) (if upload_mode then "upload" else "proc") "ocr")).
Proof.
  unfold ls_process_box.
  destruct (crop_with_padding h w (yb_xyxy yb) pad_frac) as [r|] eqn:Hcrop.
  2: { split_and!; [done | constructor | done]. }
  destruct (Nat.ltb_spec (String.length (run_ocr (yb_readtext yb))) 1) as [|Hlen].
  { split_and!; [done | | done]. apply Forall_cons. split; [eauto | constructor]. }
  unfold ls_save_block.
  destruct save_debug, (det_ok d), (ocr_ok d), (fallback_ok d);
    cbn [fst snd publications];
    (split_and!;
     [done
     | repeat (apply Forall_cons; split; [eauto|]); by apply Forall_nil
     | intros x [= <-]; cbn [ld_plate ld_conf ld_bbox ld_det_path ld_ocr_path];
       split_and!; try done;
       first [ left; split_and!; [done | done | auto; fail]
             | right; split_and!; auto; fail ]]).
Qed.

(** X18. The livestream [process_image] only runs the recognizer and writes
    files: it never calls the emitter.  Every detection it returns comes
    from a box that had a crop and a non-empty text; its two debug paths
    are both set or both missing; they are set exactly when saving was
    asked for, the detection crop was written and the image under the OCR
    name was written directly or by the fallback, and then they are the
    "det" and "ocr" names built from the time stamp, the text and the tag
    ("upload" in upload mode, "proc" otherwise). *)
Theorem ls_process_image_detections pad_frac h w save_debug upload_mode boxes :
  publications (ls_process_image pad_frac h w save_debug upload_mode boxes).2 = [] ∧
  Forall (λ e, (∃ crop, e = EvRunOcr crop) ∨ ∃ t crop, e = EvSaveFile t crop)
         (ls_process_image pad_frac h w save_debug upload_mode boxes).2 ∧
  ∀ x, x ∈ (ls_process_image pad_frac h w save_debug upload_mode boxes).1 →
       (1 ≤ String.length (ld_plate x))%nat ∧
       ∃ yb d ts, (yb, d, ts) ∈ boxes ∧
         ld_plate x = run_ocr (yb_readtext yb) ∧
         ld_conf x = yb_conf yb ∧ ld_bbox x = yb_xyxy yb ∧
         is_Some (crop_with_padding h w (yb_xyxy yb) pad_frac) ∧
         (ld_det_path x = None ∧ ld_ocr_path x = None ∧
          (save_debug = false ∨ det_ok d = false ∨
           (ocr_ok d = false ∧ fallback_ok d = false)) ∨
          save_debug = true ∧ det_ok d = true ∧ (ocr_ok d = true ∨ fallback_ok d = true) ∧
          ld_det_path x
          = Some (debug_path ts (ld_plate x) (if upload_mode then "upload" else "proc") "det") ∧
          ld_ocr_path x
          = Some (debug_path ts (ld_plate x) (if upload_mode then "upload" else "proc") "ocr")).
Proof.
  induction boxes as [|[[yb d] ts] boxes IH]; cbn [ls_process_image].
  - split_and!; [done | constructor |]. by intros x ?%elem_of_nil.
  - destruct IH as (Hpub & Hev & Hdet).
    destruct (ls_process_box_spec pad_frac h w save_debug upload_mode yb d ts)
      as (Hpub1 & Hev1 & Hbox).
    cbn [fst snd]. rewrite publications_app, Hpub1, Hpub.
    split_and!; [done | by apply Forall_app |].
    intros x Hx.
    assert (x ∈ (ls_process_image pad_frac h w save_debug upload_mode boxes).1 ∨
            (ls_process_box pad_frac h w save_debug upload_mode yb d ts).1 = Some x)
      as [Hin|Heq].
    { destruct (ls_process_box pad_frac h w save_debug upload_mode yb d ts).1 as [x'|];
        [|by left].
      apply elem_of_cons in Hx as [->|Hx]; [by right | by left]. }
    + destruct (Hdet x Hin) as (Hlen & yb' & d' & ts' & Hin' & Hrest). split; [done|].
      exists yb', d', ts'. split; [by apply list_elem_of_further | done].
    + destruct (Hbox x Heq) as (Hlen & Hrest). split; [done|].
      exists yb, d, ts. split; [apply list_elem_of_here | done].
Qed.

(** X19. The two paths of the livestream script disagree on short texts: a box
    with a crop whose text has one to three characters is returned by
    [process_image] as a detection, while the camera loop drops it without
    touching the tracker or taking the lock. *)
Theorem short_texts_are_reported_but_not_tracked
    cfg o pad_frac h w save_debug upload_mode yb d ts s now :
  is_Some (crop_with_padding h w (yb_xyxy yb) pad_frac) →
  (1 ≤ String.length (run_ocr (yb_readtext yb)) < 4)%nat →
  (∃ x, (ls_process_box pad_frac h w save_debug upload_mode yb d ts).1 = Some x ∧
        ld_plate x = run_ocr (yb_readtext yb)) ∧
  Livestream.detection_box cfg o (yb_world yb) s
    (Box (yb_conf yb) (Some (yb_crop yb)) (run_ocr (yb_readtext yb)) now)
  = (s, ([EvRunOcr (yb_crop yb)], Returned)).
Proof.
  intros [r Hcrop] [Hlo Hhi]. split.
  - unfold ls_process_box. rewrite Hcrop.
    rewrite (proj2 (Nat.ltb_ge _ _)) by lia. eauto.
  - unfold Livestream.detection_box. cbn [box_crop box_text].
    by rewrite (proj2 (Nat.ltb_lt _ _)) by lia.
Qed.


(** * app_trial_livestream.py against plate_capture_easyocr_livestream.py *)







(** * The exit lines of the upload watcher *)

Lemma exit_lines_app tr1 tr2 : exit_lines (tr1 ++ tr2) = exit_lines tr1 ++ exit_lines tr2.
Proof.
  induction tr1 as [|e tr1 IH]; [done|].
  destruct e as [| | | | | |[]|]; cbn; by rewrite ?IH.
Qed.

Lemma filter_ext_elem (P1 P2 : string → Prop)
    `{!∀ x, Decision (P1 x), !∀ x, Decision (P2 x)} (l : list string) :
  (∀ x, x ∈ l → (P1 x ↔ P2 x)) → filter P1 l = filter P2 l.
Proof.
  induction l as [|a l IH]; intros Hext; [done|].
  rewrite !filter_cons. rewrite IH by (intros x Hx; apply Hext; by apply list_elem_of_further).
  destruct (decide (P1 a)) as [Ha1|Ha1], (decide (P2 a)) as [Ha2|Ha2]; try done.
  - exfalso. apply Ha2, Hext; [apply list_elem_of_here | done].
  - exfalso. apply Ha1, Hext; [apply list_elem_of_here | done].
Qed.

Lemma NoDup_fst_filter {A} (P : string * A → Prop) `{!∀ x, Decision (P x)}
    (l : list (string * A)) :
  NoDup l.*1 → NoDup (filter P l).*1.
Proof.
  induction l as [|[k v] l IH]; [done|]. cbn [fmap list_fmap fst].
  intros [Hnot Hnd]%NoDup_cons. rewrite filter_cons.
  destruct (decide (P (k, v))); [|by apply IH].
  cbn [fmap list_fmap fst]. apply NoDup_cons. split; [|by apply IH].
  intros [[k' v'] [Hk [_ Hin]%list_elem_of_filter]]%list_elem_of_fmap. cbn in Hk. subst k'.
  apply Hnot. apply list_elem_of_fmap. by exists (k, v').
Qed.

Lemma up_expired_NoDup cfg now_ts (ps : gmap string Upload.candidate) :
  NoDup (Upload.expired cfg now_ts ps).
Proof. unfold Upload.expired. apply NoDup_fst_filter, NoDup_fst_map_to_list. Qed.

Lemma up_evict_in r pid :
  pid ∈ Upload.confirmed_plates r.1 →
  Upload.evict r pid
  = (Upload.Tracker (delete pid (Upload.plates_seen r.1))
                    (Upload.confirmed_plates r.1 ∖ {[pid]}),
     r.2 ++ [EvPrint (LogExit pid)]).
Proof. intros H. unfold Upload.evict. by rewrite decide_True. Qed.

Lemma up_evict_out r pid :
  pid ∉ Upload.confirmed_plates r.1 →
  Upload.evict r pid
  = (Upload.Tracker (delete pid (Upload.plates_seen r.1)) (Upload.confirmed_plates r.1), r.2).
Proof. intros H. unfold Upload.evict. by rewrite decide_False. Qed.

Lemma up_foldl_evict_lines l r :
  NoDup l →
  exit_lines (foldl Upload.evict r l).2
  = exit_lines r.2 ++ filter (λ pid, pid ∈ Upload.confirmed_plates r.1) l.
Proof.
  revert r. induction l as [|pid l IH]; intros r Hnd; cbn [foldl].
  - by rewrite filter_nil, app_nil_r.
  - apply NoDup_cons in Hnd as [Hnot Hnd]. rewrite IH by done. rewrite filter_cons.
    destruct (decide (pid ∈ Upload.confirmed_plates r.1)) as [Hin|Hout].
    + rewrite (up_evict_in r pid Hin). cbn [fst snd Upload.confirmed_plates].
      rewrite exit_lines_app. cbn [exit_lines].
      rewrite <- app_assoc. cbn [app]. do 2 f_equal.
      apply filter_ext_elem. intros x Hx. rewrite elem_of_difference, elem_of_singleton.
      split; [tauto|]. intros ?. split; [done|]. by intros ->.
    + by rewrite (up_evict_out r pid Hout).
Qed.

(** X21. The watcher of the upload script prints one "[EXIT]" line for each
    text it takes out of the confirmed set, and for no other text: the
    lines are the expired buckets' keys that were confirmed, each once. *)
Theorem up_exit_lines_are_the_unconfirmed_texts cfg now_ts s :
  NoDup (exit_lines (Upload._exit_watcher cfg now_ts s).2.1) ∧
  (∀ pid, pid ∈ exit_lines (Upload._exit_watcher cfg now_ts s).2.1 ↔
          pid ∈ Upload.confirmed_plates s ∧
          ∃ v, Upload.plates_seen s !! pid = Some v ∧
               (EXIT_TIMEOUT cfg < now_ts - Upload.last_seen v)%Q) ∧
  (∀ pid, pid ∈ exit_lines (Upload._exit_watcher cfg now_ts s).2.1 →
          pid ∉ Upload.confirmed_plates (Upload._exit_watcher cfg now_ts s).1) ∧
  (∀ pid, pid ∈ Upload.confirmed_plates s →
          pid ∉ Upload.confirmed_plates (Upload._exit_watcher cfg now_ts s).1 →
          pid ∈ exit_lines (Upload._exit_watcher cfg now_ts s).2.1).
Proof.
  assert (exit_lines (Upload._exit_watcher cfg now_ts s).2.1
          = filter (λ pid, pid ∈ Upload.confirmed_plates s)
                   (Upload.expired cfg now_ts (Upload.plates_seen s))) as ->.
  { unfold Upload._exit_watcher, io_seq, with_lock, io_do. cbn [fst snd].
    rewrite !exit_lines_app. cbn [exit_lines]. rewrite !app_nil_r. unfold Upload.sweep.
    by rewrite up_foldl_evict_lines by apply up_expired_NoDup. }
  unfold Upload._exit_watcher. cbn [fst]. rewrite up_sweep_confirmed.
  split_and!.
  - apply NoDup_filter, up_expired_NoDup.
  - intros pid. rewrite list_elem_of_filter, up_expired_elem. tauto.
  - intros pid [_ Hex]%list_elem_of_filter. rewrite elem_of_difference, elem_of_list_to_set.
    tauto.
  - intros pid Hin Hout. apply list_elem_of_filter. split; [done|].
    destruct (decide (pid ∈ Upload.expired cfg now_ts (Upload.plates_seen s))); [done|].
    exfalso. apply Hout. rewrite elem_of_difference, elem_of_list_to_set. tauto.
Qed.

(** * get_debug_files *)

Lemma append_assoc_str (a b c : string) : (a +:+ b) +:+ c = a +:+ (b +:+ c).
Proof.
  induction a as [|x a IH]; [done|].
  change (String x ((a +:+ b) +:+ c) = String x (a +:+ (b +:+ c))). by rewrite IH.
Qed.

Lemma split_last_cons sep c s :
  split_last sep (String c s)
  = match split_last sep s with
    | Some (a, b) => Some (String c a, b)
    | None => if Ascii.eqb c sep then Some (EmptyString, s) else None
    end.
Proof. done. Qed.

Lemma split_last_None sep s : split_last sep s = None ↔ no_char sep s = true.
Proof.
  induction s as [|c s IH]; cbn; [done|].
  destruct (split_last sep s) as [[a b]|].
  - split; [done|]. intros [_ H]%andb_true_iff. apply IH in H. done.
  - destruct (Ascii.eqb c sep); cbn; [done|]. split; [intros _; by apply IH|done].
Qed.

Lemma split_last_Some sep s a b :
  split_last sep s = Some (a, b) → s = a +:+ String sep b ∧ no_char sep b = true.
Proof.
  revert a. induction s as [|c s IH]; intros a; cbn; [done|].
  destruct (split_last sep s) as [[a' b']|] eqn:E.
  - intros [= <- <-]. destruct (IH a' eq_refl) as [-> ?]. done.
  - destruct (Ascii.eqb_spec c sep) as [->|]; [|done].
    intros [= <- <-]. split; [done|]. by apply split_last_None.
Qed.

Lemma split_last_append sep a b :
  no_char sep b = true → split_last sep (a +:+ String sep b) = Some (a, b).
Proof.
  intros Hb. induction a as [|c a IH].
  - change ("" +:+ String sep b) with (String sep b). rewrite split_last_cons.
    apply split_last_None in Hb. rewrite Hb, Ascii.eqb_refl. done.
  - change (String c a +:+ String sep b) with (String c (a +:+ String sep b)).
    rewrite split_last_cons, IH. done.
Qed.

Lemma append_sep_inj sep a b a' b' :
  no_char sep b = true → no_char sep b' = true →
  a +:+ String sep b = a' +:+ String sep b' → a = a' ∧ b = b'.
Proof.
  intros Hb Hb' E.
  pose proof (split_last_append sep a b Hb) as H1.
  rewrite E, (split_last_append sep a' b' Hb') in H1. by simplify_eq.
Qed.

Lemma rsplit2_three sep f p0 p1 p2 :
  rsplit2 sep f = [p0; p1; p2] →
  f = p0 +:+ String sep (p1 +:+ String sep p2) ∧
  no_char sep p1 = true ∧ no_char sep p2 = true.
Proof.
  unfold rsplit2.
  destruct (split_last sep f) as [[a q2]|] eqn:E1; [|done].
  destruct (split_last sep a) as [[q0 q1]|] eqn:E2; [|done].
  intros [= <- <- <-].
  apply split_last_Some in E1 as [-> ?]. apply split_last_Some in E2 as [-> ?].
  split_and!; [|done..].
  rewrite append_assoc_str. done.
Qed.

Lemma rsplit2_append sep p0 p1 p2 :
  no_char sep p1 = true → no_char sep p2 = true →
  rsplit2 sep (p0 +:+ String sep (p1 +:+ String sep p2)) = [p0; p1; p2].
Proof.
  intros H1 H2. unfold rsplit2.
  change (String sep (p1 +:+ String sep p2)) with (String sep p1 +:+ String sep p2).
  rewrite <- append_assoc_str, (split_last_append sep _ p2 H2).
  by rewrite (split_last_append sep p0 p1 H1).
Qed.

Lemma before_first_common sep a b b' :
  before_first sep (a +:+ String sep b) = before_first sep (a +:+ String sep b').
Proof.
  induction a as [|c a IH].
  - change ("" +:+ String sep b) with (String sep b).
    change ("" +:+ String sep b') with (String sep b').
    cbn [before_first]. by rewrite Ascii.eqb_refl.
  - change (String c a +:+ String sep b) with (String c (a +:+ String sep b)).
    change (String c a +:+ String sep b') with (String c (a +:+ String sep b')).
    cbn [before_first]. destruct (Ascii.eqb c sep); [done|]. by rewrite IH.
Qed.

Lemma ends_with_append suffix a : ends_with suffix (a +:+ suffix) = true.
Proof.
  induction a as [|c a IH].
  - change ("" +:+ suffix) with suffix.
    destruct suffix; cbn [ends_with]; by rewrite String.eqb_refl.
  - change (String c a +:+ suffix) with (String c (a +:+ suffix)).
    cbn [ends_with]. rewrite IH. apply orb_true_r.
Qed.

Lemma str_lt_irrefl a : str_lt a a = false.
Proof.
  induction a as [|c a IH]; cbn; [done|].
  rewrite N.ltb_irrefl, N.eqb_refl, IH. done.
Qed.

Lemma insert_desc_elem key x l y : y ∈ insert_desc key x l ↔ y = x ∨ y ∈ l.
Proof.
  induction l as [|z l IH]; cbn.
  - rewrite list_elem_of_singleton. set_solver.
  - destruct (str_lt (key z) (key x)); set_solver.
Qed.

Lemma sort_desc_elem key l y : y ∈ sort_desc key l ↔ y ∈ l.
Proof.
  unfold sort_desc.
  assert (∀ acc, y ∈ foldl (λ acc x, insert_desc key x acc) acc l ↔ y ∈ acc ∨ y ∈ l) as H.
  { induction l as [|x l IH]; intros acc; cbn; [set_solver|].
    rewrite IH, insert_desc_elem. set_solver. }
  rewrite H. set_solver.
Qed.

Lemma update_entry_paired (P : string → Prop) k g d :
  Forall (paired P) d →
  (∀ kv, kv.1 = k → paired P kv → paired P (kv.1, g kv.2)) →
  Forall (paired P) (update_entry k g d).
Proof.
  intros Hd Hg. induction Hd as [|kv d Hkv Hd IH]; cbn; constructor; [|done].
  destruct (String.eqb_spec kv.1 k); [by apply Hg|done].
Qed.

Lemma group_file_paired (P : string → Prop) d f :
  P f → Forall (paired P) d → Forall (paired P) (group_file d f).
Proof.
  intros HP Hd. unfold group_file.
  destruct (rsplit2 "_"%char f) as [|p0 [|p1 [|p2 [|? ?]]]] eqn:E; try done.
  destruct (rsplit2_three _ _ _ _ _ E) as (_ & Hp1 & _).
  set (base := p0 +:+ "_" +:+ p1).
  set (d1 := if has_key base d then d else _).
  assert (Forall (paired P) d1) as Hd1.
  { unfold d1. destruct (has_key base d); [done|].
    apply Forall_app; split; [done|]. constructor; [|constructor].
    exists p0, p1. cbn. split_and!; done. }
  assert (∀ kv, kv.1 = base → paired P kv →
                kv.1 = p0 +:+ "_" +:+ p1 ∧
                ge_plate kv.2 = p1 ∧
                ge_timestamp kv.2 = replace_char "T"%char " "%char p0 ∧
                (∀ f, ge_det kv.2 = Some f →
                   P f ∧ ∃ p2, rsplit2 "_"%char f = [p0; p1; p2] ∧
                               before_first "."%char p2 = "det") ∧
                (∀ f, ge_ocr kv.2 = Some f →
                   P f ∧ ∃ p2, rsplit2 "_"%char f = [p0; p1; p2] ∧
                               before_first "."%char p2 = "ocr")) as Hsame.
  { intros kv Hk (q0 & q1 & Hkq & Hq1 & Hpl & Hts & Hdet & Hocr).
    assert (q0 = p0 ∧ q1 = p1) as [-> ->].
    { apply (append_sep_inj "_"%char); [done..|].
      change (q0 +:+ "_" +:+ q1 = p0 +:+ "_" +:+ p1). by rewrite <- Hkq, Hk. }
    done. }
  destruct (String.eqb_spec (before_first "."%char p2) "det") as [Hdet|_].
  { apply update_entry_paired; [done|].
    intros kv Hk Hkv. destruct (Hsame kv Hk Hkv) as (H1 & H2 & H3 & H4 & H5).
    exists p0, p1. cbn. split_and!; try done.
    intros f' [= <-]. split; [done|]. by exists p2. }
  destruct (String.eqb_spec (before_first "."%char p2) "ocr") as [Hocr|_]; [|done].
  apply update_entry_paired; [done|].
  intros kv Hk Hkv. destruct (Hsame kv Hk Hkv) as (H1 & H2 & H3 & H4 & H5).
  exists p0, p1. cbn. split_and!; try done.
  intros f' [= <-]. split; [done|]. by exists p2.
Qed.

Lemma foldl_group_file_paired (P : string → Prop) files d :
  (∀ f, f ∈ files → P f) → Forall (paired P) d →
  Forall (paired P) (foldl group_file d files).
Proof.
  revert d. induction files as [|f files IH]; intros d HP Hd; cbn [foldl]; [done|].
  apply IH; [set_solver|]. apply group_file_paired; [|done]. apply HP. set_solver.
Qed.

(** X22. The gallery never mixes files: the endpoint answers with the error
    exactly when DEBUG_SAVE is off; otherwise it returns at most ten items,
    and each item holds a 'det' file and an 'ocr' file of the directory,
    both ending in .jpg or .jpeg, whose names agree on everything before
    their last underscore ([p0_p1], the last part beginning with "det" and
    with "ocr"); the item's 'plate' is [p1], the part between the last two
    underscores, and its 'timestamp' is [p0] with every "T" turned into a
    space. *)
Theorem gallery_items_pair_files_of_one_base cfg listdir :
  (get_debug_files cfg listdir = DebugDisabled ↔ DEBUG_SAVE cfg = false) ∧
  ∀ debug_data, get_debug_files cfg listdir = Gallery debug_data →
    (length debug_data ≤ 10)%nat ∧
    ∀ e, e ∈ debug_data →
      ∃ det ocr p0 p1 pd po,
        ge_det e = Some det ∧ ge_ocr e = Some ocr ∧
        det ∈ listdir ∧ ocr ∈ listdir ∧ is_jpeg det = true ∧ is_jpeg ocr = true ∧
        rsplit2 "_"%char det = [p0; p1; pd] ∧ rsplit2 "_"%char ocr = [p0; p1; po] ∧
        before_first "."%char pd = "det" ∧ before_first "."%char po = "ocr" ∧
        ge_plate e = p1 ∧ ge_timestamp e = replace_char "T"%char " "%char p0.
Proof.
  unfold get_debug_files. destruct (DEBUG_SAVE cfg); cbn [negb].
  2:{ split; [done|]. intros ? [=]. }
  split; [done|]. intros debug_data [= <-].
  split; [rewrite length_take; lia|].
  intros e He%subseteq_take.
  apply list_elem_of_filter in He as [Hboth He].
  apply list_elem_of_fmap in He as ([k e'] & -> & Hkv). cbn in Hboth.
  apply andb_true_iff in Hboth as [Hd Ho].
  pose proof (foldl_group_file_paired
                (λ f, f ∈ listdir ∧ is_jpeg f = true)
                (sort_desc (before_first "_"%char) (filter (λ f, is_jpeg f = true) listdir))
                []) as Hall.
  assert (paired (λ f, f ∈ listdir ∧ is_jpeg f = true) (k, e'))
    as (p0 & p1 & _ & _ & Hpl & Hts & Hdet & Hocr).
  { eapply Forall_forall; [apply Hall|exact Hkv]; [|constructor].
    intros f Hf%sort_desc_elem%list_elem_of_filter. tauto. }
  cbn in *.
  destruct (ge_det e') as [det|] eqn:Ed; [|done].
  destruct (ge_ocr e') as [ocr|] eqn:Eo; [|done].
  destruct (Hdet det eq_refl) as ((? & ?) & pd & ? & ?).
  destruct (Hocr ocr eq_refl) as ((? & ?) & po & ? & ?).
  exists det, ocr, p0, p1, pd, po. split_and!; done.
Qed.

Lemma debug_name_suffix ts plate_text tag kind :
  debug_name ts plate_text tag kind
  = (ts +:+ "_" +:+ plate_text +:+ "_" +:+ tag +:+ "_" +:+ kind) +:+ ".jpg".
Proof.
  unfold debug_name. rewrite !append_assoc_str. done.
Qed.

Lemma debug_name_parts ts plate_text tag kind :
  no_char "_"%char tag = true → no_char "_"%char (kind +:+ ".jpg") = true →
  rsplit2 "_"%char (debug_name ts plate_text tag kind)
  = [ts +:+ "_" +:+ plate_text; tag; kind +:+ ".jpg"].
Proof.
  intros Htag Hkind. rewrite <- (rsplit2_append "_"%char _ _ _ Htag Hkind).
  f_equal. unfold debug_name. rewrite !append_assoc_str. done.
Qed.

Lemma debug_name_key ts plate_text tag kind kind' :
  before_first "_"%char (debug_name ts plate_text tag kind)
  = before_first "_"%char (debug_name ts plate_text tag kind').
Proof.
  apply (before_first_common "_"%char ts).
Qed.

Lemma debug_name_is_jpeg ts plate_text tag kind :
  is_jpeg (debug_name ts plate_text tag kind) = true.
Proof.
  unfold is_jpeg. by rewrite debug_name_suffix, ends_with_append.
Qed.

Lemma debug_name_truthy ts plate_text tag kind :
  truthy (Some (debug_name ts plate_text tag kind)) = true.
Proof.
  rewrite debug_name_suffix. cbn [truthy].
  by destruct (ts +:+ "_" +:+ plate_text +:+ "_" +:+ tag +:+ "_" +:+ kind).
Qed.

(** X23. What [_save_debug_images] writes, the gallery shows as one item: when
    the directory holds, in any order, the "det" and the "ocr" file of one
    call (and [tag] has no underscore, as "conf", "upload" and "proc" have
    none), the endpoint returns one item with the two names.  The item's
    'plate' is the tag, not the plate text, and the plate text sits in the
    'timestamp' behind the time, with every "T" turned into a space. *)
Theorem gallery_shows_a_saved_pair cfg ts plate_text tag listdir :
  DEBUG_SAVE cfg = true → no_char "_"%char tag = true →
  listdir ≡ₚ [debug_name ts plate_text tag "det"; debug_name ts plate_text tag "ocr"] →
  get_debug_files cfg listdir
  = Gallery [GalleryEntry (Some (debug_name ts plate_text tag "det"))
                          (Some (debug_name ts plate_text tag "ocr"))
                          tag
                          (replace_char "T"%char " "%char (ts +:+ "_" +:+ plate_text))].
Proof.
  intros Hcfg Htag Hperm. unfold get_debug_files. rewrite Hcfg. cbn [negb].
  pose proof (debug_name_parts ts plate_text tag "det" Htag eq_refl) as Pdet.
  pose proof (debug_name_parts ts plate_text tag "ocr" Htag eq_refl) as Pocr.
  pose proof (debug_name_key ts plate_text tag "det" "ocr") as Hkey.
  pose proof (debug_name_is_jpeg ts plate_text tag "det") as Jdet.
  pose proof (debug_name_is_jpeg ts plate_text tag "ocr") as Jocr.
  pose proof (debug_name_truthy ts plate_text tag "det") as Tdet.
  pose proof (debug_name_truthy ts plate_text tag "ocr") as Tocr.
  set (det := debug_name ts plate_text tag "det") in *.
  set (ocr := debug_name ts plate_text tag "ocr") in *.
  set (base := (ts +:+ "_" +:+ plate_text) +:+ "_" +:+ tag).
  assert (∀ d, group_file d det
               = update_entry base
                   (λ e, GalleryEntry (Some det) (ge_ocr e) (ge_plate e) (ge_timestamp e))
                   (if has_key base d then d
                    else d ++ [(base, GalleryEntry None None tag
                                  (replace_char "T"%char " "%char
                                     (ts +:+ "_" +:+ plate_text)))])) as Gdet.
  { intros d. unfold group_file. rewrite Pdet. done. }
  assert (∀ d, group_file d ocr
               = update_entry base
                   (λ e, GalleryEntry (ge_det e) (Some ocr) (ge_plate e) (ge_timestamp e))
                   (if has_key base d then d
                    else d ++ [(base, GalleryEntry None None tag
                                  (replace_char "T"%char " "%char
                                     (ts +:+ "_" +:+ plate_text)))])) as Gocr.
  { intros d. unfold group_file. rewrite Pocr. done. }
  clearbody det ocr base.
  apply Permutation_sym, Permutation_length_2_inv in Hperm as [->| ->].
  - rewrite (filter_cons_True _ det), (filter_cons_True _ ocr), filter_nil by done.
    unfold sort_desc. cbn [foldl insert_desc]. rewrite Hkey, str_lt_irrefl.
    cbn [foldl]. rewrite Gdet, Gocr.
    cbn [has_key existsb update_entry map app fst snd].
    rewrite !String.eqb_refl.
    cbn [has_key existsb update_entry map app fst snd orb].
    rewrite !String.eqb_refl.
    cbn [fmap list_fmap snd ge_det ge_ocr ge_plate ge_timestamp].
    rewrite filter_cons_True, filter_nil; [done|].
    cbn [ge_det ge_ocr]. by rewrite Tdet, Tocr.
  - rewrite (filter_cons_True _ ocr), (filter_cons_True _ det), filter_nil by done.
    unfold sort_desc. cbn [foldl insert_desc]. rewrite Hkey, str_lt_irrefl.
    cbn [foldl]. rewrite Gdet, Gocr.
    cbn [has_key existsb update_entry map app fst snd].
    rewrite !String.eqb_refl.
    cbn [has_key existsb update_entry map app fst snd orb].
    rewrite !String.eqb_refl.
    cbn [fmap list_fmap snd ge_det ge_ocr ge_plate ge_timestamp].
    rewrite filter_cons_True, filter_nil; [done|].
    cbn [ge_det ge_ocr]. by rewrite Tdet, Tocr.
Qed.

(** * The further properties at work on concrete inputs *)

(** After a sighting, a sweep and a second sighting, "XYZ999" is a key of
    the livestream tracker, and it is the text of a box of the run. *)
Lemma ls_tracked_texts_come_from_boxes_witness :
  (4 ≤ String.length "XYZ999")%nat ∧
  ∃ w b, Camera w b ∈ [Camera calm (plate_box 0); Watcher 1; Camera calm (plate_box 2)] ∧
         box_text b = "XYZ999" ∧ is_Some (box_crop b).
Proof.
  destruct (ls_tracked_texts_come_from_boxes Livestream.defaults first_seen_order
              [Camera calm (plate_box 0); Watcher 1; Camera calm (plate_box 2)]) as [_ H].
  apply H. left. vm_compute. eexists. reflexivity.
Defined.

(** The same run in the upload script. *)
Lemma up_tracked_texts_come_from_boxes_witness :
  (4 ≤ String.length "XYZ999")%nat ∧
  ∃ w b, Camera w b ∈ [Camera calm (plate_box 0); Watcher 1; Camera calm (plate_box 2)] ∧
         box_text b = "XYZ999" ∧ is_Some (box_crop b).
Proof.
  destruct (up_tracked_texts_come_from_boxes Upload.defaults first_seen_order
              [Camera calm (plate_box 0); Watcher 1; Camera calm (plate_box 2)]) as [_ H].
  apply H. left. vm_compute. eexists. reflexivity.
Defined.

(** After five sightings "XYZ999" is confirmed in the upload script, so
    its bucket has reached the threshold. *)
Lemma up_confirmed_iff_bucket_at_threshold_witness :
  ∃ v, Upload.plates_seen
         (Upload.run Upload.defaults first_seen_order Upload.initial
            (Upload.same_text "XYZ999" (sightings 5 0))).1 !! "XYZ999" = Some v ∧
       STABILITY_COUNT Upload.defaults ≤ Upload.count v.
Proof.
  apply (up_confirmed_iff_bucket_at_threshold Upload.defaults first_seen_order
           (Upload.same_text "XYZ999" (sightings 5 0)) "XYZ999").
  apply (bool_decide_unpack _). vm_compute. exact I.
Defined.

(** "XYZ999" was seen at seconds 0 to 4: a sweep at second 18 adds
    nothing to a sweep at second 40. *)
Lemma sweeps_compose_witness :
  Livestream.sweep Livestream.defaults 40
    (Livestream.sweep Livestream.defaults 18
       (Livestream.run Livestream.defaults first_seen_order Livestream.initial
          (Livestream.same_text "XYZ999" (sightings 5 0))).1)
  = Livestream.sweep Livestream.defaults 40
      (Livestream.run Livestream.defaults first_seen_order Livestream.initial
         (Livestream.same_text "XYZ999" (sightings 5 0))).1.
Proof.
  destruct (sweeps_compose Livestream.defaults 18 40) as (H & _).
  - unfold Qle. simpl. lia.
  - apply H.
Defined.

(** A text seen at second 10 survives the sweep of second 20. *)
Lemma observation_refreshes_expiry_witness :
  Livestream.count_of
    (Livestream.sweep Livestream.defaults 20
       (Livestream.observe Livestream.defaults first_seen_order calm Livestream.initial
          "XYZ999" (9 # 10) 10 crop0).1) "XYZ999"
  = Livestream.count_of Livestream.initial "XYZ999" + 1.
Proof.
  destruct (observation_refreshes_expiry Livestream.defaults first_seen_order calm
              "XYZ999" (9 # 10) 10 20) as (H & _).
  - unfold Qle. simpl. lia.
  - apply H.
Defined.

(** "XYZ999" was seen once at second 0; the sweep of second 20 finds it
    expired, and the sighting of second 30 starts again at count 1. *)
Lemma expiry_restarts_the_bucket_witness :
  Livestream.plates_seen
    (Livestream.observe Livestream.defaults first_seen_order calm
       (Livestream.sweep Livestream.defaults 20
          (Livestream.run Livestream.defaults first_seen_order Livestream.initial
             (Livestream.same_text "XYZ999" (sightings 1 0))).1)
       "XYZ999" (1 # 2) 30 crop0).1 !! "XYZ999"
  = Some (Livestream.Candidate 1 30 (1 # 2) ["XYZ999"]).
Proof.
  destruct (expiry_restarts_the_bucket Livestream.defaults first_seen_order calm
              "XYZ999" (1 # 2) 30 20) as (H & _).
  apply (H _ (Livestream.Candidate 1 (inject_Z (0 + Z.of_nat 0)) (9 # 10) ["XYZ999"])).
  - vm_compute. reflexivity.
  - vm_compute. reflexivity.
Defined.

(** The crop of the box (100, 200, 300, 260) in a 1280x720 frame. *)
Lemma crop_lies_inside_the_frame_witness :
  0 ≤ r_top (Rect 196 264 84 316) ∧
  r_top (Rect 196 264 84 316) < r_bottom (Rect 196 264 84 316) ∧
  r_bottom (Rect 196 264 84 316) ≤ 720 - 1 ∧
  0 ≤ r_left (Rect 196 264 84 316) ∧
  r_left (Rect 196 264 84 316) < r_right (Rect 196 264 84 316) ∧
  r_right (Rect 196 264 84 316) ≤ 1280 - 1.
Proof.
  apply (crop_lies_inside_the_frame 720 1280 (100, 200, 300, 260) CROP_PAD).
  - lia.
  - lia.
  - vm_compute. reflexivity.
Defined.

Lemma crop_covers_the_box_witness :
  ∃ r, crop_with_padding 720 1280 (100, 200, 300, 260) CROP_PAD = Some r ∧
       r_left r ≤ 100 ∧ r_top r ≤ 200 ∧
       Z.min 300 (1280 - 1) ≤ r_right r ∧ Z.min 260 (720 - 1) ≤ r_bottom r.
Proof.
  apply (crop_covers_the_box 720 1280 100 200 300 260 CROP_PAD).
  - unfold Qle. simpl. lia.
  - lia.
  - lia.
  - lia.
  - lia.
Defined.

(** A box whose left edge is the last column of a 1280x720 frame. *)
Lemma crop_drops_a_box_in_the_last_column_witness :
  crop_with_padding 720 1280 (1279, 10, 1280, 50) CROP_PAD = None.
Proof.
  apply (crop_drops_a_box_in_the_last_column 720 1280 1279 10 1280 50 CROP_PAD).
  - unfold Qle. simpl. lia.
  - unfold Qlt. simpl. lia.
  - lia.
  - lia.
Defined.

Lemma run_ocr_takes_the_most_confident_text_witness :
  ∃ i best, yb_readtext plate_yolo_box !! i = Some best ∧
    (∀ j r, yb_readtext plate_yolo_box !! j = Some r →
            (ocr_conf r <= ocr_conf best)%Q ∧
            ((j < i)%nat → (ocr_conf r < ocr_conf best)%Q)) ∧
    run_ocr (yb_readtext plate_yolo_box) = py_upper (keep_alnum (ocr_text best)) ∧
    up_run_ocr (yb_readtext plate_yolo_box)
    = (run_ocr (yb_readtext plate_yolo_box), ocr_conf best).
Proof.
  apply (run_ocr_takes_the_most_confident_text (yb_readtext plate_yolo_box)).
  vm_compute. discriminate.
Defined.

Lemma run_ocr_text_is_clean_witness :
  plate_chars (run_ocr (yb_readtext plate_yolo_box)) = true.
Proof.
  destruct (run_ocr_text_is_clean (yb_readtext plate_yolo_box)) as (H & _).
  - intros r Hr. apply elem_of_cons in Hr as [->|Hr]; [reflexivity|].
    apply elem_of_cons in Hr as [->|Hr]; [reflexivity|].
    by apply elem_of_nil in Hr.
  - exact H.
Defined.

(** The camera loop is fed what [run_ocr] makes of "b 1234-xy": the
    tracker holds "B1234XY". *)
Lemma tracked_texts_are_plate_texts_witness :
  (4 ≤ String.length "B1234XY")%nat ∧ plate_chars "B1234XY" = true.
Proof.
  destruct (tracked_texts_are_plate_texts Livestream.defaults first_seen_order
              [Camera calm (Box (9 # 10) (Some crop0)
                              (run_ocr (yb_readtext plate_yolo_box)) 0)]) as (H & _).
  - intros w b Hb. apply elem_of_cons in Hb as [Hb|Hb]; [|by apply elem_of_nil in Hb].
    injection Hb as -> ->. exists (yb_readtext plate_yolo_box). split; [|reflexivity].
    intros r Hr. apply elem_of_cons in Hr as [->|Hr]; [reflexivity|].
    apply elem_of_cons in Hr as [->|Hr]; [reflexivity|].
    by apply elem_of_nil in Hr.
  - apply H. left. vm_compute. eexists. reflexivity.
Defined.

(** With FRAME_SKIP = 5, of eleven frames read two are processed. *)
Lemma every_kth_frame_is_processed_witness :
  count_processed
    (camera_session 5 0 [true; false; true; true; true; true; true; true; false;
                         true; true; true; true])
  = frames_read [true; false; true; true; true; true; true; true; false;
                 true; true; true; true] / 5.
Proof.
  destruct (every_kth_frame_is_processed 5
              [true; false; true; true; true; true; true; true; false;
               true; true; true; true]) as (_ & _ & H).
  - lia.
  - apply H. lia.
Defined.

Lemma zero_frame_skip_stops_the_camera_witness :
  ∃ n, [false; true; true] !! n = Some true ∧
       take n [false; true; true] = replicate n false ∧
       camera_session 0 7 [false; true; true] = replicate n ReadFailed ++ [DivisionByZero].
Proof.
  destruct (zero_frame_skip_stops_the_camera [false; true; true] 7) as (_ & H).
  apply H. apply (bool_decide_unpack _). vm_compute. exact I.
Defined.

(** An uploaded image with one plate: one detection, "B1234XY". *)
Lemma up_process_image_reports_each_detection_once_witness :
  (4 ≤ String.length "B1234XY")%nat ∧
  ∃ yb, yb ∈ [plate_yolo_box] ∧
        up_run_ocr (yb_readtext yb) = ("B1234XY", 95 # 100) ∧
        9 # 10 = yb_conf yb ∧ (100, 200, 300, 260) = yb_xyxy yb ∧
        is_Some (crop_with_padding 720 1280 (yb_xyxy yb) CROP_PAD).
Proof.
  destruct (up_process_image_reports_each_detection_once Upload.defaults CROP_PAD 720 1280
              [plate_yolo_box]) as (_ & _ & _ & _ & H).
  apply (H (UpDetection "B1234XY" (9 # 10) (95 # 100) (100, 200, 300, 260))).
  vm_compute. left.
Defined.

(** The livestream [process_image] on a box with the three-character text
    "AB1", the disk refusing the processed image and taking the fallback. *)
Lemma ls_process_image_detections_witness :
  (1 ≤ String.length (ld_plate short_detection))%nat ∧
  ∃ yb d ts, (yb, d, ts) ∈ [(short_yolo_box, Disk true false true, saved_ts)] ∧
    ld_plate short_detection = run_ocr (yb_readtext yb) ∧
    ld_conf short_detection = yb_conf yb ∧ ld_bbox short_detection = yb_xyxy yb ∧
    is_Some (crop_with_padding 720 1280 (yb_xyxy yb) CROP_PAD) ∧
    (ld_det_path short_detection = None ∧ ld_ocr_path short_detection = None ∧
     (true = false ∨ det_ok d = false ∨ (ocr_ok d = false ∧ fallback_ok d = false)) ∨
     true = true ∧ det_ok d = true ∧ (ocr_ok d = true ∨ fallback_ok d = true) ∧
     ld_det_path short_detection
     = Some (debug_path ts (ld_plate short_detection) (if false then "upload" else "proc") "det") ∧
     ld_ocr_path short_detection
     = Some (debug_path ts (ld_plate short_detection) (if false then "upload" else "proc") "ocr")).
Proof.
  destruct (ls_process_image_detections CROP_PAD 720 1280 true false
              [(short_yolo_box, Disk true false true, saved_ts)]) as (_ & _ & H).
  apply (H short_detection).
  vm_compute. left.
Defined.

Lemma short_texts_are_reported_but_not_tracked_witness :
  (∃ x, (ls_process_box CROP_PAD 720 1280 true false short_yolo_box
           (Disk true true true) saved_ts).1 = Some x ∧
        ld_plate x = run_ocr (yb_readtext short_yolo_box)) ∧
  Livestream.detection_box Livestream.defaults first_seen_order (yb_world short_yolo_box)
    Livestream.initial
    (Box (yb_conf short_yolo_box) (Some (yb_crop short_yolo_box))
         (run_ocr (yb_readtext short_yolo_box)) 0)
  = (Livestream.initial, ([EvRunOcr (yb_crop short_yolo_box)], Returned)).
Proof.
  apply (short_texts_are_reported_but_not_tracked Livestream.defaults first_seen_order
           CROP_PAD 720 1280 true false short_yolo_box (Disk true true true) saved_ts
           Livestream.initial 0).
  - vm_compute. eexists. reflexivity.
  - vm_compute. lia.
Defined.


(** "XYZ999" is confirmed after five sightings; the watcher of second 100
    prints its exit line and it is confirmed no more. *)
Lemma up_exit_lines_are_the_unconfirmed_texts_witness :
  "XYZ999" ∉ Upload.confirmed_plates
    (Upload._exit_watcher Upload.defaults 100
       (Upload.run Upload.defaults first_seen_order Upload.initial
          (Upload.same_text "XYZ999" (sightings 5 0))).1).1.
Proof.
  destruct (up_exit_lines_are_the_unconfirmed_texts Upload.defaults 100
              (Upload.run Upload.defaults first_seen_order Upload.initial
                 (Upload.same_text "XYZ999" (sightings 5 0))).1) as (_ & _ & H & _).
  apply (H "XYZ999"). apply (bool_decide_unpack _). vm_compute. exact I.
Defined.

(** A directory with the two files of one save and a file that is no
    image: the gallery has one item. *)
Lemma gallery_items_pair_files_of_one_base_witness :
  (length [GalleryEntry (Some (debug_name saved_ts "B1234XY" "conf" "det"))
                        (Some (debug_name saved_ts "B1234XY" "conf" "ocr"))
                        "conf" "2025-11-11 10-00-00_B1234XY"] ≤ 10)%nat ∧
  ∀ e, e ∈ [GalleryEntry (Some (debug_name saved_ts "B1234XY" "conf" "det"))
                         (Some (debug_name saved_ts "B1234XY" "conf" "ocr"))
                         "conf" "2025-11-11 10-00-00_B1234XY"] →
    ∃ det ocr p0 p1 pd po,
      ge_det e = Some det ∧ ge_ocr e = Some ocr ∧
      det ∈ [debug_name saved_ts "B1234XY" "conf" "ocr"; "notes.txt";
             debug_name saved_ts "B1234XY" "conf" "det"] ∧
      ocr ∈ [debug_name saved_ts "B1234XY" "conf" "ocr"; "notes.txt";
             debug_name saved_ts "B1234XY" "conf" "det"] ∧
      is_jpeg det = true ∧ is_jpeg ocr = true ∧
      rsplit2 "_"%char det = [p0; p1; pd] ∧ rsplit2 "_"%char ocr = [p0; p1; po] ∧
      before_first "."%char pd = "det" ∧ before_first "."%char po = "ocr" ∧
      ge_plate e = p1 ∧ ge_timestamp e = replace_char "T"%char " "%char p0.
Proof.
  destruct (gallery_items_pair_files_of_one_base Upload.defaults
              [debug_name saved_ts "B1234XY" "conf" "ocr"; "notes.txt";
               debug_name saved_ts "B1234XY" "conf" "det"]) as [_ H].
  apply H. vm_compute. reflexivity.
Defined.

Lemma gallery_shows_a_saved_pair_witness :
  get_debug_files Upload.defaults
    [debug_name saved_ts "B1234XY" "conf" "ocr"; debug_name saved_ts "B1234XY" "conf" "det"]
  = Gallery [GalleryEntry (Some (debug_name saved_ts "B1234XY" "conf" "det"))
                          (Some (debug_name saved_ts "B1234XY" "conf" "ocr"))
                          "conf"
                          (replace_char "T"%char " "%char (saved_ts +:+ "_" +:+ "B1234XY"))].
Proof.
  apply (gallery_shows_a_saved_pair Upload.defaults saved_ts "B1234XY" "conf").
  - reflexivity.
  - reflexivity.
  - apply perm_swap.
Defined.

(** * What stops the camera loop of app_trial_livestream.py *)

Lemma trial_seen_entry_texts ps t cf now : Trial.texts (Trial.seen_entry ps t cf now) ≠ [].
Proof.
  unfold Trial.seen_entry. destruct (ps !! t) as [v|]; cbn; [|done].
  by destruct (Trial.texts v).
Qed.

Lemma trial_seen_entry_count ps t cf now :
  Trial.count (Trial.seen_entry ps t cf now)
  = match ps !! t with Some v => Trial.count v + 1 | None => 1 end.
Proof.
  unfold Trial.seen_entry. by destruct (ps !! t).
Qed.

(** X24. A turn of the camera loop of app_trial_livestream.py on one box raises
    in two cases only, both for a box with a crop and a text of at least
    four characters: DEBUG_SAVE is on and the write of the crop fails, and
    then the tracker is untouched and the lock was never taken; or the
    write went through, the sighting brings the count of a text that is not
    confirmed to STABILITY_COUNT, and the broker refuses the message, and
    then the lock has been released. *)
Theorem trial_camera_turn_raises_iff cfg o w s b :
  ((Trial.detection_box cfg o w s b).2.2 = Raised ↔
   ∃ crop, box_crop b = Some crop ∧ (4 ≤ String.length (box_text b))%nat ∧
     (DEBUG_SAVE cfg = true ∧ save_ok w = false ∨
      (DEBUG_SAVE cfg = true → save_ok w = true) ∧ publish_ok w = false ∧
      STABILITY_COUNT cfg
      ≤ match Trial.plates_seen s !! box_text b with
        | Some v => Trial.count v + 1
        | None => 1
        end ∧
      box_text b ∉ Trial.confirmed_plates s)) ∧
  (DEBUG_SAVE cfg = true → save_ok w = false →
   (Trial.detection_box cfg o w s b).1 = s ∧
   EvLockAcquire ∉ (Trial.detection_box cfg o w s b).2.1) ∧
  ((DEBUG_SAVE cfg = true → save_ok w = true) →
   (Trial.detection_box cfg o w s b).2.2 = Raised →
   last (Trial.detection_box cfg o w s b).2.1 = Some EvLockRelease).
Proof.
  unfold Trial.detection_box.
  destruct (box_crop b) as [crop|]; cbn [fst snd].
  2:{ split_and!; [|intros; split; [done|apply not_elem_of_nil]|done].
      split; [done|]. by intros (? & ? & _). }
  destruct (Nat.ltb_spec (String.length (box_text b)) 4) as [Hlen|Hlen]; cbn [fst snd].
  { split_and!.
    - split; [done|]. intros (? & _ & ? & _). lia.
    - intros _ _. split; [done|]. by intros ?%list_elem_of_singleton.
    - done. }
  assert (∀ save : io,
            save = (if DEBUG_SAVE cfg then write_debug_files w (box_text b) crop else io_skip) →
            (save.2 = Raised ↔ DEBUG_SAVE cfg = true ∧ save_ok w = false) ∧
            Forall (λ e, e ≠ EvLockAcquire) save.1) as Hsave.
  { intros save ->. unfold write_debug_files, io_do, io_fail, io_skip.
    destruct (DEBUG_SAVE cfg), (save_ok w); cbn; (split; [naive_solver|]);
      repeat constructor; done. }
  destruct (Hsave _ eq_refl) as [Hraise Hnolock]. clear Hsave.
  destruct (if DEBUG_SAVE cfg then write_debug_files w (box_text b) crop else io_skip)
    as [str [|]]; cbn [fst snd io_seq io_do app] in *.
  - (* the write went through *)
    assert (DEBUG_SAVE cfg = true → save_ok w = true) as Hok.
    { intros Hd. destruct (save_ok w) eqn:E; [done|].
      destruct Hraise as [_ H]. by specialize (H (conj Hd eq_refl)). }
    unfold Trial.observe.
    rewrite <- (trial_seen_entry_count (Trial.plates_seen s) (box_text b) (box_conf b) (box_time b)).
    set (v := Trial.seen_entry _ _ _ _).
    pose proof (trial_seen_entry_texts (Trial.plates_seen s) (box_text b)
                  (box_conf b) (box_time b)) as Hne. fold v in Hne.
    destruct (Z.leb_spec (STABILITY_COUNT cfg) (Trial.count v)) as [Hc|Hc];
      cbn [andb].
    2:{ cbn. split_and!; [|intros Hd Hs; specialize (Hok Hd); congruence|done].
        split; [done|]. intros (? & _ & _ & [[Hd Hs]|(_ & _ & ? & _)]); [|lia].
        specialize (Hok Hd). congruence. }
    destruct (decide (box_text b ∉ Trial.confirmed_plates s)) as [Hn|Hn].
    2:{ rewrite bool_decide_eq_false_2 by done. cbn.
        split_and!; [|intros Hd Hs; specialize (Hok Hd); congruence|done].
        split; [done|]. intros (? & _ & _ & [[Hd Hs]|(_ & _ & _ & ?)]); [|done].
        specialize (Hok Hd). congruence. }
    rewrite bool_decide_eq_true_2 by done.
    destruct (majority o (Trial.texts v)) as [final_text|] eqn:Hm.
    2:{ by apply majority_None in Hm. }
    unfold Trial.publish_event, client_publish, with_lock, io_seq, io_do, io_fail.
    destruct (publish_ok w) eqn:Hp; cbn.
    + split_and!; [|intros Hd Hs; specialize (Hok Hd); congruence|done].
      split; [done|]. intros (? & _ & _ & [[Hd Hs]|(_ & ? & _)]); [|done].
      specialize (Hok Hd). congruence.
    + split_and!; [|intros Hd Hs; specialize (Hok Hd); congruence|].
      * split; [|done]. intros _. exists crop. split_and!; [done|lia|]. right. done.
      * intros _ _. rewrite app_comm_cons, last_app. done.
  - (* the write raised *)
    destruct Hraise as [[Hd Hs] _]; [done|].
    split_and!.
    + split; [|done]. intros _. exists crop. split_and!; [done|lia|]. by left.
    + intros _ _. split; [done|]. intros Hin.
      apply elem_of_cons in Hin as [?|Hin]; [done|].
      rewrite Forall_forall in Hnolock. by apply (Hnolock _ Hin).
    + intros Hok. specialize (Hok Hd). congruence.
Qed.

(** With the constants of app_trial_livestream.py, "XYZ999" was seen twice;
    the third sighting finds the broker gone and raises. *)
Lemma trial_camera_turn_raises_iff_witness :
  (Trial.detection_box Trial.defaults first_seen_order broker_down
     (trial_run Trial.defaults first_seen_order Trial.initial
        (Livestream.same_text "XYZ999" (sightings 2 0))).1
     (plate_box 2)).2.2 = Raised.
Proof.
  destruct (trial_camera_turn_raises_iff Trial.defaults first_seen_order broker_down
              (trial_run Trial.defaults first_seen_order Trial.initial
                 (Livestream.same_text "XYZ999" (sightings 2 0))).1
              (plate_box 2)) as ((_ & H) & _).
  apply H. exists crop0. split; [reflexivity|]. split; [vm_compute; lia|].
  right. split; [reflexivity|]. split; [reflexivity|].
  split; [vm_compute; discriminate|].
  apply (bool_decide_unpack _). vm_compute. exact I.
Defined.
